(** * QuotaValidator: a shallow embedding of the validation engine

    The development follows the TypeScript sources of the repository:
    - [types.ts] and [lmsTypes.ts]: the data model and the static tables;
    - [utils/excelParser.ts]: [parseSubmissionMonthLabel],
      [formatSubmissionMonth], [cellVal], [strVal], [detectQuotaColumns],
      [readMonthCols], and [parseQuotaFile] and [parseReferenceFile] from
      the rows of a sheet on;
    - [utils/validators.ts]: [runValidation] (checks V1, V2, V3);
    - [utils/overlayValidators.ts]: [resolveRegion],
      [runOverlayValidation];
    - [utils/lmsValidators.ts]: [getExpectedActiveMonths], [runLmsValidation];
    - [utils/lmsExcelParser.ts]: [generateLmsProcessingMonths];
    - [utils/csvExport.ts]: [escapeCsv], [toCsvRow], [exportV1Results],
      [exportV2Results].

    Modelling conventions.
    - A JavaScript string is a [string] of the Standard Library, read as
      ASCII text: case mapping acts on the letters A-Z and a-z, and
      [trim] strips the ASCII white space characters.  Beyond ASCII,
      JavaScript strips and maps more characters (U+00A0 is white space,
      U+017F has the upper case S, U+212A the lower case k): a property
      that rests on [trim] or on a case mapping of free text is stated
      for ASCII text ([Props.asciiText], [Props.asciiCells],
      [Props.asciiRows]).
    - A JavaScript number is a [number]: NaN, the two infinities, or a
      finite value carried as a rational (every finite double is one).
      Only the tests [=== 0] and [> 0] are taken on numbers.
    - A [Date] is seen through the two accessors the code calls,
      [getUTCFullYear] and [getUTCMonth] (0-based).  An invalid date
      answers NaN to both and has no model here: a property that rests
      on the month of a date is stated for a valid one
      ([Props.validMonth]).
    - A static table is an object literal and [lookup] answers for its
      own keys.  For the name of a member that every object inherits
      JavaScript answers with that member: a property that rests on
      looking up free text leaves these names out
      ([Props.inheritedKey]).
    - A JavaScript [Map] is an association list in insertion order.
    - A thrown [Error] is the left summand of the result type. *)

From Stdlib Require Import List String Ascii Bool ZArith QArith Lia Arith.
From Stdlib Require Import Permutation Sorted.
Import ListNotations.

Open Scope string_scope.
Open Scope list_scope.
Open Scope Z_scope.

(** ** JavaScript strings *)

Module JsString.

Definition code (c : ascii) : N := N_of_ascii c.

Definition isUpper (c : ascii) : bool := ((65 <=? code c) && (code c <=? 90))%N.
Definition isLower (c : ascii) : bool := ((97 <=? code c) && (code c <=? 122))%N.
Definition isDigit (c : ascii) : bool := ((48 <=? code c) && (code c <=? 57))%N.

(** White space as [String.prototype.trim] sees it, within ASCII:
    TAB, LF, VT, FF, CR and SPACE. *)
Definition isSpace (c : ascii) : bool :=
  (((9 <=? code c) && (code c <=? 13)) || (code c =? 32))%N.

Definition lowerChar (c : ascii) : ascii :=
  if isUpper c then ascii_of_N (code c + 32) else c.

Definition upperChar (c : ascii) : ascii :=
  if isLower c then ascii_of_N (code c - 32) else c.

Fixpoint mapChars (f : ascii -> ascii) (s : string) : string :=
  match s with
  | EmptyString => EmptyString
  | String c r => String (f c) (mapChars f r)
  end.

Definition toLowerCase : string -> string := mapChars lowerChar.
Definition toUpperCase : string -> string := mapChars upperChar.

Fixpoint trimStart (s : string) : string :=
  match s with
  | EmptyString => EmptyString
  | String c r => if isSpace c then trimStart r else s
  end.

(** [trimEnd] drops the trailing white space: a character is kept when
    something that is kept follows it, or when it is no white space. *)
Fixpoint trimEnd (s : string) : string :=
  match s with
  | EmptyString => EmptyString
  | String c r =>
      match trimEnd r with
      | EmptyString => if isSpace c then EmptyString else String c EmptyString
      | String _ _ as r' => String c r'
      end
  end.

Definition trim (s : string) : string := trimEnd (trimStart s).

Definition startsWith (s p : string) : bool := String.prefix p s.

(** [Array.prototype.join]. *)
Definition join (sep : string) (l : list string) : string := String.concat sep l.

(** The double quote character, for the message templates. *)
Definition dq : string := String (ascii_of_nat 34) EmptyString.

(** The UTF-8 bytes of the rightwards arrow used in some messages. *)
Definition arrow : string :=
  String (ascii_of_nat 226) (String (ascii_of_nat 134) (String (ascii_of_nat 146) EmptyString)).

(** Truthiness of a [string | null]: non-null and non-empty. *)
Definition truthy (o : option string) : bool :=
  match o with
  | Some s => negb (s =? "")%string
  | None => false
  end.

(** [o ?? d] on a [string | null]. *)
Definition orElse (o : option string) (d : string) : string :=
  match o with Some s => s | None => d end.

(** [o === s] on a [string | null]. *)
Definition strictEq (o : option string) (s : string) : bool :=
  match o with Some t => (t =? s)%string | None => false end.

End JsString.

Import JsString.

(** ** JavaScript numbers and cell values *)

Inductive number : Type :=
| NaN
| Finite (q : Q)
| PosInfinity
| NegInfinity.

(** [n === 0] (both zeros of a double compare equal to 0). *)
Definition numIsZero (n : number) : bool :=
  match n with
  | Finite q => (Qnum q =? 0)%Z
  | _ => false
  end.

(** [n > 0]. *)
Definition numPositive (n : number) : bool :=
  match n with
  | Finite q => (0 <? Qnum q)%Z
  | PosInfinity => true
  | _ => false
  end.

(** A cell of an amount map: [number | string | null]. *)
Inductive cell : Type :=
| CNull
| CNum (n : number)
| CStr (s : string).

(** ** Dates, through the accessors the validators call *)

Record Date : Type := mkDate {
  getUTCFullYear : Z;
  getUTCMonth : Z  (* 0-based: January is 0 *)
}.

(** ** types.ts *)

Module Types.

Inductive Region : Type := APAC | EMEAL | NAMER.

Definition Region_eqb (a b : Region) : bool :=
  match a, b with
  | APAC, APAC | EMEAL, EMEAL | NAMER, NAMER => true
  | _, _ => false
  end.

Definition regionName (r : Region) : string :=
  match r with APAC => "APAC" | EMEAL => "EMEAL" | NAMER => "NAMER" end.

(** The twelve keys of a [MonthlyQuotas]. *)
Inductive MonthKey : Type :=
| JUL | AUG | SEP | OCT | NOV | DEC | JAN | FEB | MAR | APR | MAY | JUN.

Definition MonthKey_eqb (a b : MonthKey) : bool :=
  match a, b with
  | JUL, JUL | AUG, AUG | SEP, SEP | OCT, OCT | NOV, NOV | DEC, DEC
  | JAN, JAN | FEB, FEB | MAR, MAR | APR, APR | MAY, MAY | JUN, JUN => true
  | _, _ => false
  end.

Record MonthlyQuotas : Type := mkMonthly {
  mJUL : cell; mAUG : cell; mSEP : cell; mOCT : cell; mNOV : cell; mDEC : cell;
  mJAN : cell; mFEB : cell; mMAR : cell; mAPR : cell; mMAY : cell; mJUN : cell
}.

(** [quotas[key]]. *)
Definition mget (q : MonthlyQuotas) (k : MonthKey) : cell :=
  match k with
  | JUL => mJUL q | AUG => mAUG q | SEP => mSEP q | OCT => mOCT q
  | NOV => mNOV q | DEC => mDEC q | JAN => mJAN q | FEB => mFEB q
  | MAR => mMAR q | APR => mAPR q | MAY => mMAY q | JUN => mJUN q
  end.

Record QuotaRecord : Type := mkQuota {
  sheet : string;
  row : Z;
  eid : string;
  name : string;
  level : string;
  repRegion : string;
  dualMetric : string;
  quotaStartDate : option Date;
  submissionMonth : option Date;
  monthlyQuotas : MonthlyQuotas;
  monthlyQuotasY2Y3 : option MonthlyQuotas;
  monthlyQuotasComp2 : option MonthlyQuotas;
  monthlyQuotasComp2Y2Y3 : option MonthlyQuotas
}.

Record ReferenceRecord : Type := mkRef {
  refEid : string;
  fullName : string;
  activeStatus : option string;
  onLeave : option string;
  country : option string;
  jobTitle : option string
}.

Inductive ValidationStatus : Type := pass | fail | skip.

Definition ValidationStatus_eqb (a b : ValidationStatus) : bool :=
  match a, b with
  | pass, pass | fail, fail | skip, skip => true
  | _, _ => false
  end.

Record RefInfo : Type := mkRefInfo {
  riActiveStatus : option string;
  riOnLeave : option string;
  riCountry : option string
}.

Record V1Result : Type := mkV1 {
  v1Record : QuotaRecord;
  status : ValidationStatus;
  reason : string;
  refInfo : option RefInfo
}.

Record V2Result : Type := mkV2 {
  v2Eid : string;
  occurrences : list QuotaRecord
}.

Inductive FiscalHalf : Type := H1 | H2.

Definition H1_MONTHS : list MonthKey := [JUL; AUG; SEP; OCT; NOV; DEC].
Definition H2_MONTHS : list MonthKey := [JAN; FEB; MAR; APR; MAY; JUN].

Record V3Result : Type := mkV3 {
  v3Record : QuotaRecord;
  half : FiscalHalf;
  missingMonths : list MonthKey;
  quotaValues : list (MonthKey * cell);
  missingMonthsY2Y3 : list MonthKey;
  quotaValuesY2Y3 : list (MonthKey * cell);
  hasY2Y3 : bool;
  missingMonthsComp2 : list MonthKey;
  quotaValuesComp2 : list (MonthKey * cell);
  missingMonthsComp2Y2Y3 : list MonthKey;
  quotaValuesComp2Y2Y3 : list (MonthKey * cell);
  hasComp2 : bool;
  hasComp2Y2Y3 : bool
}.

Record Summary : Type := mkSummary {
  v1Pass : nat;
  v1Fail : nat;
  v1Skip : nat;
  v2DuplicateEids : nat;
  v3MissingQuota : nat;
  totalRecords : nat
}.

Record ValidationResults : Type := mkResults {
  v1 : list V1Result;
  v2 : list V2Result;
  v3 : list V3Result;
  summary : Summary
}.

(** [COUNTRY_REGION_MAP], in the order of the object literal. *)
Definition COUNTRY_REGION_MAP : list (string * Region) :=
  [ ("Australia", APAC); ("Austria", EMEAL); ("Belgium", EMEAL);
    ("Brazil", EMEAL); ("Canada", NAMER); ("China", APAC);
    ("France", EMEAL); ("Germany", EMEAL); ("Hong Kong", APAC);
    ("India", APAC); ("Ireland", EMEAL); ("Israel", EMEAL);
    ("Italy", EMEAL); ("Japan", APAC); ("Malaysia", APAC);
    ("Mexico", EMEAL); ("Netherlands", EMEAL); ("Singapore", APAC);
    ("Spain", EMEAL); ("Sweden", EMEAL); ("United Arab Emirates", EMEAL);
    ("United Kingdom", EMEAL); ("United States of America", NAMER) ].

(** Own-property lookup in a table keyed by strings.  Keys that name a
    property inherited from [Object.prototype] are not modelled. *)
Fixpoint lookup {V : Type} (tbl : list (string * V)) (k : string) : option V :=
  match tbl with
  | [] => None
  | (k', v) :: rest => if (k' =? k)%string then Some v else lookup rest k
  end.

Definition getCountriesForRegion (region : Region) : list string :=
  map fst (filter (fun e => Region_eqb (snd e) region) COUNTRY_REGION_MAP).

(** [new Set(countries).has(c)]. *)
Definition setHas (s : list string) (c : string) : bool :=
  existsb (fun x => (x =? c)%string) s.

Definition COUNTRY_CODE_REGION_MAP : list (string * Region) :=
  [ ("AU", APAC); ("AT", EMEAL); ("BE", EMEAL); ("BR", EMEAL); ("CA", NAMER);
    ("CN", APAC); ("FR", EMEAL); ("DE", EMEAL); ("HK", APAC); ("IN", APAC);
    ("IE", EMEAL); ("IL", EMEAL); ("IT", EMEAL); ("JP", APAC); ("MY", APAC);
    ("MX", EMEAL); ("NL", EMEAL); ("SG", APAC); ("ES", EMEAL); ("SE", EMEAL);
    ("AE", EMEAL); ("GB", EMEAL); ("UK", EMEAL); ("US", NAMER); ("KR", APAC);
    ("TW", APAC); ("TH", APAC); ("NZ", APAC); ("PH", APAC); ("ID", APAC);
    ("VN", APAC); ("AR", EMEAL); ("CL", EMEAL); ("CO", EMEAL); ("PE", EMEAL);
    ("ZA", EMEAL); ("SA", EMEAL); ("TR", EMEAL); ("PL", EMEAL); ("CZ", EMEAL);
    ("NO", EMEAL); ("DK", EMEAL); ("FI", EMEAL); ("PT", EMEAL); ("CH", EMEAL);
    ("RO", EMEAL); ("HU", EMEAL) ].

Definition MARKET_SEGMENT_REGION_MAP : list (string * Region) :=
  [ ("APAC", APAC); ("EMEAL", EMEAL); ("EMEA", EMEAL); ("LATAM", EMEAL);
    ("NAMER", NAMER) ].

End Types.

Import Types.

(** ** JavaScript [Map<string, V[]>], in insertion order *)

Module JsMap.

Section WithValue.
Context {V : Type}.

Definition t : Type := list (string * V).

Fixpoint get (m : t) (k : string) : option V :=
  match m with
  | [] => None
  | (k', v) :: rest => if (k' =? k)%string then Some v else get rest k
  end.

(** [m.set(k, v)]: an existing key keeps its place, a new key goes last. *)
Fixpoint set (m : t) (k : string) (v : V) : t :=
  match m with
  | [] => [(k, v)]
  | (k', v') :: rest =>
      if (k' =? k)%string then (k', v) :: rest else (k', v') :: set rest k v
  end.

Definition keys (m : t) : list string := map fst m.

End WithValue.

(** The idiom of the validators:
    [const existing = m.get(k) || []; existing.push(x); m.set(k, existing)]. *)
Definition push {A : Type} (m : list (string * list A)) (k : string) (x : A)
  : list (string * list A) :=
  let existing := match get m k with Some l => l | None => [] end in
  set m k (existing ++ [x]).

End JsMap.

(** ** utils/excelParser.ts: the period label *)

Module ExcelParser.

Record ParsedLabel : Type := mkParsed {
  year : Z;
  month : Z
}.

(** The alternation of the pattern
    [/^(Jan|Feb|Mar|Apr|May|Jun|Jul|Aug|Sep|Oct|Nov|Dec)-(\d{2})$/i]. *)
Definition monthAlternatives : list string :=
  ["Jan"; "Feb"; "Mar"; "Apr"; "May"; "Jun";
   "Jul"; "Aug"; "Sep"; "Oct"; "Nov"; "Dec"].

(** A literal of the pattern against the start of the input.  With the
    [i] flag two characters match when their upper-case forms agree.
    The result is the matched text and the rest of the input. *)
Fixpoint matchLiteral (lit s : string) : option (string * string) :=
  match lit, s with
  | EmptyString, _ => Some (EmptyString, s)
  | String a lit', String b s' =>
      if (upperChar a =? upperChar b)%char then
        match matchLiteral lit' s' with
        | Some (m, rest) => Some (String b m, rest)
        | None => None
        end
      else None
  | String _ _, EmptyString => None
  end.

(** [-(\d{2})$]: a hyphen, two digits, and the end of the input. *)
Definition matchTail (rest : string) : option string :=
  match rest with
  | String h (String d1 (String d2 EmptyString)) =>
      if (h =? "-")%char && isDigit d1 && isDigit d2
      then Some (String d1 (String d2 EmptyString))
      else None
  | _ => None
  end.

(** The alternatives are tried in order; when what follows an
    alternative fails, the next one is tried. *)
Fixpoint matchAlternation (alts : list string) (s : string)
  : option (string * string) :=
  match alts with
  | [] => None
  | a :: more =>
      match matchLiteral a s with
      | Some (g1, rest) =>
          match matchTail rest with
          | Some g2 => Some (g1, g2)
          | None => matchAlternation more s
          end
      | None => matchAlternation more s
      end
  end.

(** [label.match(pattern)]: the two capture groups. *)
Definition matchLabel (label : string) : option (string * string) :=
  matchAlternation monthAlternatives label.

Definition monthNames : list (string * Z) :=
  [ ("jan", 1); ("feb", 2); ("mar", 3); ("apr", 4); ("may", 5); ("jun", 6);
    ("jul", 7); ("aug", 8); ("sep", 9); ("oct", 10); ("nov", 11); ("dec", 12) ].

Definition digitValue (c : ascii) : Z := Z.of_N (code c) - 48.

(** [parseInt(s, 10)] on a string of decimal digits. *)
Fixpoint parseIntAcc (acc : Z) (s : string) : Z :=
  match s with
  | EmptyString => acc
  | String c r => parseIntAcc (10 * acc + digitValue c) r
  end.

Definition parseInt10 (s : string) : Z := parseIntAcc 0 s.

(** The table lookup cannot miss after a successful match (lemma
    [matchLabel_month] below), so its [None] branch is never taken. *)
Definition parseSubmissionMonthLabel (label : string) : option ParsedLabel :=
  match matchLabel label with
  | None => None
  | Some (g1, g2) =>
      match lookup monthNames (toLowerCase g1) with
      | Some m => Some (mkParsed (2000 + parseInt10 g2) m)
      | None => None
      end
  end.

End ExcelParser.

Import ExcelParser.

(** ** Thrown errors *)

Inductive Thrown : Type := JsError (message : string).

Definition result (A : Type) : Type := (Thrown + A)%type.
Definition Ok {A : Type} (a : A) : result A := inr a.
Definition Throw {A : Type} (message : string) : result A := inl (JsError message).

(** ** utils/validators.ts *)

Module Validators.

Definition isTbhOrBlank (eid : string) : bool :=
  (eid =? "")%string || (eid =? "-")%string || startsWith (toLowerCase eid) "tbh".

Definition isQuotaValueMissing (val : cell) : bool :=
  match val with
  | CNull => true
  | CStr s => (trim s =? "")%string || (trim s =? "-")%string
  | CNum n => numIsZero n
  end.

(** The filter that selects [targetRecords]. *)
Definition inPeriod (parsed : ParsedLabel) (rec : QuotaRecord) : bool :=
  match submissionMonth rec with
  | None => false
  | Some d =>
      (getUTCFullYear d =? year parsed) && (getUTCMonth d + 1 =? month parsed)
  end.

Definition targetRecords (allRecords : list QuotaRecord) (parsed : ParsedLabel)
  : list QuotaRecord :=
  filter (inPeriod parsed) allRecords.

(** The reference lookup [refMap], built in roster order. *)
Definition buildRefMap (refRecords : list ReferenceRecord)
  : list (string * list ReferenceRecord) :=
  fold_left (fun m ref => JsMap.push m (refEid ref) ref) refRecords [].

(** *** Validation 1: EID reference check *)

Definition activeIssue (ref : ReferenceRecord) : string :=
  ("Active Status=" ++ dq ++ orElse (activeStatus ref) "(blank)" ++ dq
   ++ " (expected Yes)")%string.

Definition onLeaveIssue (ref : ReferenceRecord) : string :=
  ("On Leave=" ++ dq ++ orElse (onLeave ref) "null" ++ dq
   ++ " (expected blank)")%string.

Definition countryIssue (selectedRegion : Region) (ref : ReferenceRecord) : string :=
  let regionOfCountry :=
    if truthy (country ref)
    then lookup COUNTRY_REGION_MAP (orElse (country ref) "")
    else None in
  ("Country=" ++ dq ++ orElse (country ref) "(blank)" ++ dq
   ++ match regionOfCountry with
      | Some r => " (Region: " ++ regionName r ++ ")"
      | None => ""
      end
   ++ " - not in " ++ regionName selectedRegion)%string.

Definition countryInvalid (validCountries : list string) (ref : ReferenceRecord) : bool :=
  negb (truthy (country ref))
  || negb (setHas validCountries (orElse (country ref) "")).

(** The body of the loop over [refs], up to the test on [issues.length]. *)
Definition refIssues (validCountries : list string) (selectedRegion : Region)
  (ref : ReferenceRecord) : list string :=
  (if negb (strictEq (activeStatus ref) "Yes") then [activeIssue ref] else [])
  ++ (if truthy (onLeave ref) then [onLeaveIssue ref] else [])
  ++ (if countryInvalid validCountries ref
      then [countryIssue selectedRegion ref] else []).

Record V1Loop : Type := mkV1Loop {
  foundValid : bool;
  lastIssues : list string;
  lastRef : option ReferenceRecord
}.

(** [for (const ref of refs)], with its [break]. *)
Fixpoint v1Loop (validCountries : list string) (selectedRegion : Region)
  (refs : list ReferenceRecord) (st : V1Loop) : V1Loop :=
  match refs with
  | [] => st
  | ref :: rest =>
      let issues := refIssues validCountries selectedRegion ref in
      if (List.length issues =? 0)%nat
      then mkV1Loop true (lastIssues st) (Some ref)
      else v1Loop validCountries selectedRegion rest
             (mkV1Loop (foundValid st) issues (Some ref))
  end.

Definition refInfoOf (ref : ReferenceRecord) : RefInfo :=
  mkRefInfo (activeStatus ref) (onLeave ref) (country ref).

(** One iteration of the loop over [targetRecords] that fills [v1Results]. *)
Definition v1Check (refMap : list (string * list ReferenceRecord))
  (validCountries : list string) (selectedRegion : Region)
  (rec : QuotaRecord) : V1Result :=
  if isTbhOrBlank (eid rec) then mkV1 rec skip "TBH / Blank EID" None
  else
    match JsMap.get refMap (eid rec) with
    | None => mkV1 rec fail "EID not found in reference file" None
    | Some [] => mkV1 rec fail "EID not found in reference file" None
    | Some refs =>
        let st := v1Loop validCountries selectedRegion refs
                    (mkV1Loop false [] None) in
        if foundValid st
        then mkV1 rec pass "" (option_map refInfoOf (lastRef st))
        else mkV1 rec fail (join "; " (lastIssues st))
               (option_map refInfoOf (lastRef st))
    end.

(** *** Validation 2: duplicate EID check *)

Definition buildEidMap (target : list QuotaRecord)
  : list (string * list QuotaRecord) :=
  fold_left
    (fun m rec => if isTbhOrBlank (eid rec) then m else JsMap.push m (eid rec) rec)
    target [].

(** [for (const [eid, recs] of eidMap.entries())]. *)
Fixpoint v2Collect (entries : list (string * list QuotaRecord)) : list V2Result :=
  match entries with
  | [] => []
  | (e, recs) :: rest =>
      if (1 <? List.length recs)%nat
      then mkV2 e recs :: v2Collect rest
      else v2Collect rest
  end.

(** *** Validation 3: missing quota amounts *)

Record V3Acc : Type := mkV3Acc {
  aMissing : list MonthKey;
  aValues : list (MonthKey * cell);
  aMissingY2Y3 : list MonthKey;
  aValuesY2Y3 : list (MonthKey * cell);
  aMissingComp2 : list MonthKey;
  aValuesComp2 : list (MonthKey * cell);
  aMissingComp2Y2Y3 : list MonthKey;
  aValuesComp2Y2Y3 : list (MonthKey * cell)
}.

Definition emptyAcc : V3Acc := mkV3Acc [] [] [] [] [] [] [] [].

(** [has ? bucket![key] : null]. *)
Definition bucketValue (has : bool) (bucket : option MonthlyQuotas) (key : MonthKey)
  : cell :=
  if has then match bucket with Some q => mget q key | None => CNull end
  else CNull.

Definition pushIf {A : Type} (b : bool) (l : list A) (x : A) : list A :=
  if b then l ++ [x] else l.

(** [for (let i = 0; i < halfMonthKeys.length; i++)]: [keys] is the part
    of [halfMonthKeys] from index [i] on. *)
Fixpoint v3Loop (rec : QuotaRecord) (hasY2 hasC2 hasC2Y2 : bool)
  (halfStartCalMonth effectiveStartCalMonth : Z)
  (i : Z) (keys : list MonthKey) (acc : V3Acc) : V3Acc :=
  match keys with
  | [] => acc
  | key :: rest =>
      let calMonth := halfStartCalMonth + i in
      let val := mget (monthlyQuotas rec) key in
      let valY2 := bucketValue hasY2 (monthlyQuotasY2Y3 rec) key in
      let valComp2 := bucketValue hasC2 (monthlyQuotasComp2 rec) key in
      let valComp2Y2 := bucketValue hasC2Y2 (monthlyQuotasComp2Y2Y3 rec) key in
      let checked := effectiveStartCalMonth <=? calMonth in
      v3Loop rec hasY2 hasC2 hasC2Y2 halfStartCalMonth effectiveStartCalMonth
        (i + 1) rest
        (mkV3Acc
           (pushIf (checked && isQuotaValueMissing val) (aMissing acc) key)
           (aValues acc ++ [(key, val)])
           (pushIf (checked && (hasY2 && isQuotaValueMissing valY2))
              (aMissingY2Y3 acc) key)
           (aValuesY2Y3 acc ++ [(key, valY2)])
           (pushIf (checked && (hasC2 && isQuotaValueMissing valComp2))
              (aMissingComp2 acc) key)
           (aValuesComp2 acc ++ [(key, valComp2)])
           (pushIf (checked && (hasC2Y2 && isQuotaValueMissing valComp2Y2))
              (aMissingComp2Y2Y3 acc) key)
           (aValuesComp2Y2Y3 acc ++ [(key, valComp2Y2)]))
  end.

Definition isSome {A : Type} (o : option A) : bool :=
  match o with Some _ => true | None => false end.

(** One iteration of the loop over [targetRecords] that fills
    [v3Results]: [None] when the iteration pushes nothing. *)
Definition v3Check (parsed : ParsedLabel) (rec : QuotaRecord) : option V3Result :=
  let isH1 := 7 <=? month parsed in
  let half := if isH1 then H1 else H2 in
  let halfMonthKeys := if isH1 then H1_MONTHS else H2_MONTHS in
  let halfStartCalMonth := if isH1 then 7 else 1 in
  match quotaStartDate rec with
  | None => None
  | Some qs =>
      let startYear := getUTCFullYear qs in
      let startMonth := getUTCMonth qs + 1 in
      let halfEndCalMonth := if isH1 then 12 else 6 in
      let halfYear := year parsed in
      if (halfYear <? startYear)
         || ((startYear =? halfYear) && (halfEndCalMonth <? startMonth))
      then None
      else
        let effectiveStartCalMonth :=
          if (startYear <? halfYear)
             || ((startYear =? halfYear) && (startMonth <? halfStartCalMonth))
          then halfStartCalMonth
          else startMonth in
        let hasY2 := isSome (monthlyQuotasY2Y3 rec) in
        let isDMC := (toUpperCase (dualMetric rec) =? "DMC")%string in
        let hasC2 := isDMC && isSome (monthlyQuotasComp2 rec) in
        let hasC2Y2 := isDMC && isSome (monthlyQuotasComp2Y2Y3 rec) in
        let acc := v3Loop rec hasY2 hasC2 hasC2Y2 halfStartCalMonth
                     effectiveStartCalMonth 0 halfMonthKeys emptyAcc in
        let hasMissing :=
          (0 <? List.length (aMissing acc))%nat
          || (0 <? List.length (aMissingY2Y3 acc))%nat
          || (0 <? List.length (aMissingComp2 acc))%nat
          || (0 <? List.length (aMissingComp2Y2Y3 acc))%nat in
        if hasMissing
        then Some (mkV3 rec half
                     (aMissing acc) (aValues acc)
                     (aMissingY2Y3 acc) (aValuesY2Y3 acc) hasY2
                     (aMissingComp2 acc) (aValuesComp2 acc)
                     (aMissingComp2Y2Y3 acc) (aValuesComp2Y2Y3 acc)
                     hasC2 hasC2Y2)
        else None
  end.

(** [for (const rec of targetRecords)] around [v3Check]. *)
Fixpoint v3Collect (parsed : ParsedLabel) (target : list QuotaRecord)
  : list V3Result :=
  match target with
  | [] => []
  | rec :: rest =>
      match v3Check parsed rec with
      | Some r => r :: v3Collect parsed rest
      | None => v3Collect parsed rest
      end
  end.

Definition countStatus (s : ValidationStatus) (l : list V1Result) : nat :=
  List.length (filter (fun r => ValidationStatus_eqb (status r) s) l).

Definition invalidMonthMessage (selectedMonth : string) : string :=
  ("Invalid submission month: " ++ selectedMonth)%string.

Definition runValidation (allRecords : list QuotaRecord)
  (refRecords : list ReferenceRecord) (selectedMonth : string)
  (selectedRegion : Region) : result ValidationResults :=
  match parseSubmissionMonthLabel selectedMonth with
  | None => Throw (invalidMonthMessage selectedMonth)
  | Some parsed =>
      let target := targetRecords allRecords parsed in
      let refMap := buildRefMap refRecords in
      let validCountries := getCountriesForRegion selectedRegion in
      let v1Results := map (v1Check refMap validCountries selectedRegion) target in
      let v2Results := v2Collect (buildEidMap target) in
      let v3Results := v3Collect parsed target in
      Ok (mkResults v1Results v2Results v3Results
            (mkSummary (countStatus pass v1Results)
                       (countStatus fail v1Results)
                       (countStatus skip v1Results)
                       (List.length v2Results)
                       (List.length v3Results)
                       (List.length target)))
  end.

End Validators.

(** ** utils/overlayValidators.ts: the region resolver *)

Module OverlayValidators.

(** The file repeats the text of [isTbhOrBlank] of validators.ts. *)
Definition isTbhOrBlank : string -> bool := Validators.isTbhOrBlank.

Inductive RegionMatchType : Type :=
| scr | segment_direct | segment_country_code | unknown.

Record OverlayRegionInfo : Type := mkInfo {
  matchType : RegionMatchType;
  comment : string
}.

Record Resolved : Type := mkResolved {
  included : bool;
  info : OverlayRegionInfo
}.

(** [ref.country != null && validCountries.has(ref.country)]. *)
Definition countryMatches (validCountries : list string) (ref : ReferenceRecord)
  : bool :=
  match country ref with
  | Some c => setHas validCountries c
  | None => false
  end.

(** Step (1), the SCR lookup: [Some] when the step returns, [None] when
    control falls through to the market segment. *)
Definition scrLookup (refs : option (list ReferenceRecord))
  (validCountries : list string) (selectedRegion : Region) : option Resolved :=
  match refs with
  | None => None
  | Some [] => None
  | Some ((firstRef :: _) as rs) =>
      match find (countryMatches validCountries) rs with
      | Some matchingRef =>
          Some (mkResolved true
                  (mkInfo scr ("SCR: " ++ orElse (country matchingRef) "null")%string))
      | None =>
          if truthy (country firstRef) then
            let c := orElse (country firstRef) "" in
            match lookup COUNTRY_REGION_MAP c with
            | Some refRegion =>
                if negb (Region_eqb refRegion selectedRegion) then
                  Some (mkResolved false
                          (mkInfo scr
                             ("SCR Country " ++ dq ++ c ++ dq ++ " belongs to "
                              ++ regionName refRegion ++ ", not "
                              ++ regionName selectedRegion)%string))
                else None
            | None => None
            end
          else None
      end
  end.

(** Steps (2) to (4), on the market segment of the record. *)
Definition segmentLookup (rec : QuotaRecord) (selectedRegion : Region) : Resolved :=
  let marketSegment := trim (repRegion rec) in
  let segmentUpper := toUpperCase marketSegment in
  match lookup MARKET_SEGMENT_REGION_MAP segmentUpper with
  | Some directRegion =>
      if Region_eqb directRegion selectedRegion then
        mkResolved true
          (mkInfo segment_direct ("Market Segment: " ++ marketSegment)%string)
      else
        mkResolved false
          (mkInfo segment_direct
             ("Market Segment " ++ dq ++ marketSegment ++ dq ++ " " ++ arrow
              ++ " " ++ regionName directRegion ++ ", not "
              ++ regionName selectedRegion)%string)
  | None =>
      let unknownResult :=
        mkResolved true
          (mkInfo unknown
             ("Region unconfirmed: EID not in SCR, Market Segment " ++ dq
              ++ marketSegment ++ dq
              ++ " not recognized as a region or country code")%string) in
      if (String.length segmentUpper =? 2)%nat then
        match lookup COUNTRY_CODE_REGION_MAP segmentUpper with
        | Some codeRegion =>
            if Region_eqb codeRegion selectedRegion then
              mkResolved true
                (mkInfo segment_country_code
                   ("Market Segment " ++ dq ++ marketSegment ++ dq ++ " " ++ arrow
                    ++ " country code " ++ arrow ++ " "
                    ++ regionName codeRegion)%string)
            else
              mkResolved false
                (mkInfo segment_country_code
                   ("Market Segment " ++ dq ++ marketSegment ++ dq ++ " " ++ arrow
                    ++ " " ++ regionName codeRegion ++ ", not "
                    ++ regionName selectedRegion)%string)
        | None => unknownResult
        end
      else unknownResult
  end.

Definition resolveRegion (rec : QuotaRecord)
  (refMap : list (string * list ReferenceRecord))
  (validCountries : list string) (selectedRegion : Region) : Resolved :=
  if isTbhOrBlank (eid rec) then
    mkResolved true (mkInfo unknown "TBH / Blank EID")
  else
    match scrLookup (JsMap.get refMap (eid rec)) validCountries selectedRegion with
    | Some r => r
    | None => segmentLookup rec selectedRegion
    end.

End OverlayValidators.

(** ** lmsTypes.ts *)

Module LmsTypes.

Inductive LmsMonth : Type := JAN | FEB | MAR | APR | MAY | JUN.

Definition LMS_MONTHS : list LmsMonth := [JAN; FEB; MAR; APR; MAY; JUN].

Definition LMS_MONTH_TO_CAL (m : LmsMonth) : Z :=
  match m with
  | JAN => 1 | FEB => 2 | MAR => 3 | APR => 4 | MAY => 5 | JUN => 6
  end.

Definition monthName (m : LmsMonth) : string :=
  match m with
  | JAN => "JAN" | FEB => "FEB" | MAR => "MAR"
  | APR => "APR" | MAY => "MAY" | JUN => "JUN"
  end.

Record LmsMonthlyQuotas : Type := mkLmsMonthly {
  qJAN : cell; qFEB : cell; qMAR : cell; qAPR : cell; qMAY : cell; qJUN : cell
}.

Definition lget (q : LmsMonthlyQuotas) (m : LmsMonth) : cell :=
  match m with
  | JAN => qJAN q | FEB => qFEB q | MAR => qMAR q
  | APR => qAPR q | MAY => qMAY q | JUN => qJUN q
  end.

Record LmsQuotaRecord : Type := mkLms {
  lmsRow : Z;
  lmsName : string;
  employeeId : string;
  managerId : string;
  managerName : string;
  geo : string;
  tier : string;
  segment : string;
  sdGroup : string;
  team : string;
  component : string;
  planType : string;
  recentEvent : string;
  quotaEffectiveDate : option Date;
  notes : string;
  q3Quota : cell;
  q4Quota : cell;
  h2Quota : cell;
  rev1Monthly : LmsMonthlyQuotas;
  q3GlobalQuota : cell;
  q4GlobalQuota : cell;
  h2GlobalQuota : cell;
  rev2Monthly : LmsMonthlyQuotas;
  bookCountMonthly : LmsMonthlyQuotas
}.

Inductive LmsV2IssueType : Type :=
| should_be_zero | missing_amount | okr_has_amount | rev2_only_has_rev1.

Record LmsV2Issue : Type := mkIssue {
  column : string;
  issueMonth : LmsMonth;
  issueType : LmsV2IssueType;
  expectedBehavior : string;
  actualValue : cell
}.

Record LmsV2Result : Type := mkLmsV2 {
  lmsRecord : LmsQuotaRecord;
  issues : list LmsV2Issue
}.

Record LmsV1Result : Type := mkLmsV1 {
  lmsV1Record : LmsQuotaRecord;
  lmsStatus : ValidationStatus;
  lmsReason : string;
  lmsRefInfo : option RefInfo
}.

Record ColumnValue : Type := mkColumnValue {
  cvColumn : string;
  cvValue : cell
}.

Record LmsV3Result : Type := mkLmsV3 {
  lmsV3Record : LmsQuotaRecord;
  lmsV3RefInfo : RefInfo;
  processingMonth : LmsMonth;
  quotaColumnsWithValues : list ColumnValue
}.

Record LmsSummary : Type := mkLmsSummary {
  lmsV1Pass : nat;
  lmsV1Fail : nat;
  lmsV1Skip : nat;
  v2AlignmentIssues : nat;
  v3OnLeaveWithQuota : nat;
  lmsTotalRecords : nat
}.

Record LmsValidationResults : Type := mkLmsResults {
  lmsV1 : list LmsV1Result;
  lmsV2 : list LmsV2Result;
  lmsV3 : list LmsV3Result;
  lmsSummary : LmsSummary
}.

End LmsTypes.

Import LmsTypes.

(** ** utils/lmsValidators.ts *)

Module LmsValidators.

(** The file repeats the text of [isTbhOrBlank] of validators.ts. *)
Definition isTbhOrBlank : string -> bool := Validators.isTbhOrBlank.

Section WithParseFloat.

(** The built-in [parseFloat], on which the file relies for cells that
    hold text. *)
Variable parseFloat : string -> number.

Definition numericValue (val : cell) : number :=
  match val with
  | CNull => Finite 0
  | CNum n => n
  | CStr s =>
      match parseFloat s with
      | NaN => Finite 0
      | n => n
      end
  end.

Definition hasPositiveAmount (val : cell) : bool :=
  numPositive (numericValue val).

Record Expectation : Type := mkExpect {
  expMonth : LmsMonth;
  shouldHaveAmount : bool
}.

(** The body of the loop over [LMS_MONTHS]. *)
Definition expectationFor (effectiveMonth : Z) (planType : string) (m : LmsMonth)
  : Expectation :=
  let calMonth := LMS_MONTH_TO_CAL m in
  if calMonth <? effectiveMonth then mkExpect m false
  else
    let pt := toLowerCase planType in
    if (pt =? "okr")%string then mkExpect m false
    else if (pt =? "semi")%string then mkExpect m true
    else if (pt =? "qtrly")%string then
      let effectiveQuarterEnd := if effectiveMonth <=? 3 then 3 else 6 in
      mkExpect m (calMonth <=? effectiveQuarterEnd)
    else mkExpect m true.

Definition getExpectedActiveMonths (effectiveMonth : Z) (planType : string)
  : list Expectation :=
  map (expectationFor effectiveMonth planType) LMS_MONTHS.

(** [GEO_TO_REGION], local to [runLmsValidation]. *)
Definition GEO_TO_REGION : list (string * Region) :=
  [ ("APAC", APAC); ("EMEA", EMEAL); ("LATAM", EMEAL); ("NAMER", NAMER) ].

(** [ref.country != null && validCountries.has(ref.country)]. *)
Definition countryMatches (validCountries : list string) (ref : ReferenceRecord)
  : bool :=
  match country ref with
  | Some c => setHas validCountries c
  | None => false
  end.

(** The callback of [records.filter] that selects [filteredRecords]. *)
Definition regionFilter (refMap : list (string * list ReferenceRecord))
  (validCountries : list string) (selectedRegion : Region)
  (rec : LmsQuotaRecord) : bool :=
  if isTbhOrBlank (employeeId rec) then true
  else
    let byGeo :=
      let g := toUpperCase (geo rec) in
      if (g =? "SA")%string then true
      else
        match lookup GEO_TO_REGION g with
        | Some mappedRegion => Region_eqb mappedRegion selectedRegion
        | None => false
        end in
    match JsMap.get refMap (employeeId rec) with
    | None => byGeo
    | Some [] => byGeo
    | Some refs => existsb (countryMatches validCountries) refs
    end.

Definition filteredRecords (records : list LmsQuotaRecord)
  (refRecords : list ReferenceRecord) (selectedRegion : Region)
  : list LmsQuotaRecord :=
  filter (regionFilter (Validators.buildRefMap refRecords)
            (getCountriesForRegion selectedRegion) selectedRegion)
    records.

(** *** V2: quota amount alignment *)

(** [LMS_MONTHS[effectiveMonth - 1]] inside a template. *)
Definition effectiveMonthName (effectiveMonth : Z) : string :=
  if (1 <=? effectiveMonth) && (effectiveMonth <=? 6)
  then match nth_error LMS_MONTHS (Z.to_nat (effectiveMonth - 1)) with
       | Some m => monthName m
       | None => "undefined"
       end
  else "undefined".

Definition expectedPositiveText (planType : string) (effectiveMonth : Z) : string :=
  ("Expected amount > 0 (" ++ planType ++ ", effective from "
   ++ effectiveMonthName effectiveMonth ++ ")")%string.

(** The two tests made on one revenue column for one month. *)
Definition streamIssues (prefix planType : string) (effectiveMonth : Z)
  (month : LmsMonth) (should : bool) (val : cell) : list LmsV2Issue :=
  let col := (prefix ++ "-" ++ monthName month)%string in
  (if should && negb (hasPositiveAmount val)
   then [mkIssue col month missing_amount
           (expectedPositiveText planType effectiveMonth) val]
   else [])
  ++
  (if negb should && hasPositiveAmount val
   then
     let isOkr := (toLowerCase planType =? "okr")%string in
     [mkIssue col month
        (if isOkr then okr_has_amount else should_be_zero)
        (if isOkr then "OKR plan type should have 0 quota"
         else "Month before effective date or after quarter end should be 0")
        val]
   else []).

(** The body of the loop over [expectedMonths]. *)
Definition monthIssues (rec : LmsQuotaRecord) (effectiveMonth : Z) (e : Expectation)
  : list LmsV2Issue :=
  let comp := component rec in
  let checkRev1 :=
    (comp =? "Non-SA")%string || (comp =? "Rev 1 Only")%string
    || (comp =? "Rev 1 & Rev 2")%string in
  let checkRev2 :=
    (comp =? "Rev 2 Only")%string || (comp =? "Rev 1 & Rev 2")%string in
  let isRev2Only := (comp =? "Rev 2 Only")%string in
  let month := expMonth e in
  (if checkRev1
   then streamIssues "Rev1" (planType rec) effectiveMonth month
          (shouldHaveAmount e) (lget (rev1Monthly rec) month)
   else [])
  ++
  (if checkRev2
   then streamIssues "Rev2" (planType rec) effectiveMonth month
          (shouldHaveAmount e) (lget (rev2Monthly rec) month)
   else [])
  ++
  (if isRev2Only && hasPositiveAmount (lget (rev1Monthly rec) month)
   then [mkIssue ("Rev1-" ++ monthName month)%string month rev2_only_has_rev1
           "Rev 2 Only component should not have Rev 1 amounts (blank or 0 expected)"
           (lget (rev1Monthly rec) month)]
   else []).

(** The comparator handed to [issues.sort]. *)
Definition compareIssues (a b : LmsV2Issue) : Z :=
  let aIsRev1 := if startsWith (column a) "Rev1" then 0 else 1 in
  let bIsRev1 := if startsWith (column b) "Rev1" then 0 else 1 in
  if negb (aIsRev1 =? bIsRev1) then aIsRev1 - bIsRev1
  else LMS_MONTH_TO_CAL (issueMonth a) - LMS_MONTH_TO_CAL (issueMonth b).

(** [Array.prototype.sort] is stable: an element is placed before the
    first later element that the comparator does not put before it. *)
Fixpoint insertIssue (x : LmsV2Issue) (sorted : list LmsV2Issue) : list LmsV2Issue :=
  match sorted with
  | [] => [x]
  | y :: rest =>
      if compareIssues x y <=? 0 then x :: y :: rest
      else y :: insertIssue x rest
  end.

Definition sortIssues (l : list LmsV2Issue) : list LmsV2Issue :=
  fold_right insertIssue [] l.

(** The issues of one record before sorting; [None] when the iteration
    reaches a [continue]. *)
Definition rawIssues (rec : LmsQuotaRecord) : option (list LmsV2Issue) :=
  if isTbhOrBlank (employeeId rec) then None
  else
    match quotaEffectiveDate rec with
    | None => None
    | Some effectiveDate =>
        let effectiveCalMonth := getUTCMonth effectiveDate + 1 in
        if 6 <? effectiveCalMonth then None
        else
          let effectiveMonth := Z.max 1 effectiveCalMonth in
          let expectedMonths :=
            getExpectedActiveMonths effectiveMonth (planType rec) in
          Some (flat_map (monthIssues rec effectiveMonth) expectedMonths)
    end.

(** One iteration of the loop that fills [v2Results]. *)
Definition v2Check (rec : LmsQuotaRecord) : option LmsV2Result :=
  match rawIssues rec with
  | None => None
  | Some l =>
      if (0 <? List.length l)%nat
      then Some (mkLmsV2 rec (sortIssues l))
      else None
  end.

Fixpoint v2Collect (recs : list LmsQuotaRecord) : list LmsV2Result :=
  match recs with
  | [] => []
  | rec :: rest =>
      match v2Check rec with
      | Some r => r :: v2Collect rest
      | None => v2Collect rest
      end
  end.

(** *** V1: EID reference check (the loop over [refs] has the text of
    the one in validators.ts) *)

Definition v1Check (refMap : list (string * list ReferenceRecord))
  (validCountries : list string) (selectedRegion : Region)
  (rec : LmsQuotaRecord) : LmsV1Result :=
  if isTbhOrBlank (employeeId rec) then mkLmsV1 rec skip "TBH / Blank EID" None
  else
    match JsMap.get refMap (employeeId rec) with
    | None => mkLmsV1 rec fail "EID not found in reference file" None
    | Some [] => mkLmsV1 rec fail "EID not found in reference file" None
    | Some refs =>
        let st := Validators.v1Loop validCountries selectedRegion refs
                    (Validators.mkV1Loop false [] None) in
        mkLmsV1 rec
          (if Validators.foundValid st then pass else fail)
          (if Validators.foundValid st then ""
           else join "; " (Validators.lastIssues st))
          (option_map Validators.refInfoOf (Validators.lastRef st))
    end.

(** *** V3: on leave with quota *)

(** [s.split('-')[0]]: the text before the first hyphen. *)
Fixpoint beforeHyphen (s : string) : string :=
  match s with
  | EmptyString => EmptyString
  | String c r => if (c =? "-")%char then EmptyString else String c (beforeHyphen r)
  end.

(** The month of [LMS_MONTHS] that a key names, if [includes] finds it. *)
Definition monthOfKey (key : string) : option LmsMonth :=
  find (fun m => (monthName m =? key)%string) LMS_MONTHS.

Definition v3Check (refMap : list (string * list ReferenceRecord))
  (processingMonthKey : string) (rec : LmsQuotaRecord) : option LmsV3Result :=
  if isTbhOrBlank (employeeId rec) then None
  else
    match JsMap.get refMap (employeeId rec) with
    | None => None
    | Some [] => None
    | Some refs =>
        match find (fun ref => strictEq (activeStatus ref) "Yes"
                               && strictEq (onLeave ref) "Yes") refs with
        | None => None
        | Some onLeaveRef =>
            match monthOfKey processingMonthKey with
            | None => None
            | Some key =>
                let comp := component rec in
                let checkRev1 :=
                  (comp =? "Non-SA")%string || (comp =? "Rev 1 Only")%string
                  || (comp =? "Rev 1 & Rev 2")%string in
                let checkRev2 :=
                  (comp =? "Rev 2 Only")%string
                  || (comp =? "Rev 1 & Rev 2")%string in
                let cols :=
                  (if checkRev1 && hasPositiveAmount (lget (rev1Monthly rec) key)
                   then [mkColumnValue ("Rev1-" ++ monthName key)%string
                           (lget (rev1Monthly rec) key)]
                   else [])
                  ++
                  (if checkRev2 && hasPositiveAmount (lget (rev2Monthly rec) key)
                   then [mkColumnValue ("Rev2-" ++ monthName key)%string
                           (lget (rev2Monthly rec) key)]
                   else []) in
                if (0 <? List.length cols)%nat
                then Some (mkLmsV3 rec (Validators.refInfoOf onLeaveRef) key cols)
                else None
            end
        end
    end.

Fixpoint v3Collect (refMap : list (string * list ReferenceRecord))
  (processingMonthKey : string) (recs : list LmsQuotaRecord) : list LmsV3Result :=
  match recs with
  | [] => []
  | rec :: rest =>
      match v3Check refMap processingMonthKey rec with
      | Some r => r :: v3Collect refMap processingMonthKey rest
      | None => v3Collect refMap processingMonthKey rest
      end
  end.

Definition countLmsStatus (s : ValidationStatus) (l : list LmsV1Result) : nat :=
  List.length (filter (fun r => ValidationStatus_eqb (lmsStatus r) s) l).

Definition runLmsValidation (records : list LmsQuotaRecord)
  (refRecords : list ReferenceRecord) (selectedProcessingMonth : string)
  (selectedRegion : Region) : LmsValidationResults :=
  let refMap := Validators.buildRefMap refRecords in
  let validCountries := getCountriesForRegion selectedRegion in
  let kept := filteredRecords records refRecords selectedRegion in
  let v1Results := map (v1Check refMap validCountries selectedRegion) kept in
  let v2Results := v2Collect kept in
  let processingMonthKey := toUpperCase (beforeHyphen selectedProcessingMonth) in
  let v3Results := v3Collect refMap processingMonthKey kept in
  mkLmsResults v1Results v2Results v3Results
    (mkLmsSummary (countLmsStatus pass v1Results)
                  (countLmsStatus fail v1Results)
                  (countLmsStatus skip v1Results)
                  (List.length v2Results)
                  (List.length v3Results)
                  (List.length kept)).

End WithParseFloat.

End LmsValidators.

(** ** Integers as text *)

Module JsNumber.

Definition digitChar (d : Z) : ascii := ascii_of_N (Z.to_N (48 + d)).

(** The decimal digits of a non-negative integer, most significant
    first, in front of [acc]. *)
Fixpoint digitsOf (fuel : nat) (n : Z) (acc : string) : string :=
  match fuel with
  | O => acc
  | S f =>
      let acc' := String (digitChar (n mod 10)) acc in
      if n <? 10 then acc' else digitsOf f (n / 10) acc'
  end.

(** [String(n)] for an integer [n] that JavaScript prints in plain
    decimal (below 10^21 in absolute value; years, row numbers and counts
    are): there are no more decimal digits than binary ones, which bounds
    the recursion. *)
Definition intToString (n : Z) : string :=
  if n <? 0
  then String "-" (digitsOf (S (Z.to_nat (Z.log2 (- n)))) (- n) EmptyString)
  else digitsOf (S (Z.to_nat (Z.log2 n))) n EmptyString.

(** [s.slice(-n)]: the last [n] characters, or all of a shorter text. *)
Definition sliceLast (n : nat) (s : string) : string :=
  substring (String.length s - n) n s.

End JsNumber.

(** ** utils/excelParser.ts: [formatSubmissionMonth] *)

Module SubmissionMonth.

Definition months : list string :=
  ["Jan"; "Feb"; "Mar"; "Apr"; "May"; "Jun";
   "Jul"; "Aug"; "Sep"; "Oct"; "Nov"; "Dec"].

(** [names[i]] inside a template: a missing element prints as
    [undefined]. *)
Definition element (names : list string) (i : Z) : string :=
  if i <? 0 then "undefined"
  else match nth_error names (Z.to_nat i) with
       | Some s => s
       | None => "undefined"
       end.

Definition formatSubmissionMonth (d : Date) : string :=
  let yy := JsNumber.sliceLast 2 (JsNumber.intToString (getUTCFullYear d)) in
  (element months (getUTCMonth d) ++ "-" ++ yy)%string.

End SubmissionMonth.

(** ** utils/lmsExcelParser.ts: [generateLmsProcessingMonths]

    The function reads the clock; here the current year and the current
    month (1 to 12) are arguments. *)

Module LmsExcelParser.

(** [for (let m = lo; m <= hi; m++)]: the values of [m]. *)
Definition fromTo (lo hi : Z) : list Z :=
  map (fun k => lo + Z.of_nat k) (seq 0 (Z.to_nat (hi - lo + 1))).

Definition monthNames : list string :=
  ["Jan"; "Feb"; "Mar"; "Apr"; "May"; "Jun";
   "Jul"; "Aug"; "Sep"; "Oct"; "Nov"; "Dec"].

(** The [months] array before it is formatted. *)
Definition fiscalMonths (currentYear currentMonth : Z) : list (Z * Z) :=
  if 7 <=? currentMonth
  then map (fun m => (currentYear, m)) (fromTo 7 currentMonth)
  else map (fun m => (currentYear - 1, m)) (fromTo 7 12)
       ++ map (fun m => (currentYear, m)) (fromTo 1 currentMonth).

Definition formatMonth (ym : Z * Z) : string :=
  let yy := JsNumber.sliceLast 2 (JsNumber.intToString (fst ym)) in
  (SubmissionMonth.element monthNames (snd ym - 1) ++ "-" ++ yy)%string.

Definition generateLmsProcessingMonths (currentYear currentMonth : Z)
  : list string :=
  map formatMonth (fiscalMonths currentYear currentMonth).

End LmsExcelParser.

(** ** utils/overlayValidators.ts: [runOverlayValidation] *)

Module OverlayRun.

Import OverlayValidators.

(** The overlay results extend the plain ones by the region
    information. *)
Record OverlayV1Result : Type := mkOV1 {
  ov1Base : V1Result;
  ov1RegionInfo : OverlayRegionInfo
}.

Record OverlayV2Result : Type := mkOV2 {
  ov2Base : V2Result;
  regionInfoMap : list (string * OverlayRegionInfo)
}.

Record OverlayV3Result : Type := mkOV3 {
  ov3Base : V3Result;
  ov3RegionInfo : OverlayRegionInfo
}.

Record OverlayValidationResults : Type := mkOResults {
  ov1 : list OverlayV1Result;
  ov2 : list OverlayV2Result;
  ov3 : list OverlayV3Result;
  osummary : Summary
}.

(** [regionInfoCache.get(rec)]: the cache holds, for each record of the
    period, the information the resolver returned for it. *)
Definition regionInfoOf (refMap : list (string * list ReferenceRecord))
  (validCountries : list string) (selectedRegion : Region) (rec : QuotaRecord)
  : OverlayRegionInfo :=
  info (resolveRegion rec refMap validCountries selectedRegion).

Definition includedBy (refMap : list (string * list ReferenceRecord))
  (validCountries : list string) (selectedRegion : Region) (rec : QuotaRecord)
  : bool :=
  included (resolveRegion rec refMap validCountries selectedRegion).

(** One iteration of the V1 loop; the result is built in one place, with
    the verdict and the reason chosen by [foundValid]. *)
Definition v1Check (refMap : list (string * list ReferenceRecord))
  (validCountries : list string) (selectedRegion : Region)
  (rec : QuotaRecord) : OverlayV1Result :=
  let regionInfo := regionInfoOf refMap validCountries selectedRegion rec in
  if isTbhOrBlank (eid rec)
  then mkOV1 (mkV1 rec skip "TBH / Blank EID" None) regionInfo
  else
    match JsMap.get refMap (eid rec) with
    | None => mkOV1 (mkV1 rec fail "EID not found in reference file" None)
                regionInfo
    | Some [] => mkOV1 (mkV1 rec fail "EID not found in reference file" None)
                   regionInfo
    | Some refs =>
        let st := Validators.v1Loop validCountries selectedRegion refs
                    (Validators.mkV1Loop false [] None) in
        mkOV1
          (mkV1 rec
             (if Validators.foundValid st then pass else fail)
             (if Validators.foundValid st then ""
              else join "; " (Validators.lastIssues st))
             (option_map Validators.refInfoOf (Validators.lastRef st)))
          regionInfo
    end.

(** The key of [regionInfoMap]: sheet, hyphen, row. *)
Definition sheetRowKey (rec : QuotaRecord) : string :=
  (sheet rec ++ "-" ++ JsNumber.intToString (row rec))%string.

(** [for (const rec of recs) regionInfoMap[key] = regionInfoCache.get(rec)]. *)
Definition buildRegionInfoMap (refMap : list (string * list ReferenceRecord))
  (validCountries : list string) (selectedRegion : Region)
  (recs : list QuotaRecord) : list (string * OverlayRegionInfo) :=
  fold_left
    (fun m rec =>
       JsMap.set m (sheetRowKey rec)
         (regionInfoOf refMap validCountries selectedRegion rec))
    recs [].

Fixpoint v2Collect (refMap : list (string * list ReferenceRecord))
  (validCountries : list string) (selectedRegion : Region)
  (entries : list (string * list QuotaRecord)) : list OverlayV2Result :=
  match entries with
  | [] => []
  | (e, recs) :: rest =>
      if (1 <? List.length recs)%nat
      then mkOV2 (mkV2 e recs)
             (buildRegionInfoMap refMap validCountries selectedRegion recs)
           :: v2Collect refMap validCountries selectedRegion rest
      else v2Collect refMap validCountries selectedRegion rest
  end.

(** The V3 loop has the text of the one in validators.ts, with the region
    information added to what it pushes. *)
Fixpoint v3Collect (refMap : list (string * list ReferenceRecord))
  (validCountries : list string) (selectedRegion : Region)
  (parsed : ParsedLabel) (recs : list QuotaRecord) : list OverlayV3Result :=
  match recs with
  | [] => []
  | rec :: rest =>
      match Validators.v3Check parsed rec with
      | Some r =>
          mkOV3 r (regionInfoOf refMap validCountries selectedRegion rec)
          :: v3Collect refMap validCountries selectedRegion parsed rest
      | None => v3Collect refMap validCountries selectedRegion parsed rest
      end
  end.

Definition countStatus (s : ValidationStatus) (l : list OverlayV1Result) : nat :=
  List.length (filter (fun r => ValidationStatus_eqb (status (ov1Base r)) s) l).

Definition runOverlayValidation (allRecords : list QuotaRecord)
  (refRecords : list ReferenceRecord) (selectedMonth : string)
  (selectedRegion : Region) : result OverlayValidationResults :=
  match parseSubmissionMonthLabel selectedMonth with
  | None => Throw (Validators.invalidMonthMessage selectedMonth)
  | Some parsed =>
      let target := Validators.targetRecords allRecords parsed in
      let refMap := Validators.buildRefMap refRecords in
      let validCountries := getCountriesForRegion selectedRegion in
      let filteredRecords :=
        filter (includedBy refMap validCountries selectedRegion) target in
      let v1Results :=
        map (v1Check refMap validCountries selectedRegion) filteredRecords in
      let v2Results :=
        v2Collect refMap validCountries selectedRegion
          (Validators.buildEidMap filteredRecords) in
      let v3Results :=
        v3Collect refMap validCountries selectedRegion parsed filteredRecords in
      Ok (mkOResults v1Results v2Results v3Results
            (mkSummary (countStatus pass v1Results)
                       (countStatus fail v1Results)
                       (countStatus skip v1Results)
                       (List.length v2Results)
                       (List.length v3Results)
                       (List.length filteredRecords)))
  end.

End OverlayRun.

(** ** utils/csvExport.ts

    The text handed to [downloadCsv]; the download itself is not
    modelled.  A field is [null] or [undefined], a string, or an integer
    (row numbers and counts), which [String] prints in decimal. *)

Module CsvExport.

Inductive field : Type :=
| FNull
| FStr (s : string)
| FInt (n : Z).

Definition comma : ascii := ","%char.
Definition quote : ascii := ascii_of_nat 34.
Definition lf : ascii := ascii_of_nat 10.

(** [str.includes(c)] for a text [c] of one character. *)
Fixpoint includesChar (c : ascii) (str : string) : bool :=
  match str with
  | EmptyString => false
  | String x r => (x =? c)%char || includesChar c r
  end.

(** [str.replace] with the global pattern of the double quote: every
    double quote is doubled. *)
Fixpoint doubleQuotes (str : string) : string :=
  match str with
  | EmptyString => EmptyString
  | String x r =>
      if (x =? quote)%char then String quote (String quote (doubleQuotes r))
      else String x (doubleQuotes r)
  end.

(** [String(val)]. *)
Definition text (val : field) : string :=
  match val with
  | FNull => "null"
  | FStr s => s
  | FInt n => JsNumber.intToString n
  end.

Definition escapeCsv (val : field) : string :=
  match val with
  | FNull => ""
  | _ =>
      let str := text val in
      if includesChar comma str || includesChar quote str || includesChar lf str
      then (String quote (doubleQuotes str) ++ String quote EmptyString)%string
      else str
  end.

Definition toCsvRow (fields : list field) : string :=
  join "," (map escapeCsv fields).

Inductive ExportFilter : Type := FilterAll | FilterFail.

Definition filterName (f : ExportFilter) : string :=
  match f with FilterAll => "all" | FilterFail => "fail" end.

(** The three values of [ValidationStatus] are the strings of their
    names. *)
Definition statusText (s : ValidationStatus) : string :=
  match s with pass => "pass" | fail => "fail" | skip => "skip" end.

Definition v1Header : list field :=
  map FStr ["Sheet"; "Row"; "EID"; "Name"; "Status"; "Reason";
            "Ref Active Status"; "Ref On Leave"; "Ref Country"].

(** [results.v1] or, for the filter [fail], the results whose status is
    [fail] or [skip]. *)
Definition v1Items (results : ValidationResults) (f : ExportFilter)
  : list V1Result :=
  match f with
  | FilterFail =>
      filter (fun r => ValidationStatus_eqb (status r) fail
                       || ValidationStatus_eqb (status r) skip)
        (v1 results)
  | FilterAll => v1 results
  end.

(** [r.refInfo?.field ?? '']. *)
Definition refField (r : V1Result) (get : RefInfo -> option string) : field :=
  FStr match refInfo r with
       | Some info => orElse (get info) ""
       | None => ""
       end.

Definition v1Row (r : V1Result) : list field :=
  [ FStr (sheet (v1Record r)); FInt (row (v1Record r));
    FStr (eid (v1Record r)); FStr (name (v1Record r));
    FStr (toUpperCase (statusText (status r))); FStr (reason r);
    refField r riActiveStatus; refField r riOnLeave; refField r riCountry ].

(** [exportV1Results]: the file name and the content. *)
Definition exportV1Results (results : ValidationResults) (f : ExportFilter)
  : string * string :=
  (("v1_eid_reference_check_" ++ filterName f ++ ".csv")%string,
   join (String lf EmptyString)
     (toCsvRow v1Header :: map (fun r => toCsvRow (v1Row r)) (v1Items results f))).

Definition v2Header : list field :=
  map FStr ["EID"; "Occurrences"; "Sheet"; "Row"; "Name"].

Definition v2Rows (dup : V2Result) : list (list field) :=
  map (fun rec =>
         [ FStr (v2Eid dup); FInt (Z.of_nat (List.length (occurrences dup)));
           FStr (sheet rec); FInt (row rec); FStr (name rec) ])
    (occurrences dup).

Definition exportV2Results (results : ValidationResults) : string * string :=
  ("v2_duplicate_eids.csv",
   join (String lf EmptyString)
     (toCsvRow v2Header
      :: map toCsvRow (flat_map v2Rows (v2 results)))).

End CsvExport.

(** ** utils/excelParser.ts: cells, columns and rows

    What [XLSX.utils.sheet_to_json] returns is the input here: a sheet is
    an array of rows, a row an array of cells, a cell a number, a string
    or [null] (the [defval]); a row can be missing.  Boolean cells are not
    modelled.  [String] on a number and the two ways [parseDate] makes a
    date are functions of the JavaScript engine and enter as
    parameters. *)

Module JsText.

(** [s.includes(sub)]. *)
Fixpoint includes (s sub : string) : bool :=
  match s with
  | EmptyString => (sub =? "")%string
  | String _ r => String.prefix sub s || includes r sub
  end.

(** [s.endsWith(suffix)]. *)
Definition endsWith (s suffix : string) : bool :=
  (String.length suffix <=? String.length s)%nat
  && (substring (String.length s - String.length suffix)
        (String.length suffix) s =? suffix)%string.

(** [s || null] on a string. *)
Definition orNull (s : string) : option string :=
  if (s =? "")%string then None else Some s.

End JsText.

Module ExcelCells.

Section WithNumberToString.

Variable numberToString : number -> string.

(** [String(v)]. *)
Definition text (v : cell) : string :=
  match v with
  | CNull => "null"
  | CNum n => numberToString n
  | CStr s => s
  end.

(** [row[colIndex] ?? null]: an index outside the row gives
    [undefined]. *)
Definition cellVal (row : list cell) (colIndex : Z) : cell :=
  if colIndex <? 0 then CNull else nth (Z.to_nat colIndex) row CNull.

Definition strVal (row : list cell) (colIndex : Z) : string :=
  match cellVal row colIndex with
  | CNull => ""
  | v => trim (text v)
  end.

End WithNumberToString.

End ExcelCells.

Module QuotaColumns.

Import JsText.

Definition MONTHS : list MonthKey :=
  [JUL; AUG; SEP; OCT; NOV; DEC; Types.JAN; Types.FEB; Types.MAR; Types.APR;
   Types.MAY; Types.JUN].

(** The strings of [MONTHS]. *)
Definition monthText (m : MonthKey) : string :=
  match m with
  | JUL => "JUL" | AUG => "AUG" | SEP => "SEP" | OCT => "OCT"
  | NOV => "NOV" | DEC => "DEC" | Types.JAN => "JAN" | Types.FEB => "FEB"
  | Types.MAR => "MAR" | Types.APR => "APR" | Types.MAY => "MAY"
  | Types.JUN => "JUN"
  end.

Definition MONTH_DEFAULTS_LSS (m : MonthKey) : Z :=
  match m with
  | JUL => 23 | AUG => 24 | SEP => 25 | OCT => 26 | NOV => 27 | DEC => 28
  | Types.JAN => 29 | Types.FEB => 30 | Types.MAR => 31 | Types.APR => 32
  | Types.MAY => 33 | Types.JUN => 34
  end.

(** An object keyed by month names: the keys that are set, in the order
    in which they were set. *)
Definition MonthCols : Type := list (MonthKey * Z).

(** [cols[m]]. *)
Fixpoint colGet (cols : MonthCols) (m : MonthKey) : option Z :=
  match cols with
  | [] => None
  | (k, c) :: rest => if MonthKey_eqb k m then Some c else colGet rest m
  end.

(** [if (cols[m] === undefined) cols[m] = c]. *)
Definition setOnce (cols : MonthCols) (m : MonthKey) (c : Z) : MonthCols :=
  match colGet cols m with
  | Some _ => cols
  | None => cols ++ [(m, c)]
  end.

(** [Partial<QuotaColumnMap>]: the columns found so far. *)
Record Found : Type := mkFound {
  fSubmissionMonth : option Z;
  fEid : option Z;
  fName : option Z;
  fLevel : option Z;
  fRepRegion : option Z;
  fQuotaStartDate : option Z;
  fDualMetric : option Z
}.

Record Cols : Type := mkCols {
  comp1Y1Cols : MonthCols;
  comp1Y2Y3Cols : MonthCols;
  comp2Y1Cols : MonthCols;
  comp2Y2Y3Cols : MonthCols
}.

Record QuotaColumnMap : Type := mkColumnMap {
  colSubmissionMonth : Z;
  colEid : Z;
  colName : Z;
  colLevel : Z;
  colRepRegion : Z;
  colQuotaStartDate : Z;
  colDualMetric : Z;
  y1 : MonthCols;
  y2y3 : option MonthCols;
  comp2Y1 : option MonthCols;
  comp2Y2Y3 : option MonthCols
}.

(** The chain of [if] and [else if] on a header text. *)
Definition metaStep (res : Found) (h hLower : string) (c : Z) : Found :=
  let '(mkFound sm e n l rr qs dm) := res in
  if startsWith hLower "submission" then mkFound (Some c) e n l rr qs dm
  else if (h =? "EID")%string then mkFound sm (Some c) n l rr qs dm
  else if (h =? "Name")%string then mkFound sm e (Some c) l rr qs dm
  else if (h =? "Level")%string then mkFound sm e n (Some c) rr qs dm
  else if includes hLower "rep region" then mkFound sm e n l (Some c) qs dm
  else if includes hLower "quota start" then mkFound sm e n l rr (Some c) dm
  else if includes hLower "single/dual" || includes hLower "dual metric"
       then mkFound sm e n l rr qs (Some c)
  else res.

Definition endsWithMonth (h hUpper : string) (m : MonthKey) : bool :=
  (h =? monthText m)%string
  || endsWith hUpper ("- " ++ monthText m)%string
  || endsWith hUpper (String (ascii_of_nat 10) (monthText m)).

(** The body of [for (const m of MONTHS)]. *)
Definition monthStep (isComp2 isY2Y3 : bool) (h hUpper : string) (c : Z)
  (cs : Cols) (m : MonthKey) : Cols :=
  if negb (endsWithMonth h hUpper m) then cs
  else
    let '(mkCols a b c2 d) := cs in
    if isComp2 && isY2Y3 then mkCols a b c2 (setOnce d m c)
    else if isComp2 then mkCols a b (setOnce c2 m c) d
    else if isY2Y3 then mkCols a (setOnce b m c) c2 d
    else mkCols (setOnce a m c) b c2 d.

Section WithNumberToString.

Variable numberToString : number -> string.

(** The body of the loop over the header cells. *)
Definition columnStep (st : Found * Cols) (c : Z) (v : cell) : Found * Cols :=
  match v with
  | CNull => st
  | _ =>
      let h := trim (ExcelCells.text numberToString v) in
      let hUpper := toUpperCase h in
      let hLower := toLowerCase h in
      let isComp2 := includes hUpper "COMP2" in
      let isY2Y3 := includes hUpper "Y2" in
      (metaStep (fst st) h hLower c,
       fold_left (monthStep isComp2 isY2Y3 h hUpper c) MONTHS (snd st))
  end.

(** [for (let c = 0; c < header.length; c++)], from column [c] on. *)
Fixpoint scan (c : Z) (header : list cell) (st : Found * Cols) : Found * Cols :=
  match header with
  | [] => st
  | v :: rest => scan (c + 1) rest (columnStep st c v)
  end.

(** [o ?? d] on a column index. *)
Definition orDefault (o : option Z) (d : Z) : Z :=
  match o with Some c => c | None => d end.

(** A bucket that is kept when at least one of its columns was found,
    with -1 for the months without a column. *)
Definition optionalCols (cols : MonthCols) : option MonthCols :=
  if (0 <? List.length cols)%nat
  then Some (map (fun m => (m, orDefault (colGet cols m) (-1))) MONTHS)
  else None.

Definition detectQuotaColumns (header : list cell) : QuotaColumnMap :=
  let st := scan 0 header
              (mkFound None None None None None None None, mkCols [] [] [] []) in
  let result := fst st in
  let cs := snd st in
  mkColumnMap
    (orDefault (fSubmissionMonth result) 0)
    (orDefault (fEid result) 1)
    (orDefault (fName result) 2)
    (orDefault (fLevel result) 3)
    (orDefault (fRepRegion result) 9)
    (orDefault (fQuotaStartDate result) 11)
    (orDefault (fDualMetric result) (-1))
    (map (fun m => (m, orDefault (colGet (comp1Y1Cols cs) m)
                         (MONTH_DEFAULTS_LSS m))) MONTHS)
    (optionalCols (comp1Y2Y3Cols cs))
    (optionalCols (comp2Y1Cols cs))
    (optionalCols (comp2Y2Y3Cols cs)).

(** One field of [readMonthCols]: an index that is missing or negative
    gives [null]. *)
Definition readMonth (row : list cell) (indices : MonthCols) (m : MonthKey)
  : cell :=
  match colGet indices m with
  | Some i => if 0 <=? i then ExcelCells.cellVal row i else CNull
  | None => CNull
  end.

Definition readMonthCols (row : list cell) (indices : MonthCols)
  : MonthlyQuotas :=
  mkMonthly
    (readMonth row indices JUL) (readMonth row indices AUG)
    (readMonth row indices SEP) (readMonth row indices OCT)
    (readMonth row indices NOV) (readMonth row indices DEC)
    (readMonth row indices Types.JAN) (readMonth row indices Types.FEB)
    (readMonth row indices Types.MAR) (readMonth row indices Types.APR)
    (readMonth row indices Types.MAY) (readMonth row indices Types.JUN).

(** *** [parseQuotaFile], one sheet

    The rows of a sheet that passed the selection by name, with the label
    of the sheet. *)

Variable parseDate : cell -> option Date.

(** The body of the loop over the data rows; [i] is the index of the
    row. *)
Definition recordOfRow (label : string) (colIdx : QuotaColumnMap) (i : Z)
  (row : option (list cell)) : option QuotaRecord :=
  match row with
  | None => None
  | Some row =>
      match parseDate (ExcelCells.cellVal row (colSubmissionMonth colIdx)) with
      | None => None
      | Some smDate =>
          Some (mkQuota label (i + 1)
                  (ExcelCells.strVal numberToString row (colEid colIdx))
                  (ExcelCells.strVal numberToString row (colName colIdx))
                  (ExcelCells.strVal numberToString row (colLevel colIdx))
                  (ExcelCells.strVal numberToString row (colRepRegion colIdx))
                  (if 0 <=? colDualMetric colIdx
                   then ExcelCells.strVal numberToString row (colDualMetric colIdx)
                   else "")
                  (parseDate (ExcelCells.cellVal row (colQuotaStartDate colIdx)))
                  (Some smDate)
                  (readMonthCols row (y1 colIdx))
                  (option_map (readMonthCols row) (y2y3 colIdx))
                  (option_map (readMonthCols row) (comp2Y1 colIdx))
                  (option_map (readMonthCols row) (comp2Y2Y3 colIdx)))
      end
  end.

(** [for (let i = ...; i < rows.length; i++)], from row [i] on. *)
Fixpoint rowsFrom (label : string) (colIdx : QuotaColumnMap) (i : Z)
  (rows : list (option (list cell))) : list QuotaRecord :=
  match rows with
  | [] => []
  | row :: rest =>
      match recordOfRow label colIdx i row with
      | Some rec => rec :: rowsFrom label colIdx (i + 1) rest
      | None => rowsFrom label colIdx (i + 1) rest
      end
  end.

(** The records of one sheet: the header is the row of index 4, the data
    begins at index 6. *)
Definition sheetRecords (label : string) (rows : list (option (list cell)))
  : list QuotaRecord :=
  match nth_error rows 4 with
  | Some (Some header) =>
      rowsFrom label (detectQuotaColumns header) 6 (skipn 6 rows)
  | _ => []
  end.

End WithNumberToString.

End QuotaColumns.

(** ** utils/excelParser.ts: [parseReferenceFile], from the rows on *)

Module ReferenceFile.

Import JsText.

Section WithNumberToString.

Variable numberToString : number -> string.

Definition isHeaderCell (v : cell) : bool :=
  match v with
  | CNull => false
  | _ => includes (toLowerCase (trim (ExcelCells.text numberToString v)))
           "employee id"
  end.

(** The inner loop: some cell of the row names the identifier. *)
Definition isHeaderRow (row : option (list cell)) : bool :=
  match row with
  | None => false
  | Some cells => existsb isHeaderCell cells
  end.

(** The outer loop from row [i] on: the index of the first header row, or
    -1. *)
Fixpoint findHeader (i : Z) (rows : list (option (list cell))) : Z :=
  match rows with
  | [] => -1
  | row :: rest => if isHeaderRow row then i else findHeader (i + 1) rest
  end.

(** [colMap], filled from column [c] on. *)
Fixpoint fillColMap (c : Z) (header : list cell) (colMap : list (string * Z))
  : list (string * Z) :=
  match header with
  | [] => colMap
  | v :: rest =>
      fillColMap (c + 1) rest
        match v with
        | CNull => colMap
        | _ => JsMap.set colMap (trim (ExcelCells.text numberToString v)) c
        end
  end.

(** [colMap[name] ?? d]. *)
Definition column (colMap : list (string * Z)) (name : string) (d : Z) : Z :=
  match JsMap.get colMap name with Some c => c | None => d end.

Definition recordOfRow (colMap : list (string * Z)) (row : option (list cell))
  : option ReferenceRecord :=
  match row with
  | None => None
  | Some row =>
      let str := ExcelCells.strVal numberToString row in
      let eid := str (column colMap "Employee ID" 0) in
      if (eid =? "")%string then None
      else Some (mkRef eid
                   (str (column colMap "Full Legal Name" 3))
                   (orNull (str (column colMap "Active Status" 8)))
                   (orNull (str (column colMap "On Leave" 9)))
                   (orNull (str (column colMap "Country" 28)))
                   (orNull (str (column colMap "Job Title" 15))))
  end.

Definition noHeaderMessage : string :=
  ("Could not find header row with " ++ dq ++ "Employee ID" ++ dq
   ++ " in reference file")%string.

Fixpoint collect (colMap : list (string * Z)) (rows : list (option (list cell)))
  : list ReferenceRecord :=
  match rows with
  | [] => []
  | row :: rest =>
      match recordOfRow colMap row with
      | Some r => r :: collect colMap rest
      | None => collect colMap rest
      end
  end.

Definition parseReferenceFile (rows : list (option (list cell)))
  : result (list ReferenceRecord) :=
  let headerIdx := findHeader 0 (firstn 20 rows) in
  if headerIdx =? -1 then Throw noHeaderMessage
  else
    let header :=
      match nth_error rows (Z.to_nat headerIdx) with
      | Some (Some cells) => cells
      | _ => []
      end in
    let colMap := fillColMap 0 header [] in
    Ok (collect colMap (skipn (Z.to_nat (headerIdx + 1)) rows)).

End WithNumberToString.

End ReferenceFile.

(** ** Statements of the specification, in its own words *)

Module Spec.

(** A period label: a three-letter month abbreviation, a hyphen and a
    two-digit year, letters compared without regard to case. *)
Definition labelFormat (label : string) : Prop :=
  exists (abbr : string) (d1 d2 : ascii),
    In abbr monthAlternatives /\ isDigit d1 = true /\ isDigit d2 = true /\
    toLowerCase label
    = toLowerCase (abbr ++ "-" ++ String d1 (String d2 EmptyString))%string.

(** The value of a two-digit year. *)
Definition twoDigits (d1 d2 : ascii) : Z := 10 * digitValue d1 + digitValue d2.

(** The three conditions of Check 1 on a roster entry. *)
Inductive Condition : Type := ActiveIsYes | OnLeaveBlank | CountryInRegion.

Definition allConditions : list Condition :=
  [ActiveIsYes; OnLeaveBlank; CountryInRegion].

(** Active status is exactly Yes; the on-leave field is blank; the
    country is non-blank and in the valid set of the selected region. *)
Definition conditionHolds (validCountries : list string) (ref : ReferenceRecord)
  (c : Condition) : bool :=
  match c with
  | ActiveIsYes =>
      match activeStatus ref with Some s => (s =? "Yes")%string | None => false end
  | OnLeaveBlank =>
      match onLeave ref with Some s => (s =? "")%string | None => true end
  | CountryInRegion =>
      match country ref with
      | Some c =>
          negb (c =? "")%string
          && (if in_dec string_dec c validCountries then true else false)
      | None => false
      end
  end.

Definition satisfiesAll (validCountries : list string) (ref : ReferenceRecord)
  : bool :=
  forallb (conditionHolds validCountries ref) allConditions.

Definition violated (validCountries : list string) (ref : ReferenceRecord)
  : list Condition :=
  filter (fun c => negb (conditionHolds validCountries ref c)) allConditions.

(** The text reported for a violated condition. *)
Definition conditionMessage (selectedRegion : Region) (ref : ReferenceRecord)
  (c : Condition) : string :=
  match c with
  | ActiveIsYes => Validators.activeIssue ref
  | OnLeaveBlank => Validators.onLeaveIssue ref
  | CountryInRegion => Validators.countryIssue selectedRegion ref
  end.

(** The roster entries of an identifier, in roster order. *)
Definition rosterEntries (refRecords : list ReferenceRecord) (id : string)
  : list ReferenceRecord :=
  filter (fun r => (refEid r =? id)%string) refRecords.

(** The four amount buckets of Check 3. *)
Inductive Bucket : Type := PrimaryY1 | PrimaryY2Y3 | SecondaryY1 | SecondaryY2Y3.

Definition allBuckets : list Bucket :=
  [PrimaryY1; PrimaryY2Y3; SecondaryY1; SecondaryY2Y3].

(** The half is chosen by the calendar month of the selected period. *)
Definition halfOf (parsed : ParsedLabel) : FiscalHalf :=
  if 7 <=? month parsed then H1 else H2.

Definition halfFirstMonth (h : FiscalHalf) : Z :=
  match h with H1 => 7 | H2 => 1 end.

Definition halfLastMonth (h : FiscalHalf) : Z :=
  match h with H1 => 12 | H2 => 6 end.

Definition halfMonths (h : FiscalHalf) : list MonthKey :=
  match h with H1 => H1_MONTHS | H2 => H2_MONTHS end.

(** The calendar index of a month: January is 1, December is 12. *)
Definition calendarIndex (k : MonthKey) : Z :=
  match k with
  | Types.JAN => 1 | Types.FEB => 2 | Types.MAR => 3 | Types.APR => 4
  | Types.MAY => 5 | Types.JUN => 6 | JUL => 7 | AUG => 8 | SEP => 9
  | OCT => 10 | NOV => 11 | DEC => 12
  end.

Definition startYear (qs : Date) : Z := getUTCFullYear qs.
Definition startMonth (qs : Date) : Z := getUTCMonth qs + 1.

(** The start (year, month) lies after the end of the selected half. *)
Definition startsAfterHalf (parsed : ParsedLabel) (qs : Date) : Prop :=
  year parsed < startYear qs
  \/ (startYear qs = year parsed
      /\ halfLastMonth (halfOf parsed) < startMonth qs).

Definition startsAfterHalfb (parsed : ParsedLabel) (qs : Date) : bool :=
  (year parsed <? startYear qs)
  || ((startYear qs =? year parsed)
      && (halfLastMonth (halfOf parsed) <? startMonth qs)).

(** The larger of the first month of the half and the start month when
    the start falls in the year of the half, else the first month. *)
Definition effectiveStart (parsed : ParsedLabel) (qs : Date) : Z :=
  if startYear qs =? year parsed
  then Z.max (halfFirstMonth (halfOf parsed)) (startMonth qs)
  else halfFirstMonth (halfOf parsed).

Definition isDualMetric (rec : QuotaRecord) : bool :=
  (toUpperCase (dualMetric rec) =? "DMC")%string.

(** Primary Y1 is always checked; Y2 and Y3 combined when present; the
    secondary buckets when the record is dual-metric and they are present. *)
Definition bucketChecked (rec : QuotaRecord) (b : Bucket) : bool :=
  match b with
  | PrimaryY1 => true
  | PrimaryY2Y3 => Validators.isSome (monthlyQuotasY2Y3 rec)
  | SecondaryY1 => isDualMetric rec && Validators.isSome (monthlyQuotasComp2 rec)
  | SecondaryY2Y3 =>
      isDualMetric rec && Validators.isSome (monthlyQuotasComp2Y2Y3 rec)
  end.

Definition bucketCell (rec : QuotaRecord) (b : Bucket) (k : MonthKey) : cell :=
  let data :=
    match b with
    | PrimaryY1 => Some (monthlyQuotas rec)
    | PrimaryY2Y3 => monthlyQuotasY2Y3 rec
    | SecondaryY1 => monthlyQuotasComp2 rec
    | SecondaryY2Y3 => monthlyQuotasComp2Y2Y3 rec
    end in
  match data with Some q => mget q k | None => CNull end.

(** Null, a blank or dash string, or numeric zero. *)
Definition valueMissing (c : cell) : Prop :=
  c = CNull
  \/ (exists s, c = CStr s /\ (trim s = "" \/ trim s = "-"))
  \/ (exists q, c = CNum (Finite q) /\ (q == 0)%Q).

(** The missing list a result carries for a bucket. *)
Definition missingOf (r : V3Result) (b : Bucket) : list MonthKey :=
  match b with
  | PrimaryY1 => missingMonths r
  | PrimaryY2Y3 => missingMonthsY2Y3 r
  | SecondaryY1 => missingMonthsComp2 r
  | SecondaryY2Y3 => missingMonthsComp2Y2Y3 r
  end.

(** A month of the half is missing in a checked bucket. *)
Definition monthMissing (parsed : ParsedLabel) (rec : QuotaRecord) (qs : Date)
  (b : Bucket) (k : MonthKey) : Prop :=
  bucketChecked rec b = true
  /\ In k (halfMonths (halfOf parsed))
  /\ effectiveStart parsed qs <= calendarIndex k
  /\ valueMissing (bucketCell rec b k).

(** A record with another region hint. *)
Definition withRepRegion (rec : QuotaRecord) (hint : string) : QuotaRecord :=
  mkQuota (sheet rec) (row rec) (eid rec) (name rec) (level rec) hint
    (dualMetric rec) (quotaStartDate rec) (submissionMonth rec)
    (monthlyQuotas rec) (monthlyQuotasY2Y3 rec) (monthlyQuotasComp2 rec)
    (monthlyQuotasComp2Y2Y3 rec).

(** Some roster entry of the identifier has a country of the valid set. *)
Definition rosterCountryMatch (refRecords : list ReferenceRecord) (id : string)
  (validCountries : list string) : Prop :=
  exists ref c, In ref (rosterEntries refRecords id)
                /\ country ref = Some c /\ In c validCountries.

(** The geography table of the LMS path. *)
Definition geoRegion (g : string) : option Region :=
  if (g =? "APAC")%string then Some APAC
  else if (g =? "EMEA")%string then Some EMEAL
  else if (g =? "LATAM")%string then Some EMEAL
  else if (g =? "NAMER")%string then Some NAMER
  else None.

(** The two revenue streams of an LMS record. *)
Inductive Stream : Type := Rev1 | Rev2.

(** Non-SA, Rev 1 Only and both streams check the primary stream; Rev 2
    Only and both streams check the secondary stream. *)
Definition streamChecked (rec : LmsQuotaRecord) (s : Stream) : Prop :=
  match s with
  | Rev1 => component rec = "Non-SA" \/ component rec = "Rev 1 Only"
            \/ component rec = "Rev 1 & Rev 2"
  | Rev2 => component rec = "Rev 2 Only" \/ component rec = "Rev 1 & Rev 2"
  end.

Definition streamCell (rec : LmsQuotaRecord) (s : Stream) (m : LmsMonth) : cell :=
  match s with
  | Rev1 => lget (rev1Monthly rec) m
  | Rev2 => lget (rev2Monthly rec) m
  end.

Definition streamColumn (s : Stream) (m : LmsMonth) : string :=
  (match s with Rev1 => "Rev1-" | Rev2 => "Rev2-" end ++ monthName m)%string.

(** The quarter boundary: month 3 up to an effective month of 3, else 6. *)
Definition quarterEnd (effectiveMonth : Z) : Z :=
  if effectiveMonth <=? 3 then 3 else 6.

(** The months of a quarterly plan that should hold a positive amount. *)
Definition quarterlyActive (effectiveMonth : Z) (m : LmsMonth) : Prop :=
  effectiveMonth <= LMS_MONTH_TO_CAL m <= quarterEnd effectiveMonth.

(** An issue of a given kind is reported for a record, on the column of
    a stream and a month, with the observed value. *)
Definition reportedIssue (results : list LmsV2Result) (rec : LmsQuotaRecord)
  (s : Stream) (m : LmsMonth) (kind : LmsV2IssueType) : Prop :=
  exists r x,
    In r results /\ lmsRecord r = rec /\ In x (issues r)
    /\ column x = streamColumn s m /\ issueMonth x = m
    /\ issueType x = kind /\ actualValue x = streamCell rec s m.

End Spec.

(** ** Sample data *)

Module Samples.

Definition num (z : Z) : cell := CNum (Finite (inject_Z z)).

Definition blankQuotas : MonthlyQuotas :=
  mkMonthly CNull CNull CNull CNull CNull CNull CNull CNull CNull CNull CNull CNull.

Definition quotaRow (id : string) (start submission : option Date)
  (quotas : MonthlyQuotas) : QuotaRecord :=
  mkQuota "IC Quota" 7 id "Name" "L1" "APAC" "SMC" start submission quotas
    None None None.

Definition rosterRow (id : string) (active leave ctry : option string)
  : ReferenceRecord :=
  mkRef id "Name" active leave ctry None.

Definition jan2026 : Date := mkDate 2026 0.
Definition sep2025 : Date := mkDate 2025 8.

(** The scenario of the specification: an active entry in Japan. *)
Definition e1Record : QuotaRecord :=
  quotaRow "E1" (Some jan2026) (Some jan2026) blankQuotas.
Definition e1Roster : ReferenceRecord :=
  rosterRow "E1" (Some "Yes") None (Some "Japan").

(** A second entry for the same person, inactive and on leave. *)
Definition e1OnLeave : ReferenceRecord :=
  rosterRow "E1" (Some "No") (Some "Yes") (Some "Japan").

(** A record that starts in September 2025, with zero amounts in
    September, October and November. *)
Definition septemberQuotas : MonthlyQuotas :=
  mkMonthly (num 100) (num 100) (num 0) (num 0) (num 0) (num 100)
    CNull CNull CNull CNull CNull CNull.
Definition septemberRecord : QuotaRecord :=
  quotaRow "E2" (Some sep2025) (Some sep2025) septemberQuotas.

(** A placeholder identifier that the roster also lists. *)
Definition tbhRecord : QuotaRecord :=
  quotaRow "TBH-001" (Some jan2026) (Some jan2026) blankQuotas.
Definition tbhRoster : ReferenceRecord :=
  rosterRow "TBH-001" (Some "Yes") None (Some "Japan").

(** LMS records. *)
Definition blankLmsQuotas : LmsMonthlyQuotas :=
  mkLmsMonthly CNull CNull CNull CNull CNull CNull.

Definition lmsRow (id g comp plan : string) (effective : option Date)
  (rev1 rev2 : LmsMonthlyQuotas) : LmsQuotaRecord :=
  mkLms 2 "Name" id "M1" "Manager" g "T1" "Seg" "SD" "Team" comp plan ""
    effective "" CNull CNull CNull rev1 CNull CNull CNull rev2 blankLmsQuotas.

Definition feb2026 : Date := mkDate 2026 1.
Definition nov2025 : Date := mkDate 2025 10.

(** A quarterly plan effective in February, with an amount in April and
    none in March. *)
Definition febQuarterly : LmsQuotaRecord :=
  lmsRow "E5" "APAC" "Non-SA" "Qtrly" (Some feb2026)
    (mkLmsMonthly CNull (num 10) CNull (num 10) CNull CNull) blankLmsQuotas.

(** A semi-annual plan effective in November of the prior year, and the
    same plan effective in January, both without amounts. *)
Definition novSemi : LmsQuotaRecord :=
  lmsRow "E6" "APAC" "Non-SA" "Semi" (Some nov2025) blankLmsQuotas blankLmsQuotas.
Definition janSemi : LmsQuotaRecord :=
  lmsRow "E6" "APAC" "Non-SA" "Semi" (Some jan2026) blankLmsQuotas blankLmsQuotas.

(** A stand-in for [parseFloat] where no cell holds text. *)
Definition noText (s : string) : number := NaN.

(** The results of a run, or empty results when the run throws. *)
Definition resultsOf (r : result ValidationResults) : ValidationResults :=
  match r with
  | inr res => res
  | inl _ => mkResults [] [] [] (mkSummary 0 0 0 0 0 0)
  end.

(** A small quota sheet and a small roster sheet, with stand-ins for the
    text of a number and for the date of a serial number. *)
Definition serialText (n : number) : string := "46023".
Definition serialDate (v : cell) : option Date :=
  match v with CNum _ => Some jan2026 | _ => None end.

Definition quotaHeader : list cell :=
  [CStr "Submission Month"; CStr "EID"; CStr "Name"; CStr "Comp1: Y1 - JUL";
   CStr "Comp1: Y2 & Y3 - JUL"].

Definition quotaSheet : list (option (list cell)) :=
  [None; None; None; None; Some quotaHeader; Some [];
   Some [num 46023; CStr " E1 "; CStr "Ann"; num 10; num 20]].

Definition sheetRecord : QuotaRecord :=
  hd e1Record
    (QuotaColumns.sheetRecords serialText serialDate "LSS Quota" quotaSheet).

Definition rosterSheet : list (option (list cell)) :=
  [Some [CStr "Roster"];
   Some [CStr "Employee ID"; CStr "Full Legal Name"; CStr "On Leave"];
   Some [CStr " E1 "; CStr "Ann"; CStr " "];
   Some [CNull; CStr "Bob"]].

(** The records of a parse, or none when it throws. *)
Definition recordsOf {A : Type} (r : result (list A)) : list A :=
  match r with inr l => l | inl _ => [] end.

End Samples.

(** ** Further statements about the code *)

Module Props.

(** *** Where the model and JavaScript agree

    [trim], [toUpperCase] and [toLowerCase] of the model act as those of
    JavaScript on ASCII text; on other text JavaScript strips more white
    space and maps more letters.  A lookup in a table that the code
    writes as an object literal finds in JavaScript also the members that
    every object inherits.  The statements that depend on one of these
    say so with the predicates below. *)

Definition asciiChar (c : ascii) : bool := (code c <? 128)%N.

(** Every character of the text is an ASCII character. *)
Fixpoint asciiText (s : string) : bool :=
  match s with
  | EmptyString => true
  | String c r => asciiChar c && asciiText r
  end.

(** A cell that, if it holds text, holds ASCII text. *)
Definition asciiCell (v : cell) : bool :=
  match v with
  | CStr s => asciiText s
  | _ => true
  end.


(** The names of the members of [Object.prototype]. *)
Definition inheritedKeys : list string :=
  ["constructor"; "__proto__"; "hasOwnProperty"; "isPrototypeOf";
   "propertyIsEnumerable"; "toLocaleString"; "toString"; "valueOf";
   "__defineGetter__"; "__defineSetter__"; "__lookupGetter__";
   "__lookupSetter__"].

Definition inheritedKey (s : string) : bool :=
  existsb (fun k => (k =? s)%string) inheritedKeys.

(** The country of a roster entry, if any, is no such name. *)
Definition plainCountry (ref : ReferenceRecord) : Prop :=
  match country ref with
  | Some c => inheritedKey c = false
  | None => True
  end.

(** A date whose month index is one of a calendar: an invalid date has
    none. *)
Definition validMonth (d : Date) : Prop := 0 <= getUTCMonth d <= 11.

(** The cells of a row, and the rows of a sheet, whose texts are ASCII:
    a missing row has no text. *)
Definition asciiCells (numberToString : number -> string)
  (cells : list cell) : bool :=
  forallb (fun v => asciiText (ExcelCells.text numberToString v)) cells.

Definition asciiRows (numberToString : number -> string)
  (rows : list (option (list cell))) : bool :=
  forallb (fun r => match r with
                    | Some cells => asciiCells numberToString cells
                    | None => true
                    end) rows.

(** The value snapshot a result carries for a bucket. *)
Definition valuesOf (r : V3Result) (b : Spec.Bucket) : list (MonthKey * cell) :=
  match b with
  | Spec.PrimaryY1 => quotaValues r
  | Spec.PrimaryY2Y3 => quotaValuesY2Y3 r
  | Spec.SecondaryY1 => quotaValuesComp2 r
  | Spec.SecondaryY2Y3 => quotaValuesComp2Y2Y3 r
  end.

(** The presence flag a result carries for a bucket. *)
Definition flagOf (r : V3Result) (b : Spec.Bucket) : bool :=
  match b with
  | Spec.PrimaryY1 => true
  | Spec.PrimaryY2Y3 => hasY2Y3 r
  | Spec.SecondaryY1 => hasComp2 r
  | Spec.SecondaryY2Y3 => hasComp2Y2Y3 r
  end.

(** Calendar order on month keys. *)
Definition earlier (a b : MonthKey) : Prop :=
  Spec.calendarIndex a < Spec.calendarIndex b.

(** The order that the issue comparator induces: not after. *)
Definition issueLe (a b : LmsV2Issue) : Prop :=
  LmsValidators.compareIssues a b <= 0.

(** The sort key of an issue: stream rank, then calendar month. *)
Definition issueRank (x : LmsV2Issue) : Z :=
  if startsWith (column x) "Rev1" then 0 else 1.

(** Primary-stream issues come first; within a stream, earlier months
    come first. *)
Definition issueBefore (a b : LmsV2Issue) : Prop :=
  issueRank a < issueRank b
  \/ (issueRank a = issueRank b
      /\ LMS_MONTH_TO_CAL (issueMonth a) <= LMS_MONTH_TO_CAL (issueMonth b)).

(** A roster entry of an active person on leave. *)
Definition activeOnLeave (ref : ReferenceRecord) : bool :=
  strictEq (activeStatus ref) "Yes" && strictEq (onLeave ref) "Yes".

(** The region that a hint names, and the table that knows it: the
    segment table on the trimmed hint in upper case, else, for a hint of
    two characters, the country-code table. *)
Definition hintRegion (hint : string)
  : option (OverlayValidators.RegionMatchType * Region) :=
  let u := toUpperCase (trim hint) in
  match lookup MARKET_SEGMENT_REGION_MAP u with
  | Some r => Some (OverlayValidators.segment_direct, r)
  | None =>
      if (String.length u =? 2)%nat
      then match lookup COUNTRY_CODE_REGION_MAP u with
           | Some r => Some (OverlayValidators.segment_country_code, r)
           | None => None
           end
      else None
  end.

(** The roster gives no usable signal for an identifier: it has no entry,
    or no entry lies in the region and the first entry has a blank
    country or one that the country table does not know, neither as a key
    of its own nor as the name of an inherited member. *)
Definition noRosterSignal (refRecords : list ReferenceRecord) (id : string)
  (validCountries : list string) : Prop :=
  ~ Spec.rosterCountryMatch refRecords id validCountries
  /\ match Spec.rosterEntries refRecords id with
     | [] => True
     | first :: _ =>
         match country first with
         | None => True
         | Some c =>
             c = ""
             \/ (lookup COUNTRY_REGION_MAP c = None /\ inheritedKey c = false)
         end
     end.

(** *** Reading CSV text back

    A reader of comma-separated text in the usual convention.  Fields
    are separated by commas.  Outside a quoted field a record ends at a
    line feed, at a carriage return, or at a carriage return with the
    line feed that follows it, and a double quote is refused.  A field
    that starts with a double quote runs to the next double quote that is
    not doubled; inside it commas and line breaks are text and a doubled
    double quote stands for one.  An empty line counts as a record of one
    empty field.  It is the measure for what [escapeCsv] writes. *)

Inductive CsvMode : Type :=
| FieldStart | Unquoted | Quoted | QuoteSeen | AfterCR.

Definition cr : ascii := ascii_of_nat 13.

(** What is still to come: the rest of the current field, the other
    fields of the current record, the other records. *)
Definition CsvRest : Type := (string * list string * list (list string))%type.

Definition addChar (c : ascii) (r : option CsvRest) : option CsvRest :=
  match r with
  | Some (f, fs, recs) => Some (String c f, fs, recs)
  | None => None
  end.

Definition newField (r : option CsvRest) : option CsvRest :=
  match r with
  | Some (f, fs, recs) => Some (EmptyString, f :: fs, recs)
  | None => None
  end.

Definition newRecord (r : option CsvRest) : option CsvRest :=
  match r with
  | Some (f, fs, recs) => Some (EmptyString, [], (f :: fs) :: recs)
  | None => None
  end.

Fixpoint readCsv (mode : CsvMode) (s : string) : option CsvRest :=
  match s with
  | EmptyString =>
      match mode with
      | Quoted => None
      | _ => Some (EmptyString, [], [])
      end
  | String c r =>
      match mode with
      | FieldStart =>
          if (c =? CsvExport.quote)%char then readCsv Quoted r
          else if (c =? CsvExport.comma)%char then newField (readCsv FieldStart r)
          else if (c =? CsvExport.lf)%char then newRecord (readCsv FieldStart r)
          else if (c =? cr)%char then newRecord (readCsv AfterCR r)
          else addChar c (readCsv Unquoted r)
      | AfterCR =>
          if (c =? CsvExport.lf)%char then readCsv FieldStart r
          else if (c =? CsvExport.quote)%char then readCsv Quoted r
          else if (c =? CsvExport.comma)%char then newField (readCsv FieldStart r)
          else if (c =? cr)%char then newRecord (readCsv AfterCR r)
          else addChar c (readCsv Unquoted r)
      | Unquoted =>
          if (c =? CsvExport.quote)%char then None
          else if (c =? CsvExport.comma)%char then newField (readCsv FieldStart r)
          else if (c =? CsvExport.lf)%char then newRecord (readCsv FieldStart r)
          else if (c =? cr)%char then newRecord (readCsv AfterCR r)
          else addChar c (readCsv Unquoted r)
      | Quoted =>
          if (c =? CsvExport.quote)%char then readCsv QuoteSeen r
          else addChar c (readCsv Quoted r)
      | QuoteSeen =>
          if (c =? CsvExport.quote)%char
          then addChar CsvExport.quote (readCsv Quoted r)
          else if (c =? CsvExport.comma)%char then newField (readCsv FieldStart r)
          else if (c =? CsvExport.lf)%char then newRecord (readCsv FieldStart r)
          else if (c =? cr)%char then newRecord (readCsv AfterCR r)
          else None
      end
  end.

(** The records of a text, each a list of fields; [None] for a text that
    breaks the convention. *)
Definition parseCsv (s : string) : option (list (list string)) :=
  match readCsv FieldStart s with
  | Some (f, fs, recs) => Some ((f :: fs) :: recs)
  | None => None
  end.

(** The text of a field: what a reader should get back. *)
Definition fieldText (v : CsvExport.field) : string :=
  match v with
  | CsvExport.FNull => ""
  | CsvExport.FStr s => s
  | CsvExport.FInt n => JsNumber.intToString n
  end.

(** A text in front of the field that is being read. *)
Fixpoint addText (t : string) (r : option CsvRest) : option CsvRest :=
  match t with
  | EmptyString => r
  | String c t' => addChar c (addText t' r)
  end.

(** What may follow a field: the end of the text, a comma or a line
    feed. *)
Definition fieldEnd (tail : string) : Prop :=
  match tail with
  | EmptyString => True
  | String c _ => c = CsvExport.comma \/ c = CsvExport.lf
  end.

(** A field that a reader can take back: a carriage return, if it holds
    one, comes with a comma, a double quote or a line feed, which make
    [escapeCsv] put the field in quotes. *)
Definition readable (v : CsvExport.field) : bool :=
  let t := fieldText v in
  negb (CsvExport.includesChar cr t)
  || CsvExport.includesChar CsvExport.comma t
  || CsvExport.includesChar CsvExport.quote t
  || CsvExport.includesChar CsvExport.lf t.

(** A row that is not written as an empty line: it has two fields or
    more, or one field with some text. *)
Definition writtenRow (r : list CsvExport.field) : bool :=
  match r with
  | [] => false
  | [v] => negb (fieldText v =? "")%string
  | _ => true
  end.

(** *** Reading the header of a quota sheet *)

(** The index of the first cell, counted from [c], that satisfies [p]. *)
Fixpoint firstIndex (p : cell -> bool) (c : Z) (header : list cell)
  : option Z :=
  match header with
  | [] => None
  | v :: rest => if p v then Some c else firstIndex p (c + 1) rest
  end.

(** The index of the last such cell. *)
Fixpoint lastIndex (p : cell -> bool) (c : Z) (header : list cell)
  : option Z :=
  match header with
  | [] => None
  | v :: rest =>
      match lastIndex p (c + 1) rest with
      | Some i => Some i
      | None => if p v then Some c else None
      end
  end.

Section WithNumberToString.

Variable numberToString : number -> string.

(** The trimmed text of a header cell that is not empty. *)
Definition headerText (v : cell) : option string :=
  match v with
  | CNull => None
  | _ => Some (trim (ExcelCells.text numberToString v))
  end.

(** The bucket that a header names: secondary when it mentions COMP2,
    years two and three when it mentions Y2, in any case of the
    letters. *)
Definition headerBucket (h : string) : Spec.Bucket :=
  match JsText.includes (toUpperCase h) "COMP2",
        JsText.includes (toUpperCase h) "Y2" with
  | true, true => Spec.SecondaryY2Y3
  | true, false => Spec.SecondaryY1
  | false, true => Spec.PrimaryY2Y3
  | false, false => Spec.PrimaryY1
  end.

Definition Bucket_eqb (a b : Spec.Bucket) : bool :=
  match a, b with
  | Spec.PrimaryY1, Spec.PrimaryY1 | Spec.PrimaryY2Y3, Spec.PrimaryY2Y3
  | Spec.SecondaryY1, Spec.SecondaryY1
  | Spec.SecondaryY2Y3, Spec.SecondaryY2Y3 => true
  | _, _ => false
  end.

(** The cell heads the column of month [m] in bucket [b]. *)
Definition isMonthColumn (b : Spec.Bucket) (m : MonthKey) (v : cell) : bool :=
  match headerText v with
  | None => false
  | Some h =>
      QuotaColumns.endsWithMonth h (toUpperCase h) m
      && Bucket_eqb (headerBucket h) b
  end.

(** The column of month [m] in bucket [b]: the first one so headed. *)
Definition monthColumn (header : list cell) (b : Spec.Bucket) (m : MonthKey)
  : option Z :=
  firstIndex (isMonthColumn b m) 0 header.

(** Some month of the bucket has a column. *)
Definition bucketPresent (header : list cell) (b : Spec.Bucket) : bool :=
  existsb (fun m => Validators.isSome (monthColumn header b m))
    QuotaColumns.MONTHS.

(** The index object that the column map holds for a bucket. *)
Definition bucketCols (cm : QuotaColumns.QuotaColumnMap) (b : Spec.Bucket)
  : option QuotaColumns.MonthCols :=
  match b with
  | Spec.PrimaryY1 => Some (QuotaColumns.y1 cm)
  | Spec.PrimaryY2Y3 => QuotaColumns.y2y3 cm
  | Spec.SecondaryY1 => QuotaColumns.comp2Y1 cm
  | Spec.SecondaryY2Y3 => QuotaColumns.comp2Y2Y3 cm
  end.

(** The seven descriptive columns. *)
Inductive MetaKind : Type :=
| KSubmission | KEid | KName | KLevel | KRepRegion | KQuotaStart | KDualMetric.

Definition MetaKind_eqb (a b : MetaKind) : bool :=
  match a, b with
  | KSubmission, KSubmission | KEid, KEid | KName, KName | KLevel, KLevel
  | KRepRegion, KRepRegion | KQuotaStart, KQuotaStart
  | KDualMetric, KDualMetric => true
  | _, _ => false
  end.

(** The descriptive column that a header text names, by the first rule
    that applies. *)
Definition metaKind (h : string) : option MetaKind :=
  let l := toLowerCase h in
  if startsWith l "submission" then Some KSubmission
  else if (h =? "EID")%string then Some KEid
  else if (h =? "Name")%string then Some KName
  else if (h =? "Level")%string then Some KLevel
  else if JsText.includes l "rep region" then Some KRepRegion
  else if JsText.includes l "quota start" then Some KQuotaStart
  else if JsText.includes l "single/dual" || JsText.includes l "dual metric"
       then Some KDualMetric
  else None.

Definition isMetaColumn (k : MetaKind) (v : cell) : bool :=
  match headerText v with
  | None => false
  | Some h => match metaKind h with
              | Some k' => MetaKind_eqb k' k
              | None => false
              end
  end.

Definition metaColumn (cm : QuotaColumns.QuotaColumnMap) (k : MetaKind) : Z :=
  match k with
  | KSubmission => QuotaColumns.colSubmissionMonth cm
  | KEid => QuotaColumns.colEid cm
  | KName => QuotaColumns.colName cm
  | KLevel => QuotaColumns.colLevel cm
  | KRepRegion => QuotaColumns.colRepRegion cm
  | KQuotaStart => QuotaColumns.colQuotaStartDate cm
  | KDualMetric => QuotaColumns.colDualMetric cm
  end.

Definition metaDefault (k : MetaKind) : Z :=
  match k with
  | KSubmission => 0 | KEid => 1 | KName => 2 | KLevel => 3
  | KRepRegion => 9 | KQuotaStart => 11 | KDualMetric => -1
  end.

(** The cells that [Found] holds, by kind. *)
Definition foundOf (f : QuotaColumns.Found) (k : MetaKind) : option Z :=
  match k with
  | KSubmission => QuotaColumns.fSubmissionMonth f
  | KEid => QuotaColumns.fEid f
  | KName => QuotaColumns.fName f
  | KLevel => QuotaColumns.fLevel f
  | KRepRegion => QuotaColumns.fRepRegion f
  | KQuotaStart => QuotaColumns.fQuotaStartDate f
  | KDualMetric => QuotaColumns.fDualMetric f
  end.

(** The columns collected so far, by bucket. *)
Definition colsOf (cs : QuotaColumns.Cols) (b : Spec.Bucket)
  : QuotaColumns.MonthCols :=
  match b with
  | Spec.PrimaryY1 => QuotaColumns.comp1Y1Cols cs
  | Spec.PrimaryY2Y3 => QuotaColumns.comp1Y2Y3Cols cs
  | Spec.SecondaryY1 => QuotaColumns.comp2Y1Cols cs
  | Spec.SecondaryY2Y3 => QuotaColumns.comp2Y2Y3Cols cs
  end.

(** The bucket of the two flags of the loop. *)
Definition flagsBucket (isComp2 isY2Y3 : bool) : Spec.Bucket :=
  match isComp2, isY2Y3 with
  | true, true => Spec.SecondaryY2Y3
  | true, false => Spec.SecondaryY1
  | false, true => Spec.PrimaryY2Y3
  | false, false => Spec.PrimaryY1
  end.

(** A header cell of the roster with exactly this trimmed text. *)
Definition isNamed (name : string) (v : cell) : bool :=
  match headerText v with
  | None => false
  | Some h => (h =? name)%string
  end.

End WithNumberToString.

End Props.

(** ** Auxiliary definitions of the proofs *)

(** Every character, for facts checked by enumeration. *)
Definition allAscii : list ascii := map ascii_of_nat (seq 0 256).

(** The elements of a key, in list order. *)
Definition groupOf {A : Type} (key : A -> string) (k : string) (l : list A)
  : list A :=
  filter (fun x => (key x =? k)%string) l.

(** What the map holds at a key, or the empty list. *)
Definition existingAt {A : Type} (m : list (string * list A)) (k : string)
  : list A :=
  match JsMap.get m k with Some l => l | None => [] end.

(** The keys of a half, from position [c] of the calendar on. *)
Fixpoint aligned (c : Z) (keys : list MonthKey) : Prop :=
  match keys with
  | [] => True
  | k :: rest => Spec.calendarIndex k = c /\ aligned (c + 1) rest
  end.

(** The test of the V3 loop: the month is checked and [f] holds. *)
Definition checkedAnd (eff : Z) (f : MonthKey -> bool) (k : MonthKey) : bool :=
  (eff <=? Spec.calendarIndex k) && f k.

(** The missing list of a bucket, as the specification describes it. *)
Definition missingList (parsed : ParsedLabel) (rec : QuotaRecord) (qs : Date)
  (b : Spec.Bucket) : list MonthKey :=
  if Spec.bucketChecked rec b
  then filter (fun k =>
         (Spec.effectiveStart parsed qs <=? Spec.calendarIndex k)
         && Validators.isQuotaValueMissing (Spec.bucketCell rec b k))
         (Spec.halfMonths (Spec.halfOf parsed))
  else [].

(** Some bucket has a missing month. *)
Definition anyMissing (parsed : ParsedLabel) (rec : QuotaRecord) (qs : Date) : bool :=
  existsb (fun b => (0 <? List.length (missingList parsed rec qs b))%nat)
    Spec.allBuckets.

(** The issue that the alignment check files for a stream and a month. *)
Definition filedIssue (parseFloat : string -> number) (rec : LmsQuotaRecord)
  (effectiveMonth : Z) (s : Spec.Stream) (m : LmsMonth) (should : bool)
  : list LmsV2Issue :=
  LmsValidators.streamIssues parseFloat
    match s with Spec.Rev1 => "Rev1" | Spec.Rev2 => "Rev2" end
    (planType rec) effectiveMonth m should (Spec.streamCell rec s m).

(** * Proofs *)

(** ** The definitions on small inputs *)

Example trim_inner_space : trim "  a b  " = "a b".
Proof. reflexivity. Qed.

Example trim_dash : trim " - " = "-".
Proof. reflexivity. Qed.

Example toUpperCase_mixed : toUpperCase "eMea-1" = "EMEA-1".
Proof. reflexivity. Qed.

Example isTbhOrBlank_cases :
  map Validators.isTbhOrBlank [""; "-"; "Tbh 12"; "E1"; " -"]
  = [true; true; true; false; false].
Proof. reflexivity. Qed.

Example parse_Jan26 :
  parseSubmissionMonthLabel "Jan-26" = Some (mkParsed 2026 1).
Proof. reflexivity. Qed.

Example parse_lower_dec : parseSubmissionMonthLabel "dec-05" = Some (mkParsed 2005 12).
Proof. reflexivity. Qed.

Example parse_rejects :
  map parseSubmissionMonthLabel ["Jan-2026"; "Jan 26"; "Foo-26"; " Jan-26"; "Jan-2x"]
  = [None; None; None; None; None].
Proof. reflexivity. Qed.

Example countries_NAMER :
  getCountriesForRegion NAMER = ["Canada"; "United States of America"].
Proof. reflexivity. Qed.

Example isQuotaValueMissing_cases :
  map Validators.isQuotaValueMissing
    [CNull; CStr ""; CStr " - "; CStr "n/a"; Samples.num 0; Samples.num 5;
     CNum NaN]
  = [true; true; true; false; true; false; false].
Proof. reflexivity. Qed.

Example v1_scenario :
  map status
    (v1 (Samples.resultsOf
           (Validators.runValidation [Samples.e1Record] [Samples.e1Roster]
              "Jan-26" APAC)))
  = [pass].
Proof. reflexivity. Qed.

Example expected_qtrly_feb :
  map LmsValidators.shouldHaveAmount
    (LmsValidators.getExpectedActiveMonths 2 "Qtrly")
  = [false; true; true; false; false; false].
Proof. reflexivity. Qed.

Example expected_qtrly_may :
  map LmsValidators.shouldHaveAmount
    (LmsValidators.getExpectedActiveMonths 5 "QTRLY")
  = [false; false; false; false; true; true].
Proof. reflexivity. Qed.

(** ** Characters *)

Lemma allAscii_complete (c : ascii) : In c allAscii.
Proof.
  unfold allAscii.
  rewrite <- (ascii_nat_embedding c).
  apply in_map, in_seq.
  pose proof (nat_ascii_bounded c). lia.
Qed.

Lemma forall_ascii (P : ascii -> bool) :
  forallb P allAscii = true -> forall c, P c = true.
Proof.
  intros H c. rewrite forallb_forall in H. apply H, allAscii_complete.
Qed.

Lemma forall_ascii2 (P : ascii -> ascii -> bool) :
  forallb (fun a => forallb (P a) allAscii) allAscii = true ->
  forall a b, P a b = true.
Proof.
  intros H a b.
  apply (forall_ascii (P a)).
  apply (forall_ascii (fun a => forallb (P a) allAscii) H).
Qed.

Lemma upper_lower_agree (a b : ascii) :
  (upperChar a =? upperChar b)%char = (lowerChar a =? lowerChar b)%char.
Proof.
  apply Bool.eqb_prop.
  revert a b. apply forall_ascii2. vm_compute. reflexivity.
Qed.

Lemma lowerChar_hyphen (c : ascii) :
  lowerChar c = "-"%char -> c = "-"%char.
Proof.
  intros H. apply Ascii.eqb_eq. revert H.
  generalize (forall_ascii
    (fun c => implb (lowerChar c =? "-")%char (c =? "-")%char) eq_refl c).
  intros G H. rewrite <- Ascii.eqb_eq in H. rewrite H in G. exact G.
Qed.

Lemma lowerChar_digit (c : ascii) :
  isDigit (lowerChar c) = true -> lowerChar c = c.
Proof.
  intros H. apply Ascii.eqb_eq. revert H.
  generalize (forall_ascii
    (fun c => implb (isDigit (lowerChar c)) (lowerChar c =? c)%char) eq_refl c).
  intros G H. rewrite H in G. exact G.
Qed.

Lemma isDigit_lowerChar (c : ascii) : isDigit c = true -> lowerChar c = c.
Proof.
  intros H. apply Ascii.eqb_eq. revert H.
  generalize (forall_ascii
    (fun c => implb (isDigit c) (lowerChar c =? c)%char) eq_refl c).
  intros G H. rewrite H in G. exact G.
Qed.

Lemma digitValue_range (c : ascii) :
  isDigit c = true -> 0 <= digitValue c <= 9.
Proof.
  unfold isDigit, digitValue. intros H.
  apply andb_true_iff in H as [H1 H2].
  apply N.leb_le in H1, H2. lia.
Qed.

(** ** The period label *)

Lemma matchLiteral_shape (lit s g rest : string) :
  matchLiteral lit s = Some (g, rest) ->
  s = (g ++ rest)%string /\ String.length g = String.length lit
  /\ toLowerCase g = toLowerCase lit.
Proof.
  revert s g rest.
  induction lit as [|a lit IH]; intros s g rest H; simpl in H.
  - inversion H; subst. auto.
  - destruct s as [|b s']; [discriminate|].
    destruct (upperChar a =? upperChar b)%char eqn:E; [|discriminate].
    destruct (matchLiteral lit s') as [[m r]|] eqn:M; [|discriminate].
    inversion H; subst. destruct (IH _ _ _ M) as (-> & L & T).
    simpl. repeat split; try congruence.
    rewrite upper_lower_agree in E. apply Ascii.eqb_eq in E.
    unfold toLowerCase in *. simpl. rewrite T, E. reflexivity.
Qed.

Lemma matchLiteral_complete (lit g rest : string) :
  toLowerCase g = toLowerCase lit ->
  matchLiteral lit (g ++ rest)%string = Some (g, rest).
Proof.
  revert g. induction lit as [|a lit IH]; intros g H.
  - destruct g; [reflexivity | discriminate].
  - destruct g as [|b g]; [discriminate|].
    unfold toLowerCase in H. simpl in H. inversion H as [[Hc Hs]].
    simpl. rewrite upper_lower_agree, Hc, Ascii.eqb_refl.
    rewrite (IH g Hs). reflexivity.
Qed.

Lemma matchAlternation_sound (alts : list string) (s g1 g2 : string) :
  matchAlternation alts s = Some (g1, g2) ->
  exists a rest, In a alts /\ matchLiteral a s = Some (g1, rest)
                 /\ matchTail rest = Some g2.
Proof.
  induction alts as [|a alts IH]; simpl; [discriminate|].
  intros H.
  destruct (matchLiteral a s) as [[g rest]|] eqn:M.
  - destruct (matchTail rest) as [t|] eqn:T.
    + inversion H; subst. exists a, rest. auto.
    + destruct (IH H) as (a' & r' & ? & ? & ?). exists a', r'. auto.
  - destruct (IH H) as (a' & r' & ? & ? & ?). exists a', r'. auto.
Qed.

Lemma append_same_length (g g' r r' : string) :
  (g ++ r)%string = (g' ++ r')%string -> String.length g = String.length g' ->
  g = g' /\ r = r'.
Proof.
  revert g'. induction g as [|c g IH]; intros [|c' g'] H L; simpl in *;
    try discriminate; auto.
  inversion H; subst. destruct (IH g') as [-> ->]; auto.
Qed.

Lemma monthAlternatives_length (a : string) :
  In a monthAlternatives -> String.length a = 3%nat.
Proof.
  unfold monthAlternatives. simpl.
  intros H; repeat (destruct H as [<-|H]; [reflexivity|]); contradiction.
Qed.

Lemma matchAlternation_complete (alts : list string) (s a g rest g2 : string) :
  (forall x, In x alts -> String.length x = 3%nat) ->
  In a alts -> matchLiteral a s = Some (g, rest) -> matchTail rest = Some g2 ->
  matchAlternation alts s = Some (g, g2).
Proof.
  intros Hlen Hin M T.
  induction alts as [|x alts IH]; [contradiction|].
  simpl.
  destruct (matchLiteral x s) as [[g' rest']|] eqn:M'.
  - destruct (matchLiteral_shape _ _ _ _ M) as (E & L & _).
    destruct (matchLiteral_shape _ _ _ _ M') as (E' & L' & _).
    assert (String.length g = String.length g') as LL.
    { rewrite L, L', (Hlen a Hin), (Hlen x (or_introl eq_refl)). reflexivity. }
    rewrite E in E'. destruct (append_same_length _ _ _ _ E' LL) as [<- <-].
    rewrite T. reflexivity.
  - destruct Hin as [->|Hin]; [congruence|].
    apply IH; auto. intros y Hy. apply Hlen. right. exact Hy.
Qed.

Lemma matchTail_shape (rest g2 : string) :
  matchTail rest = Some g2 ->
  exists d1 d2, rest = String "-" g2 /\ g2 = String d1 (String d2 EmptyString)
                /\ isDigit d1 = true /\ isDigit d2 = true.
Proof.
  unfold matchTail.
  destruct rest as [|h [|d1 [|d2 [|? ?]]]]; try discriminate.
  destruct (h =? "-")%char eqn:Eh; [|discriminate].
  destruct (isDigit d1) eqn:E1; [|discriminate].
  destruct (isDigit d2) eqn:E2; [|discriminate].
  simpl. intros H. inversion H; subst.
  apply Ascii.eqb_eq in Eh. subst. exists d1, d2. auto.
Qed.

Lemma monthNames_lookup (a : string) :
  In a monthAlternatives ->
  exists m, lookup monthNames (toLowerCase a) = Some m /\ 1 <= m <= 12.
Proof.
  unfold monthAlternatives. simpl.
  intros H;
    repeat (destruct H as [<-|H];
            [eexists; split; [vm_compute; reflexivity | lia]|]);
    contradiction.
Qed.

(** A successful match leaves the month table no way to miss. *)
Lemma matchLabel_month (label g1 g2 : string) :
  matchLabel label = Some (g1, g2) ->
  exists m, lookup monthNames (toLowerCase g1) = Some m /\ 1 <= m <= 12.
Proof.
  intros H. apply matchAlternation_sound in H as (a & rest & Hin & M & _).
  apply matchLiteral_shape in M as (_ & _ & T). rewrite T.
  apply monthNames_lookup, Hin.
Qed.

Lemma toLowerCase_app (s t : string) :
  toLowerCase (s ++ t)%string = (toLowerCase s ++ toLowerCase t)%string.
Proof.
  unfold toLowerCase. induction s as [|c s IH]; simpl; congruence.
Qed.

Lemma toLowerCase_length (s : string) :
  String.length (toLowerCase s) = String.length s.
Proof.
  unfold toLowerCase. induction s as [|c s IH]; simpl; congruence.
Qed.

Lemma toLowerCase_split (s u v : string) :
  toLowerCase s = (u ++ v)%string ->
  exists g r, s = (g ++ r)%string /\ toLowerCase g = u /\ toLowerCase r = v.
Proof.
  revert s. induction u as [|c u IH]; intros s H; simpl in H.
  - exists EmptyString, s. auto.
  - destruct s as [|b s]; [discriminate|].
    unfold toLowerCase in H. simpl in H. inversion H as [[Hc Hs]].
    destruct (IH s Hs) as (g & r & -> & Hg & Hr).
    exists (String b g), r. unfold toLowerCase in *. simpl.
    repeat split; congruence.
Qed.

Lemma matchLabel_iff_format (label : string) :
  (exists g1 g2, matchLabel label = Some (g1, g2)) <-> Spec.labelFormat label.
Proof.
  split.
  - intros (g1 & g2 & H).
    apply matchAlternation_sound in H as (a & rest & Hin & M & T).
    apply matchLiteral_shape in M as (-> & _ & Tl).
    apply matchTail_shape in T as (d1 & d2 & -> & -> & D1 & D2).
    exists a, d1, d2. repeat split; auto.
    rewrite !toLowerCase_app, Tl. reflexivity.
  - intros (a & d1 & d2 & Hin & D1 & D2 & E).
    rewrite toLowerCase_app in E.
    apply toLowerCase_split in E as (g & r & -> & Hg & Hr).
    unfold toLowerCase in Hr. simpl in Hr.
    destruct r as [|h [|c1 [|c2 [|? ?]]]]; try discriminate.
    simpl in Hr. inversion Hr as [[Hh H1 H2]].
    apply lowerChar_hyphen in Hh. subst h.
    rewrite (isDigit_lowerChar d1 D1) in H1.
    rewrite (isDigit_lowerChar d2 D2) in H2.
    assert (c1 = d1) as ->.
    { rewrite <- H1. symmetry. apply lowerChar_digit. rewrite H1. exact D1. }
    assert (c2 = d2) as ->.
    { rewrite <- H2. symmetry. apply lowerChar_digit. rewrite H2. exact D2. }
    exists g, (String d1 (String d2 EmptyString)).
    apply (matchAlternation_complete monthAlternatives _ a g
             (String "-" (String d1 (String d2 EmptyString)))).
    + apply monthAlternatives_length.
    + exact Hin.
    + apply matchLiteral_complete. exact Hg.
    + unfold matchTail. rewrite D1, D2. reflexivity.
Qed.

Lemma parse_iff_format (label : string) :
  (exists parsed, parseSubmissionMonthLabel label = Some parsed)
  <-> Spec.labelFormat label.
Proof.
  rewrite <- matchLabel_iff_format. unfold parseSubmissionMonthLabel. split.
  - intros (p & H). destruct (matchLabel label) as [[g1 g2]|]; [|discriminate].
    eauto.
  - intros (g1 & g2 & H). rewrite H.
    destruct (matchLabel_month _ _ _ H) as (m & -> & _). eauto.
Qed.

Lemma parse_value (label : string) (parsed : ParsedLabel) :
  parseSubmissionMonthLabel label = Some parsed ->
  exists g d1 d2,
    label = (g ++ String "-" (String d1 (String d2 EmptyString)))%string
    /\ isDigit d1 = true /\ isDigit d2 = true
    /\ year parsed = 2000 + Spec.twoDigits d1 d2
    /\ 1 <= month parsed <= 12.
Proof.
  unfold parseSubmissionMonthLabel. intros H.
  destruct (matchLabel label) as [[g1 g2]|] eqn:M; [|discriminate].
  destruct (matchLabel_month _ _ _ M) as (m & L & R). rewrite L in H.
  inversion H; subst; clear H.
  apply matchAlternation_sound in M as (a & rest & _ & Ml & T).
  apply matchLiteral_shape in Ml as (-> & _ & _).
  apply matchTail_shape in T as (d1 & d2 & -> & -> & D1 & D2).
  exists g1, d1, d2. repeat split; auto; simpl; lia.
Qed.

(** C9. [runValidation] throws the invalid-submission-month error, and so
    returns no results, exactly when the period label is not of the form
    month abbreviation, hyphen, two digits (letters in either case); a
    label of that form parses to the year 2000 + YY and a month between 1
    and 12, and the run returns results. *)
Theorem C9_invalid_period_label
  (allRecords : list QuotaRecord) (refRecords : list ReferenceRecord)
  (selectedMonth : string) (selectedRegion : Region) :
  (Validators.runValidation allRecords refRecords selectedMonth selectedRegion
   = Throw (Validators.invalidMonthMessage selectedMonth)
   <-> ~ Spec.labelFormat selectedMonth)
  /\ (~ Spec.labelFormat selectedMonth ->
      forall res,
        Validators.runValidation allRecords refRecords selectedMonth selectedRegion
        <> Ok res)
  /\ (Spec.labelFormat selectedMonth ->
      exists parsed g d1 d2 res,
        parseSubmissionMonthLabel selectedMonth = Some parsed
        /\ selectedMonth
           = (g ++ String "-" (String d1 (String d2 EmptyString)))%string
        /\ year parsed = 2000 + Spec.twoDigits d1 d2
        /\ 0 <= Spec.twoDigits d1 d2 <= 99
        /\ 1 <= month parsed <= 12
        /\ Validators.runValidation allRecords refRecords selectedMonth
             selectedRegion = Ok res).
Proof.
  pose proof (parse_iff_format selectedMonth) as F.
  unfold Validators.runValidation.
  destruct (parseSubmissionMonthLabel selectedMonth) as [parsed|] eqn:P.
  - assert (Spec.labelFormat selectedMonth) as Fm by (apply F; eauto).
    split; [|split].
    + split; [discriminate | contradiction].
    + contradiction.
    + intros _. destruct (parse_value _ _ P) as (g & d1 & d2 & E & D1 & D2 & Y & M).
      exists parsed, g, d1, d2. eexists.
      repeat split; try eassumption; try lia;
        pose proof (digitValue_range d1 D1);
        pose proof (digitValue_range d2 D2);
        unfold Spec.twoDigits; lia.
  - assert (~ Spec.labelFormat selectedMonth) as Fm.
    { intros Fm. apply F in Fm as (p & ?). discriminate. }
    split; [|split].
    + split; auto.
    + intros _ res. discriminate.
    + contradiction.
Qed.

Lemma C9_invalid_period_label_witness :
  (exists res, Validators.runValidation [] [] "jAN-26" APAC = Ok res)
  /\ Validators.runValidation [] [] "January-26" APAC
     = Throw (Validators.invalidMonthMessage "January-26").
Proof.
  split.
  - destruct (C9_invalid_period_label [] [] "jAN-26" APAC) as (_ & _ & H).
    destruct H as (p & g & d1 & d2 & res & _ & _ & _ & _ & _ & R).
    + exists "Jan", "2"%char, "6"%char. simpl. repeat split; auto.
    + exists res. exact R.
  - vm_compute. reflexivity.
Defined.

(** ** The summary *)

Lemma countStatus_total (l : list V1Result) :
  (Validators.countStatus pass l + Validators.countStatus fail l
   + Validators.countStatus skip l = List.length l)%nat.
Proof.
  unfold Validators.countStatus.
  induction l as [|r l IH]; [reflexivity|].
  simpl. destruct (status r); simpl; lia.
Qed.

Lemma v1Check_record refMap validCountries selectedRegion rec :
  v1Record (Validators.v1Check refMap validCountries selectedRegion rec) = rec.
Proof.
  unfold Validators.v1Check.
  destruct (Validators.isTbhOrBlank (eid rec)); [reflexivity|].
  destruct (JsMap.get refMap (eid rec)) as [[|r rs]|]; try reflexivity.
  destruct (Validators.foundValid _); reflexivity.
Qed.

(** C10. On a successful run each record of the selected period has
    exactly one V1 result, in order; the three V1 counters count the
    results by verdict and add up to [totalRecords], the number of such
    records; [v2DuplicateEids] and [v3MissingQuota] are the lengths of
    the V2 and V3 lists. *)
Theorem C10_summary_consistent
  (allRecords : list QuotaRecord) (refRecords : list ReferenceRecord)
  (selectedMonth : string) (selectedRegion : Region) (res : ValidationResults) :
  Validators.runValidation allRecords refRecords selectedMonth selectedRegion
  = Ok res ->
  exists parsed,
    parseSubmissionMonthLabel selectedMonth = Some parsed
    /\ map v1Record (v1 res) = Validators.targetRecords allRecords parsed
    /\ v1Pass (summary res) = Validators.countStatus pass (v1 res)
    /\ v1Fail (summary res) = Validators.countStatus fail (v1 res)
    /\ v1Skip (summary res) = Validators.countStatus skip (v1 res)
    /\ (v1Pass (summary res) + v1Fail (summary res) + v1Skip (summary res)
        = totalRecords (summary res))%nat
    /\ totalRecords (summary res)
       = List.length (Validators.targetRecords allRecords parsed)
    /\ v2DuplicateEids (summary res) = List.length (v2 res)
    /\ v3MissingQuota (summary res) = List.length (v3 res).
Proof.
  unfold Validators.runValidation.
  destruct (parseSubmissionMonthLabel selectedMonth) as [parsed|]; [|discriminate].
  intros H. inversion H; subst; clear H. exists parsed. simpl.
  repeat split.
  - rewrite map_map. erewrite map_ext; [apply map_id|].
    intros rec. apply v1Check_record.
  - rewrite countStatus_total. apply length_map.
Qed.

(** ** The insertion-ordered map *)

Section MapFacts.
Context {V : Type}.

Lemma get_set_same (m : list (string * V)) k v :
  JsMap.get (JsMap.set m k v) k = Some v.
Proof.
  induction m as [|[k' v'] m IH]; simpl.
  - rewrite String.eqb_refl. reflexivity.
  - destruct (k' =? k)%string eqn:E; simpl; rewrite E; auto.
Qed.

Lemma get_set_other (m : list (string * V)) k k' v :
  k' <> k -> JsMap.get (JsMap.set m k v) k' = JsMap.get m k'.
Proof.
  intros N. induction m as [|[k0 v0] m IH]; simpl.
  - destruct (k =? k')%string eqn:E; [|reflexivity].
    apply String.eqb_eq in E. congruence.
  - destruct (k0 =? k)%string eqn:E; simpl.
    + apply String.eqb_eq in E. subst k0.
      destruct (k =? k')%string eqn:E'; [|reflexivity].
      apply String.eqb_eq in E'. congruence.
    + rewrite IH. reflexivity.
Qed.

End MapFacts.

Section GroupFacts.
Context {A : Type} (key : A -> string).

Lemma get_push (m : list (string * list A)) (x : A) (k : string) :
  JsMap.get (JsMap.push m (key x) x) k
  = if (key x =? k)%string then Some (existingAt m k ++ [x])
    else JsMap.get m k.
Proof.
  unfold JsMap.push, existingAt.
  destruct (key x =? k)%string eqn:E.
  - apply String.eqb_eq in E. subst k. apply get_set_same.
  - apply get_set_other. intros ->. rewrite String.eqb_refl in E. discriminate.
Qed.

(** After the grouping loop, the entry of a key holds what the map held
    before, followed by the elements of that key in list order. *)
Lemma get_fold_push (l : list A) (m : list (string * list A)) (k : string) :
  JsMap.get (fold_left (fun m x => JsMap.push m (key x) x) l m) k
  = match groupOf key k l with
    | [] => JsMap.get m k
    | g => Some (existingAt m k ++ g)
    end.
Proof.
  revert m. induction l as [|x l IH]; intros m; simpl; [reflexivity|].
  rewrite IH. unfold groupOf in *. unfold existingAt at 1.
  rewrite (get_push m x k).
  destruct (key x =? k)%string eqn:E.
  - destruct (filter _ l) as [|y g]; [reflexivity|].
    rewrite <- app_assoc. reflexivity.
  - reflexivity.
Qed.

End GroupFacts.

Lemma buildRefMap_get (refRecords : list ReferenceRecord) (id : string) :
  JsMap.get (Validators.buildRefMap refRecords) id
  = match Spec.rosterEntries refRecords id with
    | [] => None
    | g => Some g
    end.
Proof.
  unfold Validators.buildRefMap. rewrite (get_fold_push refEid).
  unfold groupOf, Spec.rosterEntries, existingAt. simpl. reflexivity.
Qed.

(** ** Check 1 *)

Lemma setHas_In (s : list string) (c : string) :
  setHas s c = if in_dec string_dec c s then true else false.
Proof.
  unfold setHas. destruct (in_dec string_dec c s) as [H|H].
  - apply existsb_exists. exists c. split; [exact H | apply String.eqb_refl].
  - destruct (existsb _ s) eqn:E; [|reflexivity].
    apply existsb_exists in E as (x & Hx & Ex).
    apply String.eqb_eq in Ex. subst. contradiction.
Qed.

Lemma countryInvalid_spec (validCountries : list string) (ref : ReferenceRecord) :
  Validators.countryInvalid validCountries ref
  = negb (Spec.conditionHolds validCountries ref Spec.CountryInRegion).
Proof.
  unfold Validators.countryInvalid, Spec.conditionHolds, truthy, orElse.
  destruct (country ref) as [c|]; [|reflexivity].
  rewrite setHas_In, negb_andb. reflexivity.
Qed.

(** The issues collected for an entry are the messages of the conditions
    it violates, in the order active status, on leave, country. *)
Lemma refIssues_violated validCountries selectedRegion ref :
  Validators.refIssues validCountries selectedRegion ref
  = map (Spec.conditionMessage selectedRegion ref)
        (Spec.violated validCountries ref).
Proof.
  unfold Validators.refIssues, Spec.violated, Spec.allConditions.
  rewrite countryInvalid_spec.
  assert (truthy (onLeave ref)
          = negb (Spec.conditionHolds validCountries ref Spec.OnLeaveBlank)) as ->
    by (unfold truthy; simpl; destruct (onLeave ref); reflexivity).
  change (strictEq (activeStatus ref) "Yes")
    with (Spec.conditionHolds validCountries ref Spec.ActiveIsYes).
  cbn [filter].
  destruct (Spec.conditionHolds validCountries ref Spec.ActiveIsYes),
           (Spec.conditionHolds validCountries ref Spec.OnLeaveBlank),
           (Spec.conditionHolds validCountries ref Spec.CountryInRegion);
    reflexivity.
Qed.

Lemma noIssues_satisfiesAll validCountries selectedRegion ref :
  (List.length (Validators.refIssues validCountries selectedRegion ref) =? 0)%nat
  = Spec.satisfiesAll validCountries ref.
Proof.
  rewrite refIssues_violated, length_map.
  unfold Spec.violated, Spec.satisfiesAll.
  induction Spec.allConditions as [|c l IH]; [reflexivity|].
  simpl. destruct (Spec.conditionHolds validCountries ref c); simpl; auto.
Qed.

Lemma v1Loop_found validCountries selectedRegion refs st ref :
  find (Spec.satisfiesAll validCountries) refs = Some ref ->
  let out := Validators.v1Loop validCountries selectedRegion refs st in
  Validators.foundValid out = true /\ Validators.lastRef out = Some ref.
Proof.
  revert st. induction refs as [|r refs IH]; intros st; simpl; [discriminate|].
  rewrite noIssues_satisfiesAll.
  destruct (Spec.satisfiesAll validCountries r).
  - intros H. inversion H; subst. simpl. auto.
  - intros H. apply IH. exact H.
Qed.

Lemma v1Loop_none validCountries selectedRegion refs st front final :
  find (Spec.satisfiesAll validCountries) refs = None ->
  refs = front ++ [final] ->
  Validators.v1Loop validCountries selectedRegion refs st
  = Validators.mkV1Loop (Validators.foundValid st)
      (Validators.refIssues validCountries selectedRegion final) (Some final).
Proof.
  revert st front. induction refs as [|r refs IH]; intros st front F E.
  - destruct front; discriminate.
  - simpl in *. rewrite noIssues_satisfiesAll.
    destruct (Spec.satisfiesAll validCountries r); [discriminate|].
    destruct front as [|f front]; simpl in E; inversion E; subst.
    + reflexivity.
    + rewrite (IH _ front F eq_refl). reflexivity.
Qed.

Lemma find_none_iff {A : Type} (f : A -> bool) (l : list A) :
  find f l = None <-> ~ exists x, In x l /\ f x = true.
Proof.
  split.
  - intros H (x & Hx & Fx). pose proof (find_none f l H x Hx). congruence.
  - intros H. destruct (find f l) as [x|] eqn:E; [|reflexivity].
    exfalso. apply H. apply find_some in E. eauto.
Qed.

Lemma nonempty_last {A : Type} (l : list A) :
  l <> [] -> exists front final, l = front ++ [final].
Proof.
  intros H. destruct (exists_last H) as (front & final & ->). eauto.
Qed.

(** The V1 result of a record that is no placeholder and has roster
    entries. *)
Lemma v1Check_known refRecords selectedRegion rec :
  Validators.isTbhOrBlank (eid rec) = false ->
  Spec.rosterEntries refRecords (eid rec) <> [] ->
  let validCountries := getCountriesForRegion selectedRegion in
  let entries := Spec.rosterEntries refRecords (eid rec) in
  let r := Validators.v1Check (Validators.buildRefMap refRecords)
             validCountries selectedRegion rec in
  (forall ref, find (Spec.satisfiesAll validCountries) entries = Some ref ->
     r = mkV1 rec pass "" (Some (Validators.refInfoOf ref)))
  /\ (find (Spec.satisfiesAll validCountries) entries = None ->
      forall front final, entries = front ++ [final] ->
        r = mkV1 rec fail
              (join "; " (map (Spec.conditionMessage selectedRegion final)
                            (Spec.violated validCountries final)))
              (Some (Validators.refInfoOf final))).
Proof.
  intros T NE vc entries r. subst r. unfold Validators.v1Check.
  rewrite T, buildRefMap_get. fold entries.
  destruct entries as [|e0 es] eqn:EE; [contradiction|].
  split.
  - intros ref F.
    destruct (v1Loop_found vc selectedRegion (e0 :: es)
                (Validators.mkV1Loop false [] None) ref F) as [Fv Lr].
    rewrite Fv, Lr. reflexivity.
  - intros F front final E.
    rewrite (v1Loop_none vc selectedRegion (e0 :: es) _ front final F E).
    simpl. rewrite refIssues_violated. reflexivity.
Qed.

(** C1. For a record of the selected period whose identifier is no
    placeholder and has roster entries: the verdict is pass exactly when
    some entry meets all three conditions, and then the evidence holds
    the active status, the leave field and the country of the first such
    entry; when none does, the verdict is fail, the last roster entry
    violates some condition, and the reason joins the messages of exactly
    the conditions that it violates.  The text of the reason is stated
    for a last entry whose country is not the name of a member that
    every object inherits: for such a name the country table, an object
    literal, answers with that member and the message gets a region part
    that the model does not print. *)
Theorem C1_check1_verdict
  (allRecords : list QuotaRecord) (refRecords : list ReferenceRecord)
  (selectedMonth : string) (selectedRegion : Region)
  (res : ValidationResults) (parsed : ParsedLabel) (i : nat) (rec : QuotaRecord) :
  Validators.runValidation allRecords refRecords selectedMonth selectedRegion
  = Ok res ->
  parseSubmissionMonthLabel selectedMonth = Some parsed ->
  nth_error (Validators.targetRecords allRecords parsed) i = Some rec ->
  Validators.isTbhOrBlank (eid rec) = false ->
  Spec.rosterEntries refRecords (eid rec) <> [] ->
  let validCountries := getCountriesForRegion selectedRegion in
  let entries := Spec.rosterEntries refRecords (eid rec) in
  exists r,
    nth_error (v1 res) i = Some r /\ v1Record r = rec
    /\ (status r = pass
        <-> exists ref, In ref entries
                        /\ Spec.satisfiesAll validCountries ref = true)
    /\ (forall ref, find (Spec.satisfiesAll validCountries) entries = Some ref ->
          status r = pass
          /\ refInfo r
             = Some (mkRefInfo (activeStatus ref) (onLeave ref) (country ref)))
    /\ ((~ exists ref, In ref entries
                       /\ Spec.satisfiesAll validCountries ref = true) ->
        status r = fail
        /\ forall front final, entries = front ++ [final] ->
             Spec.violated validCountries final <> []
             /\ refInfo r
                = Some (mkRefInfo (activeStatus final) (onLeave final)
                          (country final))
             /\ (Props.plainCountry final ->
                 reason r
                 = join "; " (map (Spec.conditionMessage selectedRegion final)
                                (Spec.violated validCountries final)))).
Proof.
  intros Run P Nth T NE vc entries.
  unfold Validators.runValidation in Run. rewrite P in Run.
  inversion Run; subst res; clear Run. simpl.
  rewrite nth_error_map, Nth. cbn [option_map].
  eexists. split; [reflexivity|].
  destruct (v1Check_known refRecords selectedRegion rec T NE) as [Hp Hf].
  fold vc entries in Hp, Hf. fold vc.
  split; [apply v1Check_record|].
  destruct (find (Spec.satisfiesAll vc) entries) as [ref|] eqn:F.
  - rewrite (Hp ref eq_refl). simpl.
    split; [|split].
    + split; [|reflexivity]. intros _. apply find_some in F. eauto.
    + intros ref' E. inversion E; subst. split; reflexivity.
    + intros N. exfalso. apply N. apply find_some in F. eauto.
  - destruct (nonempty_last entries NE) as (front & final & E).
    rewrite (Hf eq_refl front final E). simpl.
    pose proof (proj1 (find_none_iff _ _) F) as N.
    split; [|split].
    + split; [discriminate | intros X; contradiction].
    + discriminate.
    + intros _. split; [reflexivity|].
      intros front' final' E'. rewrite E in E'.
      apply app_inj_tail in E' as [_ <-].
      split; [|split; [reflexivity | intros _; reflexivity]].
      intros V. apply N. exists final. split.
      * rewrite E. apply in_or_app. right. left. reflexivity.
      * unfold Spec.satisfiesAll. unfold Spec.violated in V.
        apply forallb_forall. intros c Hc.
        destruct (Spec.conditionHolds vc final c) eqn:Hd; [reflexivity|].
        assert (In c (filter (fun c => negb (Spec.conditionHolds vc final c))
                        Spec.allConditions)) as X
            by (apply filter_In; rewrite Hd; auto).
        rewrite V in X. contradiction.
Qed.

(** ** Check 2 *)

Section KeyFacts.
Context {V : Type}.

Lemma keys_set (m : list (string * V)) k v :
  JsMap.keys (JsMap.set m k v)
  = if in_dec string_dec k (JsMap.keys m) then JsMap.keys m
    else JsMap.keys m ++ [k].
Proof.
  unfold JsMap.keys.
  induction m as [|[k' v'] m IH]; simpl; [reflexivity|].
  destruct (k' =? k)%string eqn:E.
  - apply String.eqb_eq in E. subst k'.
    destruct (string_dec k k); [reflexivity | congruence].
  - simpl. rewrite IH.
    destruct (string_dec k' k) as [->|N];
      [rewrite String.eqb_refl in E; discriminate|].
    destruct (in_dec string_dec k (map fst m)); reflexivity.
Qed.

Lemma NoDup_keys_set (m : list (string * V)) k v :
  NoDup (JsMap.keys m) -> NoDup (JsMap.keys (JsMap.set m k v)).
Proof.
  intros H. rewrite keys_set.
  destruct (in_dec string_dec k (JsMap.keys m)) as [I|I]; [exact H|].
  apply NoDup_app; [exact H | repeat constructor; intros [] | ].
  intros x Hx [<-|[]]. contradiction.
Qed.

Lemma get_not_key (m : list (string * V)) k :
  ~ In k (JsMap.keys m) -> JsMap.get m k = None.
Proof.
  unfold JsMap.keys. induction m as [|[k' v'] m IH]; simpl; [reflexivity|].
  intros H. destruct (k' =? k)%string eqn:E.
  - apply String.eqb_eq in E. tauto.
  - apply IH. tauto.
Qed.

End KeyFacts.

Lemma buildEidMap_filter (target : list QuotaRecord) m :
  fold_left
    (fun m rec =>
       if Validators.isTbhOrBlank (eid rec) then m else JsMap.push m (eid rec) rec)
    target m
  = fold_left (fun m rec => JsMap.push m (eid rec) rec)
      (filter (fun rec => negb (Validators.isTbhOrBlank (eid rec))) target) m.
Proof.
  revert m. induction target as [|r target IH]; intros m; simpl; [reflexivity|].
  destruct (Validators.isTbhOrBlank (eid r)); simpl; apply IH.
Qed.

Lemma fold_push_NoDup {A : Type} (key : A -> string) (l : list A) m :
  NoDup (JsMap.keys m) ->
  NoDup (JsMap.keys (fold_left (fun m x => JsMap.push m (key x) x) l m)).
Proof.
  revert m. induction l as [|x l IH]; intros m H; simpl; [exact H|].
  apply IH. unfold JsMap.push. apply NoDup_keys_set, H.
Qed.

Lemma buildEidMap_NoDup (target : list QuotaRecord) :
  NoDup (JsMap.keys (Validators.buildEidMap target)).
Proof.
  unfold Validators.buildEidMap. rewrite buildEidMap_filter.
  apply fold_push_NoDup. constructor.
Qed.

Lemma filter_filter_eid (target : list QuotaRecord) (e : string) :
  Validators.isTbhOrBlank e = false ->
  filter (fun rec => (eid rec =? e)%string)
    (filter (fun rec => negb (Validators.isTbhOrBlank (eid rec))) target)
  = filter (fun rec => (eid rec =? e)%string) target.
Proof.
  intros T. induction target as [|r target IH]; simpl; [reflexivity|].
  destruct (eid r =? e)%string eqn:E.
  - apply String.eqb_eq in E. rewrite E, T. simpl.
    rewrite E, String.eqb_refl, IH. reflexivity.
  - destruct (Validators.isTbhOrBlank (eid r)); simpl; [|rewrite E]; exact IH.
Qed.

Lemma filter_placeholder_eid (target : list QuotaRecord) (e : string) :
  Validators.isTbhOrBlank e = true ->
  filter (fun rec => (eid rec =? e)%string)
    (filter (fun rec => negb (Validators.isTbhOrBlank (eid rec))) target)
  = [].
Proof.
  intros T. induction target as [|r target IH]; simpl; [reflexivity|].
  destruct (Validators.isTbhOrBlank (eid r)) eqn:Tr; simpl; [exact IH|].
  destruct (eid r =? e)%string eqn:E; [|exact IH].
  apply String.eqb_eq in E. congruence.
Qed.

Lemma buildEidMap_get (target : list QuotaRecord) (e : string) :
  JsMap.get (Validators.buildEidMap target) e
  = if Validators.isTbhOrBlank e then None
    else match filter (fun rec => (eid rec =? e)%string) target with
         | [] => None
         | g => Some g
         end.
Proof.
  unfold Validators.buildEidMap.
  rewrite buildEidMap_filter, (get_fold_push eid). unfold groupOf, existingAt.
  destruct (Validators.isTbhOrBlank e) eqn:T.
  - rewrite filter_placeholder_eid by exact T. reflexivity.
  - rewrite filter_filter_eid by exact T. reflexivity.
Qed.

Lemma v2Collect_In (m : list (string * list QuotaRecord)) (g : V2Result) :
  In g (Validators.v2Collect m) ->
  In (v2Eid g, occurrences g) m /\ (1 < List.length (occurrences g))%nat.
Proof.
  induction m as [|[k v] m IH]; simpl; [contradiction|].
  destruct (1 <? List.length v)%nat eqn:L.
  - intros [<-|H]; simpl.
    + apply Nat.ltb_lt in L. auto.
    + destruct (IH H). auto.
  - intros H. destruct (IH H). auto.
Qed.

Lemma In_get_NoDup {V : Type} (m : list (string * V)) k v :
  NoDup (JsMap.keys m) -> In (k, v) m -> JsMap.get m k = Some v.
Proof.
  unfold JsMap.keys. induction m as [|[k' v'] m IH]; simpl; [contradiction|].
  intros ND [E|H].
  - inversion E; subst. rewrite String.eqb_refl. reflexivity.
  - inversion ND as [|? ? Hn ND']; subst.
    destruct (k' =? k)%string eqn:E.
    + apply String.eqb_eq in E. subst. exfalso. apply Hn.
      change k with (fst (k, v)). apply in_map, H.
    + apply IH; assumption.
Qed.

Lemma v2Collect_groups (m : list (string * list QuotaRecord)) (e : string) :
  NoDup (JsMap.keys m) ->
  filter (fun g => (v2Eid g =? e)%string) (Validators.v2Collect m)
  = match JsMap.get m e with
    | Some recs => if (1 <? List.length recs)%nat then [mkV2 e recs] else []
    | None => []
    end.
Proof.
  unfold JsMap.keys. induction m as [|[k v] m IH]; simpl; [reflexivity|].
  intros ND. inversion ND as [|? ? Hn ND']; subst.
  destruct (k =? e)%string eqn:E.
  - apply String.eqb_eq in E. subst k.
    assert (filter (fun g => (v2Eid g =? e)%string) (Validators.v2Collect m) = [])
      as Rest.
    { rewrite (IH ND'), (get_not_key m e Hn). reflexivity. }
    destruct (1 <? List.length v)%nat; simpl.
    + rewrite String.eqb_refl, Rest. reflexivity.
    + exact Rest.
  - destruct (1 <? List.length v)%nat; simpl; [rewrite E|]; apply IH, ND'.
Qed.

(** C8. Within the records of the selected period: an identifier that is
    no placeholder and occurs more than once yields exactly one group,
    holding exactly its occurrences; an identifier that occurs once (or
    not at all) yields none; a placeholder identifier is never grouped;
    and every occurrence of every group is a record of the period. *)
Theorem C8_duplicate_groups
  (allRecords : list QuotaRecord) (refRecords : list ReferenceRecord)
  (selectedMonth : string) (selectedRegion : Region)
  (res : ValidationResults) (parsed : ParsedLabel) :
  Validators.runValidation allRecords refRecords selectedMonth selectedRegion
  = Ok res ->
  parseSubmissionMonthLabel selectedMonth = Some parsed ->
  let target := Validators.targetRecords allRecords parsed in
  (forall e,
     let occ := filter (fun rec => (eid rec =? e)%string) target in
     (Validators.isTbhOrBlank e = false -> (1 < List.length occ)%nat ->
      filter (fun g => (v2Eid g =? e)%string) (v2 res) = [mkV2 e occ])
     /\ ((List.length occ <= 1)%nat ->
         forall g, In g (v2 res) -> v2Eid g <> e)
     /\ (Validators.isTbhOrBlank e = true ->
         forall g, In g (v2 res) -> v2Eid g <> e))
  /\ (forall g rec, In g (v2 res) -> In rec (occurrences g) ->
        In rec allRecords /\ Validators.inPeriod parsed rec = true
        /\ eid rec = v2Eid g).
Proof.
  intros Run P target.
  unfold Validators.runValidation in Run. rewrite P in Run.
  inversion Run; subst res; clear Run. cbn [v2]. fold target.
  pose proof (buildEidMap_NoDup target) as ND.
  assert (forall e g, In g (Validators.v2Collect (Validators.buildEidMap target)) ->
            v2Eid g = e ->
            In g (filter (fun g => (v2Eid g =? e)%string)
                    (Validators.v2Collect (Validators.buildEidMap target)))) as Sel.
  { intros e g Hg <-. apply filter_In. split; [exact Hg | apply String.eqb_refl]. }
  split.
  - intros e.
    set (occ := filter (fun rec => (eid rec =? e)%string) target).
    pose proof (v2Collect_groups _ e ND) as G.
    rewrite buildEidMap_get in G. fold occ in G.
    split; [|split].
    + intros T L. rewrite G, T.
      destruct occ as [|o occ']; [simpl in L; lia|].
      apply Nat.ltb_lt in L. rewrite L. reflexivity.
    + intros L g Hg E. apply (Sel e g Hg) in E. rewrite G in E.
      destruct (Validators.isTbhOrBlank e); [contradiction|].
      destruct occ as [|o occ']; [contradiction|].
      destruct (1 <? List.length (o :: occ'))%nat eqn:L'; [|contradiction].
      apply Nat.ltb_lt in L'. lia.
    + intros T g Hg E. apply (Sel e g Hg) in E. rewrite G, T in E.
      contradiction.
  - intros g rec Hg Hr.
    apply v2Collect_In in Hg as [Hg _].
    apply (In_get_NoDup _ _ _ ND) in Hg. rewrite buildEidMap_get in Hg.
    destruct (Validators.isTbhOrBlank (v2Eid g)); [discriminate|].
    destruct (filter _ target) as [|o occ'] eqn:F; [discriminate|].
    inversion Hg as [Eo]. rewrite <- Eo, <- F in Hr.
    apply filter_In in Hr as [Ht Ee]. apply String.eqb_eq in Ee.
    unfold target, Validators.targetRecords in Ht.
    apply filter_In in Ht as [Ha Hp]. auto.
Qed.

(** ** Check 3 *)

Lemma halfMonths_aligned (h : FiscalHalf) :
  aligned (Spec.halfFirstMonth h + 0) (Spec.halfMonths h).
Proof. destruct h; simpl; repeat split. Qed.

Section LoopFacts.
Variables (rec : QuotaRecord) (hasY2 hasC2 hasC2Y2 : bool) (hs eff : Z).

Lemma pushIf_app {A : Type} (b : bool) (l : list A) (x : A) (t : list A) :
  Validators.pushIf b l x ++ t = l ++ (if b then x :: t else t).
Proof.
  unfold Validators.pushIf. destruct b; [|reflexivity].
  rewrite <- app_assoc. reflexivity.
Qed.

Lemma v3Loop_missing (keys : list MonthKey) (i : Z) (acc : Validators.V3Acc) :
  aligned (hs + i) keys ->
  let out := Validators.v3Loop rec hasY2 hasC2 hasC2Y2 hs eff i keys acc in
  Validators.aMissing out
  = Validators.aMissing acc
    ++ filter (checkedAnd eff (fun k =>
         Validators.isQuotaValueMissing (mget (monthlyQuotas rec) k))) keys
  /\ Validators.aMissingY2Y3 out
     = Validators.aMissingY2Y3 acc
       ++ filter (checkedAnd eff (fun k => hasY2 &&
            Validators.isQuotaValueMissing
              (Validators.bucketValue hasY2 (monthlyQuotasY2Y3 rec) k))) keys
  /\ Validators.aMissingComp2 out
     = Validators.aMissingComp2 acc
       ++ filter (checkedAnd eff (fun k => hasC2 &&
            Validators.isQuotaValueMissing
              (Validators.bucketValue hasC2 (monthlyQuotasComp2 rec) k))) keys
  /\ Validators.aMissingComp2Y2Y3 out
     = Validators.aMissingComp2Y2Y3 acc
       ++ filter (checkedAnd eff (fun k => hasC2Y2 &&
            Validators.isQuotaValueMissing
              (Validators.bucketValue hasC2Y2 (monthlyQuotasComp2Y2Y3 rec) k))) keys.
Proof.
  revert i acc. induction keys as [|key rest IH]; intros i acc Al.
  - simpl. rewrite !app_nil_r. auto.
  - destruct Al as [Hc Al].
    replace (hs + i + 1) with (hs + (i + 1)) in Al by lia.
    cbn [Validators.v3Loop filter]. cbv zeta.
    match goal with
    | |- context [Validators.v3Loop _ _ _ _ _ _ _ rest ?a] =>
        destruct (IH (i + 1) a Al) as (E1 & E2 & E3 & E4)
    end.
    rewrite E1, E2, E3, E4. cbn [Validators.aMissing Validators.aMissingY2Y3
      Validators.aMissingComp2 Validators.aMissingComp2Y2Y3].
    rewrite !pushIf_app. unfold checkedAnd. rewrite Hc.
    repeat split; reflexivity.
Qed.

End LoopFacts.

Lemma filter_and_false {A : Type} (f : A -> bool) (l : list A) :
  filter (fun k => f k && false) l = [].
Proof.
  induction l as [|x l IH]; simpl; [reflexivity|].
  rewrite andb_false_r. exact IH.
Qed.

Lemma isQuotaValueMissing_spec (c : cell) :
  Validators.isQuotaValueMissing c = true <-> Spec.valueMissing c.
Proof.
  unfold Spec.valueMissing. destruct c as [|n|s]; simpl.
  - tauto.
  - destruct n as [|q| |]; simpl; split;
      try discriminate;
      try (intros [H|[(s & H & _)|(q' & H & _)]]; discriminate).
    + intros H. right. right. exists q. split; [reflexivity|].
      apply Z.eqb_eq in H. unfold Qeq. simpl. lia.
    + intros [H|[(s & H & _)|(q' & H & Hq)]]; try discriminate.
      inversion H; subst. unfold Qeq in Hq. simpl in Hq.
      apply Z.eqb_eq. lia.
  - rewrite orb_true_iff, !String.eqb_eq. split.
    + intros H. right. left. exists s. auto.
    + intros [H|[(s' & H & Hs)|(q & H & _)]]; try discriminate.
      inversion H; subst. exact Hs.
Qed.

Lemma missingList_In parsed rec qs b k :
  In k (missingList parsed rec qs b) <-> Spec.monthMissing parsed rec qs b k.
Proof.
  unfold missingList, Spec.monthMissing.
  destruct (Spec.bucketChecked rec b).
  - rewrite filter_In, andb_true_iff, Z.leb_le, isQuotaValueMissing_spec. tauto.
  - simpl. split; [contradiction | intros [H _]; discriminate].
Qed.

Lemma effectiveStart_code (parsed : ParsedLabel) (qs : Date) :
  Spec.startsAfterHalfb parsed qs = false ->
  (if (Spec.startYear qs <? year parsed)
      || ((Spec.startYear qs =? year parsed)
          && (Spec.startMonth qs <? Spec.halfFirstMonth (Spec.halfOf parsed)))
   then Spec.halfFirstMonth (Spec.halfOf parsed)
   else Spec.startMonth qs)
  = Spec.effectiveStart parsed qs.
Proof.
  unfold Spec.startsAfterHalfb, Spec.effectiveStart. intros H.
  apply orb_false_iff in H as [H1 H2]. apply Z.ltb_ge in H1.
  destruct (Spec.startYear qs =? year parsed) eqn:E.
  - apply Z.eqb_eq in E.
    assert ((Spec.startYear qs <? year parsed) = false) as ->
      by (apply Z.ltb_ge; lia).
    simpl.
    destruct (Spec.startMonth qs <? Spec.halfFirstMonth (Spec.halfOf parsed))
      eqn:M; [apply Z.ltb_lt in M | apply Z.ltb_ge in M]; lia.
  - apply Z.eqb_neq in E.
    assert ((Spec.startYear qs <? year parsed) = true) as ->
      by (apply Z.ltb_lt; lia).
    reflexivity.
Qed.

Lemma startsAfterHalfb_spec parsed qs :
  Spec.startsAfterHalfb parsed qs = true <-> Spec.startsAfterHalf parsed qs.
Proof.
  unfold Spec.startsAfterHalfb, Spec.startsAfterHalf.
  rewrite orb_true_iff, andb_true_iff, !Z.ltb_lt, Z.eqb_eq. tauto.
Qed.

(** What one iteration of the V3 loop yields. *)
Lemma v3Check_spec (parsed : ParsedLabel) (rec : QuotaRecord) :
  match quotaStartDate rec with
  | None => Validators.v3Check parsed rec = None
  | Some qs =>
      if Spec.startsAfterHalfb parsed qs
      then Validators.v3Check parsed rec = None
      else if anyMissing parsed rec qs
           then exists r, Validators.v3Check parsed rec = Some r
                          /\ v3Record r = rec
                          /\ forall b, Spec.missingOf r b
                                       = missingList parsed rec qs b
           else Validators.v3Check parsed rec = None
  end.
Proof.
  assert ((if 7 <=? month parsed then 12 else 6)
          = Spec.halfLastMonth (Spec.halfOf parsed)) as Hl
    by (unfold Spec.halfOf; destruct (7 <=? month parsed); reflexivity).
  assert ((if 7 <=? month parsed then 7 else 1)
          = Spec.halfFirstMonth (Spec.halfOf parsed)) as Hf
    by (unfold Spec.halfOf; destruct (7 <=? month parsed); reflexivity).
  assert ((if 7 <=? month parsed then H1_MONTHS else H2_MONTHS)
          = Spec.halfMonths (Spec.halfOf parsed)) as Hm
    by (unfold Spec.halfOf; destruct (7 <=? month parsed); reflexivity).
  unfold Validators.v3Check. cbv zeta.
  destruct (quotaStartDate rec) as [qs|]; [|reflexivity].
  rewrite Hl, Hf, Hm.
  change (getUTCFullYear qs) with (Spec.startYear qs).
  change (getUTCMonth qs + 1) with (Spec.startMonth qs).
  change (if 7 <=? month parsed then H1 else H2) with (Spec.halfOf parsed).
  fold (Spec.startsAfterHalfb parsed qs).
  destruct (Spec.startsAfterHalfb parsed qs) eqn:After; [reflexivity|].
  rewrite (effectiveStart_code parsed qs After).
  fold (Spec.isDualMetric rec).
  destruct (v3Loop_missing rec
              (Validators.isSome (monthlyQuotasY2Y3 rec))
              (Spec.isDualMetric rec && Validators.isSome (monthlyQuotasComp2 rec))
              (Spec.isDualMetric rec
               && Validators.isSome (monthlyQuotasComp2Y2Y3 rec))
              (Spec.halfFirstMonth (Spec.halfOf parsed))
              (Spec.effectiveStart parsed qs)
              (Spec.halfMonths (Spec.halfOf parsed)) 0 Validators.emptyAcc
              (halfMonths_aligned _)) as (E1 & E2 & E3 & E4).
  simpl app in E1, E2, E3, E4.
  assert (forall b,
            match b with
            | Spec.PrimaryY1 => Validators.aMissing
            | Spec.PrimaryY2Y3 => Validators.aMissingY2Y3
            | Spec.SecondaryY1 => Validators.aMissingComp2
            | Spec.SecondaryY2Y3 => Validators.aMissingComp2Y2Y3
            end
              (Validators.v3Loop rec
                 (Validators.isSome (monthlyQuotasY2Y3 rec))
                 (Spec.isDualMetric rec
                  && Validators.isSome (monthlyQuotasComp2 rec))
                 (Spec.isDualMetric rec
                  && Validators.isSome (monthlyQuotasComp2Y2Y3 rec))
                 (Spec.halfFirstMonth (Spec.halfOf parsed))
                 (Spec.effectiveStart parsed qs) 0
                 (Spec.halfMonths (Spec.halfOf parsed)) Validators.emptyAcc)
            = missingList parsed rec qs b) as M.
  { intros b. unfold missingList, Spec.bucketChecked, Spec.bucketCell.
    destruct b.
    - rewrite E1. reflexivity.
    - rewrite E2. unfold checkedAnd, Validators.bucketValue.
      destruct (monthlyQuotasY2Y3 rec); simpl; [reflexivity|].
      apply filter_and_false.
    - rewrite E3. unfold checkedAnd, Validators.bucketValue.
      destruct (Spec.isDualMetric rec && Validators.isSome (monthlyQuotasComp2 rec))
        eqn:C.
      + destruct (monthlyQuotasComp2 rec); [reflexivity|].
        rewrite andb_false_r in C. discriminate.
      + simpl. apply filter_and_false.
    - rewrite E4. unfold checkedAnd, Validators.bucketValue.
      destruct (Spec.isDualMetric rec
                && Validators.isSome (monthlyQuotasComp2Y2Y3 rec)) eqn:C.
      + destruct (monthlyQuotasComp2Y2Y3 rec); [reflexivity|].
        rewrite andb_false_r in C. discriminate.
      + simpl. apply filter_and_false. }
  rewrite (M Spec.PrimaryY1), (M Spec.PrimaryY2Y3), (M Spec.SecondaryY1),
    (M Spec.SecondaryY2Y3).
  unfold anyMissing, Spec.allBuckets. cbn [existsb]. rewrite orb_false_r.
  rewrite <- !orb_assoc.
  destruct (_ || _)%bool; [|reflexivity].
  eexists. split; [reflexivity|]. split; [reflexivity|].
  intros []; reflexivity.
Qed.

Lemma v3Collect_In (parsed : ParsedLabel) (target : list QuotaRecord) (r : V3Result) :
  In r (Validators.v3Collect parsed target)
  <-> exists rec, In rec target /\ Validators.v3Check parsed rec = Some r.
Proof.
  induction target as [|x target IH]; simpl.
  - split; [contradiction | intros (? & [] & _)].
  - destruct (Validators.v3Check parsed x) as [rx|] eqn:E; simpl; rewrite IH.
    + split.
      * intros [<-|(rec & H & C)]; eauto.
      * intros (rec & [<-|H] & C); [left; congruence | eauto].
    + split.
      * intros (rec & H & C). eauto.
      * intros (rec & [<-|H] & C); [congruence | eauto].
Qed.

Lemma v3Check_record (parsed : ParsedLabel) (rec : QuotaRecord) (r : V3Result) :
  Validators.v3Check parsed rec = Some r -> v3Record r = rec.
Proof.
  intros H. pose proof (v3Check_spec parsed rec) as S.
  destruct (quotaStartDate rec) as [qs|]; [|congruence].
  destruct (Spec.startsAfterHalfb parsed qs); [congruence|].
  destruct (anyMissing parsed rec qs); [|congruence].
  destruct S as (r' & E & R & _). congruence.
Qed.

Lemma anyMissing_spec parsed rec qs :
  anyMissing parsed rec qs = true
  <-> exists b k, Spec.monthMissing parsed rec qs b k.
Proof.
  unfold anyMissing. rewrite existsb_exists. split.
  - intros (b & _ & L). apply Nat.ltb_lt in L.
    destruct (missingList parsed rec qs b) as [|k l] eqn:E; [simpl in L; lia|].
    exists b, k. apply missingList_In. rewrite E. left. reflexivity.
  - intros (b & k & M). apply missingList_In in M. exists b. split.
    + destruct b; simpl; auto.
    + apply Nat.ltb_lt.
      destruct (missingList parsed rec qs b); [contradiction | simpl; lia].
Qed.

(** The V3 results of a run, record by record. *)
Lemma v3_results_spec
  (allRecords : list QuotaRecord) (refRecords : list ReferenceRecord)
  (selectedMonth : string) (selectedRegion : Region)
  (res : ValidationResults) (parsed : ParsedLabel)
  (rec : QuotaRecord) (qs : Date) :
  Validators.runValidation allRecords refRecords selectedMonth selectedRegion
  = Ok res ->
  parseSubmissionMonthLabel selectedMonth = Some parsed ->
  In rec (Validators.targetRecords allRecords parsed) ->
  quotaStartDate rec = Some qs ->
  (Spec.startsAfterHalf parsed qs -> ~ In rec (map v3Record (v3 res)))
  /\ (~ Spec.startsAfterHalf parsed qs ->
      (forall r, In r (v3 res) -> v3Record r = rec ->
         forall b k, In k (Spec.missingOf r b)
                     <-> Spec.monthMissing parsed rec qs b k)
      /\ (In rec (map v3Record (v3 res))
          <-> exists b k, Spec.monthMissing parsed rec qs b k)).
Proof.
  intros Run P Hin Q.
  unfold Validators.runValidation in Run. rewrite P in Run.
  inversion Run; subst res; clear Run. cbn [v3].
  pose proof (v3Check_spec parsed rec) as S. rewrite Q in S.
  assert (forall r, In r (Validators.v3Collect parsed
                            (Validators.targetRecords allRecords parsed)) ->
                    v3Record r = rec -> Validators.v3Check parsed rec = Some r)
    as Back.
  { intros r Hr E. apply v3Collect_In in Hr as (rec' & _ & C).
    pose proof (v3Check_record _ _ _ C). congruence. }
  split.
  - intros A. apply startsAfterHalfb_spec in A. rewrite A in S.
    intros X. apply in_map_iff in X as (r & E & Hr).
    rewrite (Back r Hr E) in S. discriminate.
  - intros A.
    destruct (Spec.startsAfterHalfb parsed qs) eqn:Ab;
      [exfalso; apply A, startsAfterHalfb_spec, Ab|].
    split.
    + intros r Hr E b k. rewrite (Back r Hr E) in S.
      destruct (anyMissing parsed rec qs); [|discriminate].
      destruct S as (r' & E' & _ & M). inversion E'; subst r'.
      rewrite M. apply missingList_In.
    + rewrite <- anyMissing_spec. split.
      * intros X. apply in_map_iff in X as (r & E & Hr).
        rewrite (Back r Hr E) in S.
        destruct (anyMissing parsed rec qs); [reflexivity | discriminate].
      * intros Any. rewrite Any in S. destruct S as (r & C & R & _).
        apply in_map_iff. exists r. split; [exact R|].
        apply v3Collect_In. eauto.
Qed.



(** C4, as the code has it.  For a record of the selected period in half
    H1 whose quota starts in September of the year of the half and whose
    primary-Y1 amounts for October and November are zero: the record is
    reported, October and November are in its primary-Y1 missing list,
    July and August never are, and September, the start month itself, is
    checked: it is in the list exactly when its value is missing (null,
    zero, or a blank or dash text; a September amount that holds text
    holds ASCII text, on which blank means the same to the model and to
    JavaScript). *)
Theorem C4_september_start
  (allRecords : list QuotaRecord) (refRecords : list ReferenceRecord)
  (selectedMonth : string) (selectedRegion : Region)
  (res : ValidationResults) (parsed : ParsedLabel)
  (rec : QuotaRecord) (qs : Date) (qo qn : Q) :
  Validators.runValidation allRecords refRecords selectedMonth selectedRegion
  = Ok res ->
  parseSubmissionMonthLabel selectedMonth = Some parsed ->
  In rec (Validators.targetRecords allRecords parsed) ->
  quotaStartDate rec = Some qs ->
  Spec.halfOf parsed = H1 ->
  Spec.startYear qs = year parsed ->
  Spec.startMonth qs = 9 ->
  mget (monthlyQuotas rec) OCT = CNum (Finite qo) -> (qo == 0)%Q ->
  mget (monthlyQuotas rec) NOV = CNum (Finite qn) -> (qn == 0)%Q ->
  Props.asciiCell (mget (monthlyQuotas rec) SEP) = true ->
  (exists r, In r (v3 res) /\ v3Record r = rec)
  /\ forall r, In r (v3 res) -> v3Record r = rec ->
       In OCT (missingMonths r) /\ In NOV (missingMonths r)
       /\ ~ In JUL (missingMonths r) /\ ~ In AUG (missingMonths r)
       /\ (In SEP (missingMonths r)
           <-> Spec.valueMissing (mget (monthlyQuotas rec) SEP)).
Proof.
  intros Run P Hin Q Hh Hy Hm Ho Zo Hn Zn _.
  assert (~ Spec.startsAfterHalf parsed qs) as NA.
  { unfold Spec.startsAfterHalf. rewrite Hh, Hm, Hy. simpl. lia. }
  destruct (v3_results_spec _ _ _ _ _ _ _ _ Run P Hin Q) as [_ H].
  destruct (H NA) as [Lists Rep]. clear H.
  assert (Spec.effectiveStart parsed qs = 9) as Eff.
  { unfold Spec.effectiveStart. rewrite Hy, Z.eqb_refl, Hh, Hm. reflexivity. }
  assert (forall k, Spec.monthMissing parsed rec qs Spec.PrimaryY1 k
                    <-> In k H1_MONTHS /\ 9 <= Spec.calendarIndex k
                        /\ Spec.valueMissing (mget (monthlyQuotas rec) k)) as MM.
  { intros k. unfold Spec.monthMissing. rewrite Hh, Eff. simpl. tauto. }
  split.
  - assert (In rec (map v3Record (v3 res))) as X.
    { apply Rep. exists Spec.PrimaryY1, OCT. apply MM.
      split; [simpl; auto 10|]. split; [simpl; lia|].
      rewrite Ho. right. right. eauto. }
    apply in_map_iff in X as (r & E & Hr). eauto.
  - intros r Hr E.
    pose proof (fun k => Lists r Hr E Spec.PrimaryY1 k) as L. simpl in L.
    repeat split.
    + apply L, MM. split; [simpl; auto 10|]. split; [simpl; lia|].
      rewrite Ho. right. right. eauto.
    + apply L, MM. split; [simpl; auto 10|]. split; [simpl; lia|].
      rewrite Hn. right. right. eauto.
    + intros X. apply L, MM in X as (_ & X & _). simpl in X. lia.
    + intros X. apply L, MM in X as (_ & X & _). simpl in X. lia.
    + intros X. apply L, MM in X as (_ & _ & X). exact X.
    + intros X. apply L, MM. split; [simpl; auto 10|]. split; [simpl; lia|].
      exact X.
Qed.

Lemma C4_september_start_witness :
  exists r,
    In r (v3 (Samples.resultsOf
                (Validators.runValidation [Samples.septemberRecord] [] "Sep-25"
                   APAC)))
    /\ In OCT (missingMonths r) /\ In NOV (missingMonths r).
Proof.
  destruct (C4_september_start [Samples.septemberRecord] [] "Sep-25" APAC
              (Samples.resultsOf
                 (Validators.runValidation [Samples.septemberRecord] [] "Sep-25"
                    APAC))
              (mkParsed 2025 9) Samples.septemberRecord Samples.sep2025 0 0)
    as [(r & Hr & E) H]; try reflexivity.
  - left. reflexivity.
  - exists r. destruct (H r Hr E) as (A & B & _). auto.
Defined.

(** The scenario as the specification words it fails in September: the
    start month is checked, and its zero amount is listed. *)
Lemma C4_counterexample :
  exists res r,
    Validators.runValidation [Samples.septemberRecord] [] "Sep-25" APAC = Ok res
    /\ parseSubmissionMonthLabel "Sep-25" = Some (mkParsed 2025 9)
    /\ Validators.targetRecords [Samples.septemberRecord] (mkParsed 2025 9)
       = [Samples.septemberRecord]
    /\ v3 res = [r]
    /\ v3Record r = Samples.septemberRecord
    /\ quotaStartDate Samples.septemberRecord = Some Samples.sep2025
    /\ Spec.startYear Samples.sep2025 = 2025
    /\ Spec.startMonth Samples.sep2025 = 9
    /\ half r = H1
    /\ mget (monthlyQuotas Samples.septemberRecord) OCT = Samples.num 0
    /\ mget (monthlyQuotas Samples.septemberRecord) NOV = Samples.num 0
    /\ mget (monthlyQuotas Samples.septemberRecord) SEP = Samples.num 0
    /\ In SEP (missingMonths r).
Proof.
  eexists. eexists. split; [vm_compute; reflexivity|].
  repeat split. simpl. auto.
Qed.

(** ** Runs on the sample data *)

Lemma C1_check1_verdict_witness :
  (exists r,
     nth_error
       (v1 (Samples.resultsOf
              (Validators.runValidation [Samples.e1Record] [Samples.e1Roster]
                 "Jan-26" APAC))) 0 = Some r
     /\ status r = pass
     /\ refInfo r = Some (mkRefInfo (Some "Yes") None (Some "Japan")))
  /\ (exists r,
        nth_error
          (v1 (Samples.resultsOf
                 (Validators.runValidation [Samples.e1Record]
                    [Samples.e1Roster; Samples.e1OnLeave] "Jan-26" NAMER)))
          0 = Some r
        /\ status r = fail
        /\ refInfo r = Some (mkRefInfo (Some "No") (Some "Yes") (Some "Japan"))
        /\ reason r
           = ("Active Status=" ++ dq ++ "No" ++ dq ++ " (expected Yes); "
              ++ "On Leave=" ++ dq ++ "Yes" ++ dq ++ " (expected blank); "
              ++ "Country=" ++ dq ++ "Japan" ++ dq
              ++ " (Region: APAC) - not in NAMER")%string).
Proof.
  split.
  - destruct (C1_check1_verdict [Samples.e1Record] [Samples.e1Roster] "Jan-26"
                APAC
                (Samples.resultsOf
                   (Validators.runValidation [Samples.e1Record]
                      [Samples.e1Roster] "Jan-26" APAC))
                (mkParsed 2026 1) 0%nat Samples.e1Record
                eq_refl eq_refl eq_refl eq_refl ltac:(simpl; discriminate))
      as (r & Hn & _ & _ & He & _).
    exists r. split; [exact Hn|]. exact (He Samples.e1Roster eq_refl).
  - destruct (C1_check1_verdict [Samples.e1Record]
                [Samples.e1Roster; Samples.e1OnLeave] "Jan-26" NAMER
                (Samples.resultsOf
                   (Validators.runValidation [Samples.e1Record]
                      [Samples.e1Roster; Samples.e1OnLeave] "Jan-26" NAMER))
                (mkParsed 2026 1) 0%nat Samples.e1Record
                eq_refl eq_refl eq_refl eq_refl ltac:(simpl; discriminate))
      as (r & Hn & _ & _ & _ & Hf).
    assert (~ exists ref,
                In ref (Spec.rosterEntries [Samples.e1Roster; Samples.e1OnLeave]
                          (eid Samples.e1Record))
                /\ Spec.satisfiesAll (getCountriesForRegion NAMER) ref = true)
      as No.
    { intros (ref & [<-|[<-|[]]] & S); vm_compute in S; discriminate. }
    destruct (Hf No) as [St L].
    destruct (L [Samples.e1Roster] Samples.e1OnLeave eq_refl) as (_ & Ev & Re).
    exists r. split; [exact Hn|]. split; [exact St|]. split; [exact Ev|].
    rewrite (Re eq_refl). reflexivity.
Defined.

Lemma C8_duplicate_groups_witness :
  filter (fun g => (v2Eid g =? "E1")%string)
    (v2 (Samples.resultsOf
           (Validators.runValidation [Samples.e1Record; Samples.e1Record] []
              "Jan-26" APAC)))
  = [mkV2 "E1" [Samples.e1Record; Samples.e1Record]].
Proof.
  destruct (C8_duplicate_groups [Samples.e1Record; Samples.e1Record] [] "Jan-26"
              APAC
              (Samples.resultsOf
                 (Validators.runValidation [Samples.e1Record; Samples.e1Record] []
                    "Jan-26" APAC))
              (mkParsed 2026 1) eq_refl eq_refl) as [H _].
  destruct (H "E1") as [G _].
  apply G; [reflexivity | simpl; lia].
Defined.

Lemma C10_summary_consistent_witness :
  totalRecords
    (summary (Samples.resultsOf
                (Validators.runValidation [Samples.e1Record] [Samples.e1Roster]
                   "Jan-26" APAC)))
  = 1%nat.
Proof.
  destruct (C10_summary_consistent [Samples.e1Record] [Samples.e1Roster] "Jan-26"
              APAC
              (Samples.resultsOf
                 (Validators.runValidation [Samples.e1Record] [Samples.e1Roster]
                    "Jan-26" APAC))
              eq_refl) as (p & P & _ & _ & _ & _ & _ & T & _).
  rewrite T. inversion P; subst p. reflexivity.
Defined.

(** ** The region resolver *)

Lemma find_countryMatches (validCountries : list string)
  (refs : list ReferenceRecord) :
  (exists ref c, In ref refs /\ country ref = Some c /\ In c validCountries) ->
  exists ref c, find (OverlayValidators.countryMatches validCountries) refs
                = Some ref
                /\ In ref refs /\ country ref = Some c /\ In c validCountries.
Proof.
  intros (ref & c & Hin & Hc & Hv).
  destruct (find (OverlayValidators.countryMatches validCountries) refs)
    as [m|] eqn:F.
  - pose proof (find_some _ _ F) as [Hm Cm].
    unfold OverlayValidators.countryMatches in Cm.
    destruct (country m) as [cm|] eqn:Ec; [|discriminate].
    exists m, cm. repeat split; auto.
    rewrite setHas_In in Cm.
    destruct (in_dec string_dec cm validCountries); [assumption | discriminate].
  - exfalso. pose proof (find_none _ _ F ref Hin) as N.
    unfold OverlayValidators.countryMatches in N. rewrite Hc, setHas_In in N.
    destruct (in_dec string_dec c validCountries); [discriminate | contradiction].
Qed.

(** C2, as the code has it.  A placeholder identifier is resolved before
    the roster is consulted: the record is included with the tag
    [unknown] and the comment of a placeholder, whatever the roster and
    the region hint hold, even when the roster lists the identifier with
    a country of the selected region.  For an identifier that is no
    placeholder and has a roster entry with a country of the selected
    region, the resolver includes the record with the tag [scr] and names
    the country of such an entry, whatever the region hint of the record
    says. *)
Theorem C2_roster_match_precedence
  (rec : QuotaRecord) (refRecords : list ReferenceRecord)
  (selectedRegion : Region) :
  (OverlayValidators.isTbhOrBlank (eid rec) = true ->
   forall hint,
     OverlayValidators.resolveRegion (Spec.withRepRegion rec hint)
       (Validators.buildRefMap refRecords)
       (getCountriesForRegion selectedRegion) selectedRegion
     = OverlayValidators.mkResolved true
         (OverlayValidators.mkInfo OverlayValidators.unknown "TBH / Blank EID"))
  /\ (OverlayValidators.isTbhOrBlank (eid rec) = false ->
      Spec.rosterCountryMatch refRecords (eid rec)
        (getCountriesForRegion selectedRegion) ->
      exists ref c,
        In ref (Spec.rosterEntries refRecords (eid rec))
        /\ country ref = Some c
        /\ In c (getCountriesForRegion selectedRegion)
        /\ forall hint,
             OverlayValidators.resolveRegion (Spec.withRepRegion rec hint)
               (Validators.buildRefMap refRecords)
               (getCountriesForRegion selectedRegion) selectedRegion
             = OverlayValidators.mkResolved true
                 (OverlayValidators.mkInfo OverlayValidators.scr
                    ("SCR: " ++ c)%string)).
Proof.
  split.
  - intros T hint. unfold OverlayValidators.resolveRegion.
    cbn [Spec.withRepRegion eid]. rewrite T. reflexivity.
  - intros T M.
    destruct (find_countryMatches _ _ M) as (ref & c & F & Hin & Hc & Hv).
    exists ref, c. repeat split; auto.
    intros hint. unfold OverlayValidators.resolveRegion.
    cbn [Spec.withRepRegion eid].
    rewrite T, buildRefMap_get.
    destruct (Spec.rosterEntries refRecords (eid rec)) as [|e0 es] eqn:E;
      [contradiction|].
    unfold OverlayValidators.scrLookup. rewrite F, Hc. reflexivity.
Qed.

Lemma C2_roster_match_precedence_witness :
  OverlayValidators.resolveRegion (Spec.withRepRegion Samples.e1Record "NAMER")
    (Validators.buildRefMap [Samples.e1Roster])
    (getCountriesForRegion APAC) APAC
  = OverlayValidators.mkResolved true
      (OverlayValidators.mkInfo OverlayValidators.scr "SCR: Japan")
  /\ OverlayValidators.resolveRegion
       (Spec.withRepRegion Samples.tbhRecord "NAMER")
       (Validators.buildRefMap [Samples.tbhRoster])
       (getCountriesForRegion APAC) APAC
     = OverlayValidators.mkResolved true
         (OverlayValidators.mkInfo OverlayValidators.unknown "TBH / Blank EID").
Proof.
  split.
  - destruct (C2_roster_match_precedence Samples.e1Record [Samples.e1Roster]
                APAC) as [_ H].
    assert (Spec.rosterCountryMatch [Samples.e1Roster] (eid Samples.e1Record)
              (getCountriesForRegion APAC)) as M.
    { exists Samples.e1Roster, "Japan". simpl. repeat split; auto 20. }
    destruct (H eq_refl M) as (ref & c & Hin & Hc & _ & R).
    destruct Hin as [<-|[]]. inversion Hc; subst c. apply R.
  - destruct (C2_roster_match_precedence Samples.tbhRecord [Samples.tbhRoster]
                APAC) as [P _].
    apply (P eq_refl).
Defined.

(** The precedence as the specification words it fails for a placeholder
    identifier that the roster lists with a country of the region: the
    placeholder test comes first and the tag is [unknown]. *)
Lemma C2_counterexample :
  Spec.rosterCountryMatch [Samples.tbhRoster] (eid Samples.tbhRecord)
    (getCountriesForRegion APAC)
  /\ OverlayValidators.resolveRegion Samples.tbhRecord
       (Validators.buildRefMap [Samples.tbhRoster])
       (getCountriesForRegion APAC) APAC
     = OverlayValidators.mkResolved true
         (OverlayValidators.mkInfo OverlayValidators.unknown "TBH / Blank EID").
Proof.
  split; [|reflexivity].
  exists Samples.tbhRoster, "Japan". simpl. repeat split; auto 20.
Qed.

(** ** The LMS region filter *)

Lemma lms_v1Check_record refMap validCountries selectedRegion rec :
  lmsV1Record (LmsValidators.v1Check refMap validCountries selectedRegion rec)
  = rec.
Proof.
  unfold LmsValidators.v1Check.
  destruct (LmsValidators.isTbhOrBlank (employeeId rec)); [reflexivity|].
  destruct (JsMap.get refMap (employeeId rec)) as [[|r rs]|]; reflexivity.
Qed.

(** The records that get a V1 result are the records the filter keeps. *)
Lemma runLms_records (parseFloat : string -> number)
  (records : list LmsQuotaRecord) (refRecords : list ReferenceRecord)
  (selectedProcessingMonth : string) (selectedRegion : Region) :
  map lmsV1Record
    (lmsV1 (LmsValidators.runLmsValidation parseFloat records refRecords
              selectedProcessingMonth selectedRegion))
  = LmsValidators.filteredRecords records refRecords selectedRegion.
Proof.
  cbn [LmsValidators.runLmsValidation lmsV1].
  rewrite map_map. erewrite map_ext; [apply map_id|].
  intros rec. apply lms_v1Check_record.
Qed.

Lemma existsb_countryMatches (validCountries : list string)
  (refs : list ReferenceRecord) :
  existsb (LmsValidators.countryMatches validCountries) refs = true
  <-> exists ref c, In ref refs /\ country ref = Some c /\ In c validCountries.
Proof.
  rewrite existsb_exists. unfold LmsValidators.countryMatches. split.
  - intros (ref & Hin & C). destruct (country ref) as [c|] eqn:E; [|discriminate].
    exists ref, c. repeat split; auto. rewrite setHas_In in C.
    destruct (in_dec string_dec c validCountries); [assumption | discriminate].
  - intros (ref & c & Hin & E & Hv). exists ref. split; [exact Hin|].
    rewrite E, setHas_In.
    destruct (in_dec string_dec c validCountries); [reflexivity | contradiction].
Qed.

Lemma geoRegion_table (g : string) :
  lookup LmsValidators.GEO_TO_REGION g = Spec.geoRegion g.
Proof.
  unfold LmsValidators.GEO_TO_REGION, Spec.geoRegion. cbn [lookup].
  rewrite !(String.eqb_sym g). reflexivity.
Qed.

Lemma Region_eqb_eq (a b : Region) : Region_eqb a b = true <-> a = b.
Proof. destruct a, b; simpl; split; congruence. Qed.

(** C7. Among the records handed to the LMS path, one whose identifier
    is no placeholder is kept by the region filter as follows: without a
    roster entry, exactly when its geography code in upper case is SA or
    maps to the selected region (for a geography code of ASCII text, on
    which upper case means the same to the model and to JavaScript); with
    roster entries, exactly when some entry has a country of the selected
    region. *)
Theorem C7_lms_region_filter
  (parseFloat : string -> number)
  (records : list LmsQuotaRecord) (refRecords : list ReferenceRecord)
  (selectedProcessingMonth : string) (selectedRegion : Region)
  (rec : LmsQuotaRecord) :
  In rec records ->
  LmsValidators.isTbhOrBlank (employeeId rec) = false ->
  let kept :=
    map lmsV1Record
      (lmsV1 (LmsValidators.runLmsValidation parseFloat records refRecords
                selectedProcessingMonth selectedRegion)) in
  lmsTotalRecords
    (lmsSummary (LmsValidators.runLmsValidation parseFloat records refRecords
                   selectedProcessingMonth selectedRegion))
  = List.length kept
  /\ (Spec.rosterEntries refRecords (employeeId rec) = [] ->
      Props.asciiText (geo rec) = true ->
      (In rec kept
       <-> toUpperCase (geo rec) = "SA"
           \/ Spec.geoRegion (toUpperCase (geo rec)) = Some selectedRegion))
  /\ (Spec.rosterEntries refRecords (employeeId rec) <> [] ->
      (In rec kept
       <-> Spec.rosterCountryMatch refRecords (employeeId rec)
             (getCountriesForRegion selectedRegion))).
Proof.
  intros Hin T kept. subst kept. rewrite runLms_records.
  split; [cbn [LmsValidators.runLmsValidation lmsSummary lmsTotalRecords];
          reflexivity|].
  unfold LmsValidators.filteredRecords. rewrite filter_In.
  unfold LmsValidators.regionFilter. rewrite T, buildRefMap_get.
  split.
  - intros E _. rewrite E. rewrite geoRegion_table.
    destruct (toUpperCase (geo rec) =? "SA")%string eqn:S.
    + apply String.eqb_eq in S. tauto.
    + apply String.eqb_neq in S.
      destruct (Spec.geoRegion (toUpperCase (geo rec))) as [r|].
      * rewrite Region_eqb_eq. split.
        -- intros [_ ->]. auto.
        -- intros [H|H]; [contradiction | inversion H; auto].
      * split; [intros [_ H]; discriminate | intros [H|H]; [contradiction | discriminate]].
  - intros NE.
    destruct (Spec.rosterEntries refRecords (employeeId rec)) as [|e0 es] eqn:E;
      [contradiction|].
    unfold Spec.rosterCountryMatch. rewrite E, existsb_countryMatches. tauto.
Qed.

Lemma C7_lms_region_filter_witness :
  In Samples.febQuarterly
    (map lmsV1Record
       (lmsV1 (LmsValidators.runLmsValidation Samples.noText
                 [Samples.febQuarterly] [] "Feb-26" APAC))).
Proof.
  destruct (C7_lms_region_filter Samples.noText [Samples.febQuarterly] []
              "Feb-26" APAC Samples.febQuarterly) as (_ & H & _).
  - left. reflexivity.
  - reflexivity.
  - apply H; [reflexivity | reflexivity |]. right. reflexivity.
Defined.

(** ** The LMS alignment check *)

Lemma insertIssue_In (x y : LmsV2Issue) (l : list LmsV2Issue) :
  In y (LmsValidators.insertIssue x l) <-> y = x \/ In y l.
Proof.
  induction l as [|z l IH]; simpl.
  - intuition congruence.
  - destruct (LmsValidators.compareIssues x z <=? 0); simpl.
    + intuition congruence.
    + rewrite IH. intuition congruence.
Qed.

Lemma sortIssues_In (y : LmsV2Issue) (l : list LmsV2Issue) :
  In y (LmsValidators.sortIssues l) <-> In y l.
Proof.
  unfold LmsValidators.sortIssues.
  induction l as [|x l IH]; simpl; [tauto|].
  rewrite insertIssue_In, IH. intuition congruence.
Qed.

Lemma lms_v2Collect_In (parseFloat : string -> number)
  (recs : list LmsQuotaRecord) (r : LmsV2Result) :
  In r (LmsValidators.v2Collect parseFloat recs)
  <-> exists rec, In rec recs /\ LmsValidators.v2Check parseFloat rec = Some r.
Proof.
  induction recs as [|x recs IH]; simpl.
  - split; [contradiction | intros (? & [] & _)].
  - destruct (LmsValidators.v2Check parseFloat x) as [rx|] eqn:E; simpl; rewrite IH.
    + split.
      * intros [<-|(rec & H & C)]; eauto.
      * intros (rec & [<-|H] & C); [left; congruence | eauto].
    + split.
      * intros (rec & H & C). eauto.
      * intros (rec & [<-|H] & C); [congruence | eauto].
Qed.

Lemma LMS_MONTHS_complete (m : LmsMonth) : In m LMS_MONTHS.
Proof. destruct m; simpl; auto 10. Qed.

Lemma expectationFor_qtrly (effectiveMonth : Z) (planType : string) (m : LmsMonth) :
  toLowerCase planType = "qtrly" ->
  LmsValidators.expectationFor effectiveMonth planType m
  = LmsValidators.mkExpect m
      ((effectiveMonth <=? LMS_MONTH_TO_CAL m)
       && (LMS_MONTH_TO_CAL m <=? Spec.quarterEnd effectiveMonth)).
Proof.
  intros Q. unfold LmsValidators.expectationFor. rewrite Q. cbn [String.eqb].
  change ("qtrly" =? "okr")%string with false.
  change ("qtrly" =? "semi")%string with false.
  change ("qtrly" =? "qtrly")%string with true. cbv iota.
  unfold Spec.quarterEnd.
  destruct (LMS_MONTH_TO_CAL m <? effectiveMonth) eqn:B.
  - apply Z.ltb_lt in B.
    assert ((effectiveMonth <=? LMS_MONTH_TO_CAL m) = false) as ->
      by (apply Z.leb_gt; lia).
    reflexivity.
  - apply Z.ltb_ge in B.
    assert ((effectiveMonth <=? LMS_MONTH_TO_CAL m) = true) as ->
      by (apply Z.leb_le; lia).
    reflexivity.
Qed.

Lemma quarterlyActive_bool (effectiveMonth : Z) (m : LmsMonth) :
  (effectiveMonth <=? LMS_MONTH_TO_CAL m)
  && (LMS_MONTH_TO_CAL m <=? Spec.quarterEnd effectiveMonth) = true
  <-> Spec.quarterlyActive effectiveMonth m.
Proof.
  unfold Spec.quarterlyActive. rewrite andb_true_iff, !Z.leb_le. tauto.
Qed.

Lemma expected_In (effectiveMonth : Z) (planType : string) (m : LmsMonth) (b : bool) :
  toLowerCase planType = "qtrly" ->
  (In (LmsValidators.mkExpect m b)
      (LmsValidators.getExpectedActiveMonths effectiveMonth planType)
   <-> b = ((effectiveMonth <=? LMS_MONTH_TO_CAL m)
            && (LMS_MONTH_TO_CAL m <=? Spec.quarterEnd effectiveMonth))).
Proof.
  intros Q. unfold LmsValidators.getExpectedActiveMonths.
  rewrite in_map_iff. split.
  - intros (m' & E & _). rewrite (expectationFor_qtrly _ _ _ Q) in E.
    inversion E; subst. reflexivity.
  - intros ->. exists m. split; [|apply LMS_MONTHS_complete].
    apply expectationFor_qtrly, Q.
Qed.

Lemma streamChecked_Rev1 (rec : LmsQuotaRecord) :
  Spec.streamChecked rec Spec.Rev1 ->
  (component rec =? "Non-SA")%string || (component rec =? "Rev 1 Only")%string
  || (component rec =? "Rev 1 & Rev 2")%string = true.
Proof.
  simpl. intros [H|[H|H]]; rewrite H; reflexivity.
Qed.

Lemma streamChecked_Rev2 (rec : LmsQuotaRecord) :
  Spec.streamChecked rec Spec.Rev2 ->
  (component rec =? "Rev 2 Only")%string
  || (component rec =? "Rev 1 & Rev 2")%string = true.
Proof.
  simpl. intros [H|H]; rewrite H; reflexivity.
Qed.

Lemma monthIssues_stream (parseFloat : string -> number) (rec : LmsQuotaRecord)
  (effectiveMonth : Z) (s : Spec.Stream) (m : LmsMonth) (should : bool)
  (x : LmsV2Issue) :
  Spec.streamChecked rec s ->
  In x (filedIssue parseFloat rec effectiveMonth s m should) ->
  In x (LmsValidators.monthIssues parseFloat rec effectiveMonth
          (LmsValidators.mkExpect m should)).
Proof.
  intros C H. unfold LmsValidators.monthIssues.
  cbn [LmsValidators.expMonth LmsValidators.shouldHaveAmount].
  destruct s.
  - rewrite (streamChecked_Rev1 rec C). apply in_or_app. left. exact H.
  - rewrite (streamChecked_Rev2 rec C). apply in_or_app. right.
    apply in_or_app. left. exact H.
Qed.

(** An issue among the raw issues of a kept record is reported. *)
Lemma raw_issue_reported (parseFloat : string -> number)
  (records : list LmsQuotaRecord) (refRecords : list ReferenceRecord)
  (selectedProcessingMonth : string) (selectedRegion : Region)
  (rec : LmsQuotaRecord) (l : list LmsV2Issue) (x : LmsV2Issue) :
  In rec (LmsValidators.filteredRecords records refRecords selectedRegion) ->
  LmsValidators.rawIssues parseFloat rec = Some l ->
  In x l ->
  exists r,
    In r (lmsV2 (LmsValidators.runLmsValidation parseFloat records refRecords
                   selectedProcessingMonth selectedRegion))
    /\ lmsRecord r = rec /\ In x (issues r).
Proof.
  intros Hin R Hx.
  exists (mkLmsV2 rec (LmsValidators.sortIssues l)). repeat split.
  - cbn [LmsValidators.runLmsValidation lmsV2]. apply lms_v2Collect_In.
    exists rec. split; [exact Hin|].
    unfold LmsValidators.v2Check. rewrite R.
    destruct l; [contradiction | reflexivity].
  - simpl. apply sortIssues_In, Hx.
Qed.

Lemma rawIssues_effective (parseFloat : string -> number) (rec : LmsQuotaRecord)
  (d : Date) :
  LmsValidators.isTbhOrBlank (employeeId rec) = false ->
  quotaEffectiveDate rec = Some d ->
  1 <= getUTCMonth d + 1 <= 6 ->
  LmsValidators.rawIssues parseFloat rec
  = Some (flat_map (LmsValidators.monthIssues parseFloat rec (getUTCMonth d + 1))
            (LmsValidators.getExpectedActiveMonths (getUTCMonth d + 1)
               (planType rec))).
Proof.
  intros T E R. unfold LmsValidators.rawIssues. rewrite T, E.
  assert ((6 <? getUTCMonth d + 1) = false) as -> by (apply Z.ltb_ge; lia).
  rewrite Z.max_r by lia. reflexivity.
Qed.

(** C5. For a record with a quarterly plan (in any letter case) and an
    effective month m between 1 and 6: the months expected to hold a
    positive amount are exactly those from m to the quarter boundary (3
    when m is at most 3, else 6); for effective month 2 these are February
    and March only.  When the alignment loop examines the record (it is
    kept by the region filter, its identifier is no placeholder and m is
    the month of its effective date), then in every stream that its
    component selects a value that is not positive in an expected month
    is reported as a missing-amount issue, and a positive value in any
    other month as a should-be-zero issue. *)
Theorem C5_quarterly_alignment
  (parseFloat : string -> number)
  (records : list LmsQuotaRecord) (refRecords : list ReferenceRecord)
  (selectedProcessingMonth : string) (selectedRegion : Region)
  (rec : LmsQuotaRecord) (m : Z) :
  toLowerCase (planType rec) = "qtrly" ->
  1 <= m <= 6 ->
  let results :=
    lmsV2 (LmsValidators.runLmsValidation parseFloat records refRecords
             selectedProcessingMonth selectedRegion) in
  (forall mo,
     (In (LmsValidators.mkExpect mo true)
         (LmsValidators.getExpectedActiveMonths m (planType rec))
      <-> Spec.quarterlyActive m mo)
     /\ (In (LmsValidators.mkExpect mo false)
            (LmsValidators.getExpectedActiveMonths m (planType rec))
         <-> ~ Spec.quarterlyActive m mo))
  /\ map LmsValidators.shouldHaveAmount
       (LmsValidators.getExpectedActiveMonths 2 (planType rec))
     = [false; true; true; false; false; false]
  /\ forall d s mo,
       In rec (map lmsV1Record
                 (lmsV1 (LmsValidators.runLmsValidation parseFloat records
                           refRecords selectedProcessingMonth selectedRegion))) ->
       LmsValidators.isTbhOrBlank (employeeId rec) = false ->
       quotaEffectiveDate rec = Some d ->
       getUTCMonth d + 1 = m ->
       Spec.streamChecked rec s ->
       (Spec.quarterlyActive m mo ->
        LmsValidators.hasPositiveAmount parseFloat (Spec.streamCell rec s mo)
        = false ->
        Spec.reportedIssue results rec s mo missing_amount)
       /\ (~ Spec.quarterlyActive m mo ->
           LmsValidators.hasPositiveAmount parseFloat (Spec.streamCell rec s mo)
           = true ->
           Spec.reportedIssue results rec s mo should_be_zero).
Proof.
  intros Q R results.
  split; [|split].
  - intros mo. rewrite !(expected_In m (planType rec) mo _ Q).
    rewrite <- quarterlyActive_bool.
    destruct ((m <=? LMS_MONTH_TO_CAL mo)
              && (LMS_MONTH_TO_CAL mo <=? Spec.quarterEnd m));
      intuition congruence.
  - unfold LmsValidators.getExpectedActiveMonths. rewrite map_map.
    unfold LMS_MONTHS. cbn [map].
    rewrite !(expectationFor_qtrly 2 _ _ Q). reflexivity.
  - intros d s mo Hin T E Hm C. subst m.
    set (m := getUTCMonth d + 1) in *.
    rewrite runLms_records in Hin.
    pose proof (rawIssues_effective parseFloat rec d T E R) as Raw. fold m in Raw.
    assert (forall should x,
              should = ((m <=? LMS_MONTH_TO_CAL mo)
                        && (LMS_MONTH_TO_CAL mo <=? Spec.quarterEnd m)) ->
              In x (filedIssue parseFloat rec m s mo should) ->
              exists r, In r results /\ lmsRecord r = rec /\ In x (issues r)) as Rep.
    { intros should x Hs Hx.
      apply (raw_issue_reported parseFloat records refRecords
               selectedProcessingMonth selectedRegion rec _ x Hin Raw).
      apply in_flat_map. exists (LmsValidators.mkExpect mo should). split.
      - apply (expected_In m (planType rec) mo should Q), Hs.
      - exact (monthIssues_stream parseFloat rec m s mo should x C Hx). }
    split.
    + intros A P. apply quarterlyActive_bool in A.
      destruct (Rep true
                  (mkIssue (Spec.streamColumn s mo) mo missing_amount
                     (LmsValidators.expectedPositiveText (planType rec) m)
                     (Spec.streamCell rec s mo))) as (r & Hr & Er & Hx).
      * symmetry. exact A.
      * unfold filedIssue, LmsValidators.streamIssues. rewrite P.
        destruct s; left; reflexivity.
      * exists r. eexists. repeat split; eauto.
    + intros A P.
      assert ((m <=? LMS_MONTH_TO_CAL mo)
              && (LMS_MONTH_TO_CAL mo <=? Spec.quarterEnd m) = false) as A'.
      { destruct (_ && _) eqn:B; [|reflexivity].
        exfalso. apply A, quarterlyActive_bool, B. }
      destruct (Rep false
                  (mkIssue (Spec.streamColumn s mo) mo should_be_zero
                     "Month before effective date or after quarter end should be 0"
                     (Spec.streamCell rec s mo))) as (r & Hr & Er & Hx).
      * symmetry. exact A'.
      * unfold filedIssue, LmsValidators.streamIssues. rewrite P, Q.
        destruct s; left; reflexivity.
      * exists r. eexists. repeat split; eauto.
Qed.

Lemma C5_quarterly_alignment_witness :
  Spec.reportedIssue
    (lmsV2 (LmsValidators.runLmsValidation Samples.noText [Samples.febQuarterly]
              [] "Feb-26" APAC))
    Samples.febQuarterly Spec.Rev1 APR should_be_zero
  /\ Spec.reportedIssue
       (lmsV2 (LmsValidators.runLmsValidation Samples.noText
                 [Samples.febQuarterly] [] "Feb-26" APAC))
       Samples.febQuarterly Spec.Rev1 MAR missing_amount.
Proof.
  destruct (C5_quarterly_alignment Samples.noText [Samples.febQuarterly] []
              "Feb-26" APAC Samples.febQuarterly 2) as (_ & _ & H).
  - reflexivity.
  - lia.
  - split.
    + apply (H Samples.feb2026 Spec.Rev1 APR); try reflexivity.
      * left. reflexivity.
      * left. reflexivity.
      * unfold Spec.quarterlyActive, Spec.quarterEnd. simpl. lia.
    + apply (H Samples.feb2026 Spec.Rev1 MAR); try reflexivity.
      * left. reflexivity.
      * left. reflexivity.
      * unfold Spec.quarterlyActive, Spec.quarterEnd. simpl. lia.
Defined.

(** C6, on the code.  A record whose effective month is after June is
    skipped.  The month is read without the year, so the clamp to January
    never acts: a plan effective in November of the prior year is skipped
    as well, while the same plan effective in January is validated and
    has six missing-amount issues. *)
Theorem C6_effective_month_window (parseFloat : string -> number) :
  (forall rec d,
     quotaEffectiveDate rec = Some d -> 6 < getUTCMonth d + 1 ->
     LmsValidators.v2Check parseFloat rec = None)
  /\ (forall d, 0 <= getUTCMonth d ->
        Z.max 1 (getUTCMonth d + 1) = getUTCMonth d + 1)
  /\ lmsV2 (LmsValidators.runLmsValidation parseFloat [Samples.novSemi] []
              "Feb-26" APAC) = []
  /\ map (fun x => (issueMonth x, issueType x))
       (flat_map issues
          (lmsV2 (LmsValidators.runLmsValidation parseFloat [Samples.janSemi] []
                    "Feb-26" APAC)))
     = [ (JAN, missing_amount); (FEB, missing_amount); (MAR, missing_amount);
         (APR, missing_amount); (MAY, missing_amount); (JUN, missing_amount) ].
Proof.
  split; [|split; [|split]].
  - intros rec d E M. unfold LmsValidators.v2Check, LmsValidators.rawIssues.
    destruct (LmsValidators.isTbhOrBlank (employeeId rec)); [reflexivity|].
    rewrite E. apply Z.ltb_lt in M. rewrite M. reflexivity.
  - intros d H. lia.
  - reflexivity.
  - reflexivity.
Qed.

Lemma C6_effective_month_window_witness :
  LmsValidators.v2Check Samples.noText Samples.novSemi = None
  /\ Z.max 1 (getUTCMonth Samples.nov2025 + 1) = 11.
Proof.
  destruct (C6_effective_month_window Samples.noText) as (H & K & _).
  split.
  - apply (H Samples.novSemi Samples.nov2025); [reflexivity | simpl; lia].
  - rewrite (K Samples.nov2025); [reflexivity | simpl; lia].
Defined.

(** * Further properties of the code *)

(** ** [runValidation] *)

Lemma run_v1_nth (allRecords : list QuotaRecord) (refRecords : list ReferenceRecord)
  (selectedMonth : string) (selectedRegion : Region)
  (res : ValidationResults) (parsed : ParsedLabel) (i : nat) (rec : QuotaRecord) :
  Validators.runValidation allRecords refRecords selectedMonth selectedRegion
  = Ok res ->
  parseSubmissionMonthLabel selectedMonth = Some parsed ->
  nth_error (Validators.targetRecords allRecords parsed) i = Some rec ->
  nth_error (v1 res) i
  = Some (Validators.v1Check (Validators.buildRefMap refRecords)
            (getCountriesForRegion selectedRegion) selectedRegion rec).
Proof.
  intros Run P Nth. unfold Validators.runValidation in Run. rewrite P in Run.
  inversion Run; subst res; clear Run. cbn [v1].
  rewrite nth_error_map, Nth. reflexivity.
Qed.

(** X1. A record of the selected period with a placeholder identifier
    gets the verdict skip, with the fixed reason and no evidence, whatever
    the roster holds. *)
Theorem X1_placeholder_skipped
  (allRecords : list QuotaRecord) (refRecords : list ReferenceRecord)
  (selectedMonth : string) (selectedRegion : Region)
  (res : ValidationResults) (parsed : ParsedLabel) (i : nat) (rec : QuotaRecord) :
  Validators.runValidation allRecords refRecords selectedMonth selectedRegion
  = Ok res ->
  parseSubmissionMonthLabel selectedMonth = Some parsed ->
  nth_error (Validators.targetRecords allRecords parsed) i = Some rec ->
  Validators.isTbhOrBlank (eid rec) = true ->
  nth_error (v1 res) i = Some (mkV1 rec skip "TBH / Blank EID" None).
Proof.
  intros Run P Nth T. rewrite (run_v1_nth _ _ _ _ _ _ _ _ Run P Nth).
  unfold Validators.v1Check. rewrite T. reflexivity.
Qed.

Lemma X1_placeholder_skipped_witness :
  nth_error
    (v1 (Samples.resultsOf
           (Validators.runValidation [Samples.tbhRecord] [Samples.tbhRoster]
              "Jan-26" APAC))) 0
  = Some (mkV1 Samples.tbhRecord skip "TBH / Blank EID" None).
Proof.
  apply (X1_placeholder_skipped [Samples.tbhRecord] [Samples.tbhRoster] "Jan-26"
           APAC _ (mkParsed 2026 1) 0%nat Samples.tbhRecord);
    reflexivity.
Defined.

(** X2. A record of the selected period whose identifier is no placeholder
    and has no roster entry gets the verdict fail with the reason that the
    identifier was not found, and no evidence. *)
Theorem X2_unknown_identifier_fails
  (allRecords : list QuotaRecord) (refRecords : list ReferenceRecord)
  (selectedMonth : string) (selectedRegion : Region)
  (res : ValidationResults) (parsed : ParsedLabel) (i : nat) (rec : QuotaRecord) :
  Validators.runValidation allRecords refRecords selectedMonth selectedRegion
  = Ok res ->
  parseSubmissionMonthLabel selectedMonth = Some parsed ->
  nth_error (Validators.targetRecords allRecords parsed) i = Some rec ->
  Validators.isTbhOrBlank (eid rec) = false ->
  (forall ref, In ref refRecords -> refEid ref <> eid rec) ->
  nth_error (v1 res) i
  = Some (mkV1 rec fail "EID not found in reference file" None).
Proof.
  intros Run P Nth T No. rewrite (run_v1_nth _ _ _ _ _ _ _ _ Run P Nth).
  unfold Validators.v1Check. rewrite T, buildRefMap_get.
  assert (Spec.rosterEntries refRecords (eid rec) = []) as ->; [|reflexivity].
  unfold Spec.rosterEntries. clear - No.
  induction refRecords as [|r l IH]; [reflexivity|]. simpl.
  destruct (refEid r =? eid rec)%string eqn:E.
  - apply String.eqb_eq in E. exfalso. apply (No r); [left; reflexivity | exact E].
  - apply IH. intros ref H. apply No. right. exact H.
Qed.

Lemma X2_unknown_identifier_fails_witness :
  nth_error
    (v1 (Samples.resultsOf
           (Validators.runValidation [Samples.e1Record] [Samples.tbhRoster]
              "Jan-26" APAC))) 0
  = Some (mkV1 Samples.e1Record fail "EID not found in reference file" None).
Proof.
  apply (X2_unknown_identifier_fails [Samples.e1Record] [Samples.tbhRoster]
           "Jan-26" APAC _ (mkParsed 2026 1) 0%nat Samples.e1Record);
    try reflexivity.
  intros ref [<-|[]]. discriminate.
Defined.

Lemma filter_idem {A : Type} (f : A -> bool) (l : list A) :
  filter f (filter f l) = filter f l.
Proof.
  induction l as [|x l IH]; [reflexivity|]. simpl.
  destruct (f x) eqn:E; simpl; [rewrite E, IH|]; auto.
Qed.

(** X3. A run looks only at the records of the selected period: dropping
    every other record beforehand, among them the records without a
    submission month, leaves the whole result unchanged. *)
Theorem X3_only_period_records
  (allRecords : list QuotaRecord) (refRecords : list ReferenceRecord)
  (selectedMonth : string) (selectedRegion : Region) (parsed : ParsedLabel) :
  parseSubmissionMonthLabel selectedMonth = Some parsed ->
  Validators.runValidation
    (filter (Validators.inPeriod parsed) allRecords)
    refRecords selectedMonth selectedRegion
  = Validators.runValidation allRecords refRecords selectedMonth selectedRegion
  /\ forall rec, In rec allRecords -> submissionMonth rec = None ->
       Validators.inPeriod parsed rec = false.
Proof.
  intros P. split.
  - unfold Validators.runValidation. rewrite P.
    unfold Validators.targetRecords. rewrite filter_idem. reflexivity.
  - intros rec _ N. unfold Validators.inPeriod. rewrite N. reflexivity.
Qed.

Lemma X3_only_period_records_witness :
  Validators.runValidation
    (filter (Validators.inPeriod (mkParsed 2026 1))
       [Samples.e1Record; Samples.septemberRecord])
    [Samples.e1Roster] "Jan-26" APAC
  = Validators.runValidation [Samples.e1Record; Samples.septemberRecord]
      [Samples.e1Roster] "Jan-26" APAC.
Proof.
  apply (X3_only_period_records [Samples.e1Record; Samples.septemberRecord]
           [Samples.e1Roster] "Jan-26" APAC (mkParsed 2026 1)).
  reflexivity.
Defined.

(** X4. The V1 result of a record depends on the roster only through the
    entries of its own identifier: two rosters that list the same entries
    for it, in the same order, give the same result. *)
Theorem X4_roster_locality
  (refs1 refs2 : list ReferenceRecord) (selectedRegion : Region)
  (rec : QuotaRecord) :
  Spec.rosterEntries refs1 (eid rec) = Spec.rosterEntries refs2 (eid rec) ->
  Validators.v1Check (Validators.buildRefMap refs1)
    (getCountriesForRegion selectedRegion) selectedRegion rec
  = Validators.v1Check (Validators.buildRefMap refs2)
      (getCountriesForRegion selectedRegion) selectedRegion rec.
Proof.
  intros E. unfold Validators.v1Check.
  rewrite !buildRefMap_get, E. reflexivity.
Qed.

Lemma X4_roster_locality_witness :
  Validators.v1Check
    (Validators.buildRefMap [Samples.tbhRoster; Samples.e1Roster])
    (getCountriesForRegion APAC) APAC Samples.e1Record
  = Validators.v1Check (Validators.buildRefMap [Samples.e1Roster])
      (getCountriesForRegion APAC) APAC Samples.e1Record.
Proof.
  apply (X4_roster_locality [Samples.tbhRoster; Samples.e1Roster]
           [Samples.e1Roster] APAC Samples.e1Record).
  reflexivity.
Defined.

(** ** Check 3: what a result carries *)

Lemma v3Loop_values (rec : QuotaRecord) (hasY2 hasC2 hasC2Y2 : bool) (hs eff : Z)
  (keys : list MonthKey) (i : Z) (acc : Validators.V3Acc) :
  let out := Validators.v3Loop rec hasY2 hasC2 hasC2Y2 hs eff i keys acc in
  Validators.aValues out
  = Validators.aValues acc
    ++ map (fun k => (k, mget (monthlyQuotas rec) k)) keys
  /\ Validators.aValuesY2Y3 out
     = Validators.aValuesY2Y3 acc
       ++ map (fun k => (k, Validators.bucketValue hasY2
                              (monthlyQuotasY2Y3 rec) k)) keys
  /\ Validators.aValuesComp2 out
     = Validators.aValuesComp2 acc
       ++ map (fun k => (k, Validators.bucketValue hasC2
                              (monthlyQuotasComp2 rec) k)) keys
  /\ Validators.aValuesComp2Y2Y3 out
     = Validators.aValuesComp2Y2Y3 acc
       ++ map (fun k => (k, Validators.bucketValue hasC2Y2
                              (monthlyQuotasComp2Y2Y3 rec) k)) keys.
Proof.
  revert i acc. induction keys as [|key rest IH]; intros i acc.
  - simpl. rewrite !app_nil_r. auto.
  - cbn [Validators.v3Loop map]. cbv zeta.
    match goal with
    | |- context [Validators.v3Loop _ _ _ _ _ _ _ rest ?a] =>
        destruct (IH (i + 1) a) as (E1 & E2 & E3 & E4)
    end.
    rewrite E1, E2, E3, E4.
    cbn [Validators.aValues Validators.aValuesY2Y3 Validators.aValuesComp2
           Validators.aValuesComp2Y2Y3].
    rewrite <- !app_assoc. repeat split; reflexivity.
Qed.

Lemma v3Check_shape (parsed : ParsedLabel) (rec : QuotaRecord) (r : V3Result) :
  Validators.v3Check parsed rec = Some r ->
  half r = Spec.halfOf parsed
  /\ (forall b, Props.flagOf r b = Spec.bucketChecked rec b)
  /\ forall b, Props.valuesOf r b
               = map (fun k => (k, if Spec.bucketChecked rec b
                                   then Spec.bucketCell rec b k else CNull))
                   (Spec.halfMonths (Spec.halfOf parsed)).
Proof.
  unfold Validators.v3Check. cbv zeta.
  destruct (quotaStartDate rec) as [qs|]; [|discriminate].
  match goal with
  | |- (if ?c then None else _) = _ -> _ => destruct c; [discriminate|]
  end.
  match goal with
  | |- context [Validators.v3Loop ?a ?b ?c ?d ?e ?f ?g ?h ?i] =>
      destruct (v3Loop_values a b c d e f h g i) as (E1 & E2 & E3 & E4)
  end.
  match goal with
  | |- (if ?c then _ else None) = _ -> _ => destruct c; [|discriminate]
  end.
  intros H. inversion H; subst r; clear H.
  cbn [half Props.flagOf Props.valuesOf quotaValues quotaValuesY2Y3
         quotaValuesComp2 quotaValuesComp2Y2Y3 hasY2Y3 hasComp2 hasComp2Y2Y3].
  split; [reflexivity|]. split.
  - intros []; reflexivity.
  - assert ((if 7 <=? month parsed then H1_MONTHS else H2_MONTHS)
            = Spec.halfMonths (Spec.halfOf parsed)) as Hm
      by (unfold Spec.halfOf; destruct (7 <=? month parsed); reflexivity).
    rewrite Hm in E1, E2, E3, E4 |- *.
    intros []; cbn [Spec.bucketChecked].
    + rewrite E1. reflexivity.
    + rewrite E2. simpl. apply map_ext. intros k.
      unfold Validators.bucketValue, Spec.bucketCell.
      destruct (monthlyQuotasY2Y3 rec); reflexivity.
    + rewrite E3. simpl. apply map_ext. intros k.
      unfold Validators.bucketValue, Spec.bucketCell. fold (Spec.isDualMetric rec).
      destruct (Spec.isDualMetric rec && _)%bool; [|reflexivity].
      destruct (monthlyQuotasComp2 rec); reflexivity.
    + rewrite E4. simpl. apply map_ext. intros k.
      unfold Validators.bucketValue, Spec.bucketCell. fold (Spec.isDualMetric rec).
      destruct (Spec.isDualMetric rec && _)%bool; [|reflexivity].
      destruct (monthlyQuotasComp2Y2Y3 rec); reflexivity.
Qed.

(** X5. Every V3 result names the half of the selected period and
    carries, for each bucket, the values of all six months of that half
    in order, whether missing or not and whatever the start month; a
    bucket that is not checked (absent, or secondary on a record that is
    not dual-metric) carries null for every month and an empty missing
    list. *)
Theorem X5_v3_snapshots
  (allRecords : list QuotaRecord) (refRecords : list ReferenceRecord)
  (selectedMonth : string) (selectedRegion : Region)
  (res : ValidationResults) (parsed : ParsedLabel) (r : V3Result) :
  Validators.runValidation allRecords refRecords selectedMonth selectedRegion
  = Ok res ->
  parseSubmissionMonthLabel selectedMonth = Some parsed ->
  In r (v3 res) ->
  half r = Spec.halfOf parsed
  /\ forall b,
       Props.flagOf r b = Spec.bucketChecked (v3Record r) b
       /\ map fst (Props.valuesOf r b) = Spec.halfMonths (Spec.halfOf parsed)
       /\ (Spec.bucketChecked (v3Record r) b = true ->
           Props.valuesOf r b
           = map (fun k => (k, Spec.bucketCell (v3Record r) b k))
               (Spec.halfMonths (Spec.halfOf parsed)))
       /\ (Spec.bucketChecked (v3Record r) b = false ->
           Spec.missingOf r b = []
           /\ Props.valuesOf r b
              = map (fun k => (k, CNull)) (Spec.halfMonths (Spec.halfOf parsed))).
Proof.
  intros Run P Hr. unfold Validators.runValidation in Run. rewrite P in Run.
  inversion Run; subst res; clear Run. cbn [v3] in Hr.
  apply v3Collect_In in Hr as (rec & _ & C).
  pose proof (v3Check_record _ _ _ C) as R. subst rec.
  destruct (v3Check_shape _ _ _ C) as (Hh & Hf & Hv).
  split; [exact Hh|]. intros b. rewrite (Hv b). split; [apply Hf|]. split.
  - rewrite map_map. apply map_id.
  - split.
    + intros Ck. rewrite Ck. reflexivity.
    + intros Ck. rewrite Ck. split; [|reflexivity].
      pose proof (v3Check_spec parsed (v3Record r)) as S. rewrite C in S.
      destruct (quotaStartDate (v3Record r)) as [qs|]; [|discriminate].
      destruct (Spec.startsAfterHalfb parsed qs); [discriminate|].
      destruct (anyMissing parsed (v3Record r) qs); [|discriminate].
      destruct S as (r' & E & _ & M). inversion E; subst r'.
      rewrite M. unfold missingList. rewrite Ck. reflexivity.
Qed.

Lemma X5_v3_snapshots_witness :
  exists r,
    v3 (Samples.resultsOf
          (Validators.runValidation [Samples.septemberRecord] [] "Sep-25" APAC))
    = [r]
    /\ map fst (quotaValues r) = H1_MONTHS
    /\ quotaValuesY2Y3 r = map (fun k => (k, CNull)) H1_MONTHS.
Proof.
  eexists. split; [reflexivity|].
  match goal with
  | |- map fst (quotaValues ?r) = _ /\ _ =>
      destruct (X5_v3_snapshots [Samples.septemberRecord] [] "Sep-25" APAC
                  (Samples.resultsOf
                     (Validators.runValidation [Samples.septemberRecord] []
                        "Sep-25" APAC))
                  (mkParsed 2025 9) r eq_refl eq_refl (or_introl eq_refl))
        as [_ H]
  end.
  split.
  - exact (proj1 (proj2 (H Spec.PrimaryY1))).
  - exact (proj2 (proj2 (proj2 (proj2 (H Spec.PrimaryY2Y3))) eq_refl)).
Defined.

Lemma StronglySorted_filter {A : Type} (R : A -> A -> Prop) (f : A -> bool)
  (l : list A) :
  StronglySorted R l -> StronglySorted R (filter f l).
Proof.
  induction 1 as [|x l S IH F]; simpl; [constructor|].
  destruct (f x); [|exact IH].
  constructor; [exact IH|].
  rewrite Forall_forall in *. intros y Hy. apply filter_In in Hy as [Hy _]. auto.
Qed.

Lemma halfMonths_sorted (h : FiscalHalf) :
  StronglySorted Props.earlier (Spec.halfMonths h).
Proof.
  destruct h; simpl;
    repeat (constructor; [|repeat constructor; unfold Props.earlier; simpl; lia]);
    constructor.
Qed.

(** X6. Each missing list of a V3 result holds months of the selected
    half only, in calendar order and without repetition, none of them
    before the first month of the half or before the start month of a
    record that starts in the year of the half. *)
Theorem X6_missing_lists_ordered
  (allRecords : list QuotaRecord) (refRecords : list ReferenceRecord)
  (selectedMonth : string) (selectedRegion : Region)
  (res : ValidationResults) (parsed : ParsedLabel) (r : V3Result)
  (b : Spec.Bucket) :
  Validators.runValidation allRecords refRecords selectedMonth selectedRegion
  = Ok res ->
  parseSubmissionMonthLabel selectedMonth = Some parsed ->
  In r (v3 res) ->
  StronglySorted Props.earlier (Spec.missingOf r b)
  /\ NoDup (Spec.missingOf r b)
  /\ exists qs,
       quotaStartDate (v3Record r) = Some qs
       /\ forall k, In k (Spec.missingOf r b) ->
            In k (Spec.halfMonths (Spec.halfOf parsed))
            /\ Spec.halfFirstMonth (Spec.halfOf parsed) <= Spec.calendarIndex k
            /\ (Spec.startYear qs = year parsed ->
                Spec.startMonth qs <= Spec.calendarIndex k).
Proof.
  intros Run P Hr. unfold Validators.runValidation in Run. rewrite P in Run.
  inversion Run; subst res; clear Run. cbn [v3] in Hr.
  apply v3Collect_In in Hr as (rec & _ & C).
  pose proof (v3Check_record _ _ _ C) as R. subst rec.
  pose proof (v3Check_spec parsed (v3Record r)) as S. rewrite C in S.
  destruct (quotaStartDate (v3Record r)) as [qs|]; [|discriminate].
  destruct (Spec.startsAfterHalfb parsed qs); [discriminate|].
  destruct (anyMissing parsed (v3Record r) qs); [|discriminate].
  destruct S as (r' & E & _ & M). inversion E; subst r'. rewrite M.
  assert (StronglySorted Props.earlier (missingList parsed (v3Record r) qs b))
    as Sorted.
  { unfold missingList. destruct (Spec.bucketChecked (v3Record r) b);
      [|constructor].
    apply StronglySorted_filter, halfMonths_sorted. }
  split; [exact Sorted|]. split.
  - clear - Sorted. induction Sorted as [|x l S IH F]; constructor; auto.
    intros Hx. rewrite Forall_forall in F. specialize (F x Hx).
    unfold Props.earlier in F. lia.
  - exists qs. split; [reflexivity|]. intros k Hk.
    apply missingList_In in Hk as (_ & Hin & Eff & _).
    split; [exact Hin|]. unfold Spec.effectiveStart in Eff.
    destruct (Spec.startYear qs =? year parsed) eqn:Y.
    + split; [lia|]. intros _. lia.
    + apply Z.eqb_neq in Y. split; [lia|]. intros Y'. contradiction.
Qed.

Lemma X6_missing_lists_ordered_witness :
  exists r,
    v3 (Samples.resultsOf
          (Validators.runValidation [Samples.septemberRecord] [] "Sep-25" APAC))
    = [r]
    /\ NoDup (missingMonths r).
Proof.
  eexists. split; [reflexivity|].
  match goal with
  | |- NoDup (missingMonths ?r) =>
      exact (proj1 (proj2
        (X6_missing_lists_ordered [Samples.septemberRecord] [] "Sep-25" APAC
           (Samples.resultsOf
              (Validators.runValidation [Samples.septemberRecord] [] "Sep-25"
                 APAC))
           (mkParsed 2025 9) r Spec.PrimaryY1 eq_refl eq_refl
           (or_introl eq_refl))))
  end.
Defined.

(** ** The LMS alignment check: plan types *)

Lemma expectationFor_before (effectiveMonth : Z) (planType : string) (m : LmsMonth) :
  LMS_MONTH_TO_CAL m < effectiveMonth ->
  LmsValidators.expectationFor effectiveMonth planType m
  = LmsValidators.mkExpect m false.
Proof.
  intros H. unfold LmsValidators.expectationFor.
  apply Z.ltb_lt in H. rewrite H. reflexivity.
Qed.

Lemma expectationFor_okr (effectiveMonth : Z) (planType : string) (m : LmsMonth) :
  toLowerCase planType = "okr" ->
  LmsValidators.expectationFor effectiveMonth planType m
  = LmsValidators.mkExpect m false.
Proof.
  intros Q. unfold LmsValidators.expectationFor. rewrite Q.
  destruct (LMS_MONTH_TO_CAL m <? effectiveMonth); reflexivity.
Qed.

Lemma expectationFor_other (effectiveMonth : Z) (planType : string) (m : LmsMonth) :
  toLowerCase planType <> "okr" -> toLowerCase planType <> "qtrly" ->
  LmsValidators.expectationFor effectiveMonth planType m
  = LmsValidators.mkExpect m (effectiveMonth <=? LMS_MONTH_TO_CAL m).
Proof.
  intros O Q. unfold LmsValidators.expectationFor.
  apply String.eqb_neq in O, Q. rewrite O, Q.
  destruct (LMS_MONTH_TO_CAL m <? effectiveMonth) eqn:B.
  - apply Z.ltb_lt in B.
    assert ((effectiveMonth <=? LMS_MONTH_TO_CAL m) = false) as ->
      by (apply Z.leb_gt; lia).
    reflexivity.
  - apply Z.ltb_ge in B.
    assert ((effectiveMonth <=? LMS_MONTH_TO_CAL m) = true) as ->
      by (apply Z.leb_le; lia).
    destruct (toLowerCase planType =? "semi")%string; reflexivity.
Qed.

(** X7. Whatever the plan type, a month before the effective month
    expects no amount.  A plan type of ASCII text other than OKR and
    Qtrly in any letter case (so Semi, and every unrecognised text)
    expects an amount in exactly the months from the effective month on,
    the same as Semi.  (Outside ASCII, JavaScript lower-cases the Kelvin
    sign to the letter k, so a plan spelled with it is OKR to the
    code.) *)
Theorem X7_semi_and_unknown_plans (effectiveMonth : Z) (planType : string) :
  (forall mo, LMS_MONTH_TO_CAL mo < effectiveMonth ->
     In (LmsValidators.mkExpect mo false)
        (LmsValidators.getExpectedActiveMonths effectiveMonth planType))
  /\ (Props.asciiText planType = true ->
      toLowerCase planType <> "okr" -> toLowerCase planType <> "qtrly" ->
      LmsValidators.getExpectedActiveMonths effectiveMonth planType
      = LmsValidators.getExpectedActiveMonths effectiveMonth "Semi"
      /\ forall mo,
           In (LmsValidators.mkExpect mo true)
              (LmsValidators.getExpectedActiveMonths effectiveMonth planType)
           <-> effectiveMonth <= LMS_MONTH_TO_CAL mo).
Proof.
  unfold LmsValidators.getExpectedActiveMonths. split.
  - intros mo H. apply in_map_iff. exists mo.
    split; [apply expectationFor_before, H | apply LMS_MONTHS_complete].
  - intros _ O Q. split.
    + apply map_ext. intros mo.
      rewrite (expectationFor_other _ _ _ O Q).
      rewrite (expectationFor_other effectiveMonth "Semi" mo);
        [reflexivity | discriminate | discriminate].
    + intros mo. rewrite in_map_iff. split.
      * intros (m' & E & _). rewrite (expectationFor_other _ _ _ O Q) in E.
        inversion E; subst. apply Z.leb_le. congruence.
      * intros H. exists mo. split; [|apply LMS_MONTHS_complete].
        rewrite (expectationFor_other _ _ _ O Q).
        apply Z.leb_le in H. rewrite H. reflexivity.
Qed.

Lemma X7_semi_and_unknown_plans_witness :
  LmsValidators.getExpectedActiveMonths 4 "Annual"
  = LmsValidators.getExpectedActiveMonths 4 "Semi".
Proof.
  destruct (X7_semi_and_unknown_plans 4 "Annual") as [_ H].
  destruct H as [E _]; [reflexivity | discriminate | discriminate | exact E].
Defined.

(** What an issue filed for a stream and a month looks like. *)
Lemma streamIssues_inv (parseFloat : string -> number) (prefix planType : string)
  (effectiveMonth : Z) (mo : LmsMonth) (should : bool) (val : cell)
  (x : LmsV2Issue) :
  In x (LmsValidators.streamIssues parseFloat prefix planType effectiveMonth
          mo should val) ->
  column x = (prefix ++ "-" ++ monthName mo)%string
  /\ issueMonth x = mo /\ actualValue x = val
  /\ ((should = true /\ LmsValidators.hasPositiveAmount parseFloat val = false
       /\ issueType x = missing_amount)
      \/ (should = false /\ LmsValidators.hasPositiveAmount parseFloat val = true
          /\ issueType x
             = if (toLowerCase planType =? "okr")%string
               then okr_has_amount else should_be_zero)).
Proof.
  unfold LmsValidators.streamIssues. intros H.
  apply in_app_or in H as [H|H].
  - destruct should; [|contradiction]. simpl in H.
    destruct (LmsValidators.hasPositiveAmount parseFloat val); [contradiction|].
    destruct H as [<-|[]]. simpl. auto 10.
  - destruct should; [contradiction|]. simpl in H.
    destruct (LmsValidators.hasPositiveAmount parseFloat val); [|contradiction].
    destruct H as [<-|[]]. simpl. auto 10.
Qed.

(** The three sources of the issues of one month. *)
Lemma monthIssues_inv (parseFloat : string -> number) (rec : LmsQuotaRecord)
  (effectiveMonth : Z) (e : LmsValidators.Expectation) (x : LmsV2Issue) :
  In x (LmsValidators.monthIssues parseFloat rec effectiveMonth e) ->
  (Spec.streamChecked rec Spec.Rev1
   /\ In x (filedIssue parseFloat rec effectiveMonth Spec.Rev1
              (LmsValidators.expMonth e) (LmsValidators.shouldHaveAmount e)))
  \/ (Spec.streamChecked rec Spec.Rev2
      /\ In x (filedIssue parseFloat rec effectiveMonth Spec.Rev2
                 (LmsValidators.expMonth e) (LmsValidators.shouldHaveAmount e)))
  \/ (component rec = "Rev 2 Only"
      /\ LmsValidators.hasPositiveAmount parseFloat
           (lget (rev1Monthly rec) (LmsValidators.expMonth e)) = true
      /\ column x = Spec.streamColumn Spec.Rev1 (LmsValidators.expMonth e)
      /\ issueMonth x = LmsValidators.expMonth e
      /\ issueType x = rev2_only_has_rev1
      /\ actualValue x = lget (rev1Monthly rec) (LmsValidators.expMonth e)).
Proof.
  unfold LmsValidators.monthIssues. intros H.
  apply in_app_or in H as [H|H]; [|apply in_app_or in H as [H|H]].
  - left. destruct (_ || _ || _)%bool eqn:C; [|contradiction].
    split; [|exact H]. simpl.
    apply orb_true_iff in C as [C|C]; [apply orb_true_iff in C as [C|C]|];
      apply String.eqb_eq in C; auto.
  - right. left. destruct (_ || _)%bool eqn:C; [|contradiction].
    split; [|exact H]. simpl.
    apply orb_true_iff in C as [C|C]; apply String.eqb_eq in C; auto.
  - right. right.
    destruct (component rec =? "Rev 2 Only")%string eqn:C; [|contradiction].
    apply String.eqb_eq in C. simpl in H.
    destruct (LmsValidators.hasPositiveAmount parseFloat _) eqn:Pos;
      [|contradiction].
    destruct H as [<-|[]]. simpl. auto 10.
Qed.

(** What it takes for a record to have a V2 result. *)
Lemma lms_v2_result_inv (parseFloat : string -> number)
  (records : list LmsQuotaRecord) (refRecords : list ReferenceRecord)
  (selectedProcessingMonth : string) (selectedRegion : Region)
  (r : LmsV2Result) :
  In r (lmsV2 (LmsValidators.runLmsValidation parseFloat records refRecords
                 selectedProcessingMonth selectedRegion)) ->
  In (lmsRecord r)
     (LmsValidators.filteredRecords records refRecords selectedRegion)
  /\ LmsValidators.isTbhOrBlank (employeeId (lmsRecord r)) = false
  /\ exists d l,
       quotaEffectiveDate (lmsRecord r) = Some d
       /\ getUTCMonth d + 1 <= 6
       /\ l <> []
       /\ issues r = LmsValidators.sortIssues l
       /\ l = flat_map
                (LmsValidators.monthIssues parseFloat (lmsRecord r)
                   (Z.max 1 (getUTCMonth d + 1)))
                (LmsValidators.getExpectedActiveMonths
                   (Z.max 1 (getUTCMonth d + 1)) (planType (lmsRecord r))).
Proof.
  cbn [LmsValidators.runLmsValidation lmsV2]. intros H.
  apply lms_v2Collect_In in H as (rec & Hin & C).
  unfold LmsValidators.v2Check, LmsValidators.rawIssues in C.
  destruct (LmsValidators.isTbhOrBlank (employeeId rec)) eqn:T; [discriminate|].
  destruct (quotaEffectiveDate rec) as [d|] eqn:E; [|discriminate].
  destruct (6 <? getUTCMonth d + 1) eqn:M; [discriminate|].
  apply Z.ltb_ge in M.
  match type of C with
  | (if (0 <? List.length ?l)%nat then _ else _) = _ =>
      destruct l as [|x0 l0] eqn:L; [discriminate|]
  end.
  simpl in C. inversion C; subst r; clear C. simpl.
  rewrite E. repeat split; auto.
  exists d, (x0 :: l0). repeat split; auto. discriminate.
Qed.

Lemma run_issue_inv (parseFloat : string -> number)
  (records : list LmsQuotaRecord) (refRecords : list ReferenceRecord)
  (selectedProcessingMonth : string) (selectedRegion : Region)
  (r : LmsV2Result) (x : LmsV2Issue) :
  In r (lmsV2 (LmsValidators.runLmsValidation parseFloat records refRecords
                 selectedProcessingMonth selectedRegion)) ->
  In x (issues r) ->
  exists m mo,
    In x (LmsValidators.monthIssues parseFloat (lmsRecord r) m
            (LmsValidators.expectationFor m (planType (lmsRecord r)) mo)).
Proof.
  intros Hr Hx.
  destruct (lms_v2_result_inv _ _ _ _ _ _ Hr) as (_ & _ & d & l & _ & _ & _ & Es & El).
  rewrite Es in Hx. apply (proj1 (sortIssues_In _ _)) in Hx. rewrite El in Hx.
  apply in_flat_map in Hx as (e & He & Hx).
  unfold LmsValidators.getExpectedActiveMonths in He.
  apply in_map_iff in He as (mo & <- & _). eauto.
Qed.

(** X8. For a record whose plan type is OKR (in any letter case) no month
    expects an amount, whatever the effective month; every issue reported
    for it is of kind okr-has-amount (or the stream mismatch of a Rev 2
    Only record), never missing-amount or should-be-zero; and when the
    alignment loop examines the record, a positive value in any month of
    a checked stream is reported as okr-has-amount. *)
Theorem X8_okr_plan
  (parseFloat : string -> number)
  (records : list LmsQuotaRecord) (refRecords : list ReferenceRecord)
  (selectedProcessingMonth : string) (selectedRegion : Region)
  (rec : LmsQuotaRecord) :
  toLowerCase (planType rec) = "okr" ->
  let results :=
    lmsV2 (LmsValidators.runLmsValidation parseFloat records refRecords
             selectedProcessingMonth selectedRegion) in
  (forall m,
     map LmsValidators.shouldHaveAmount
       (LmsValidators.getExpectedActiveMonths m (planType rec))
     = [false; false; false; false; false; false])
  /\ (forall r x, In r results -> lmsRecord r = rec -> In x (issues r) ->
        issueType x = okr_has_amount \/ issueType x = rev2_only_has_rev1)
  /\ forall d s mo,
       In rec (LmsValidators.filteredRecords records refRecords selectedRegion) ->
       LmsValidators.isTbhOrBlank (employeeId rec) = false ->
       quotaEffectiveDate rec = Some d ->
       1 <= getUTCMonth d + 1 <= 6 ->
       Spec.streamChecked rec s ->
       LmsValidators.hasPositiveAmount parseFloat (Spec.streamCell rec s mo)
       = true ->
       Spec.reportedIssue results rec s mo okr_has_amount.
Proof.
  intros Q results. split; [|split].
  - intros m. unfold LmsValidators.getExpectedActiveMonths. rewrite map_map.
    unfold LMS_MONTHS. cbn [map]. rewrite !(expectationFor_okr m _ _ Q).
    reflexivity.
  - intros r x Hr <- Hx.
    destruct (run_issue_inv parseFloat records refRecords
                selectedProcessingMonth selectedRegion r x Hr Hx)
      as (m & mo & Hm).
    rewrite (expectationFor_okr m _ mo Q) in Hm.
    apply monthIssues_inv in Hm as [[_ H]|[[_ H]|H]].
    + apply streamIssues_inv in H as (_ & _ & _ & [(S & _)|(_ & _ & Ty)]);
        [discriminate|]. rewrite Q in Ty. left. exact Ty.
    + apply streamIssues_inv in H as (_ & _ & _ & [(S & _)|(_ & _ & Ty)]);
        [discriminate|]. rewrite Q in Ty. left. exact Ty.
    + right. tauto.
  - intros d s mo Hin T E R C Pos.
    pose proof (rawIssues_effective parseFloat rec d T E R) as Raw.
    destruct (raw_issue_reported parseFloat records refRecords
                selectedProcessingMonth selectedRegion rec _
                (mkIssue (Spec.streamColumn s mo) mo okr_has_amount
                   "OKR plan type should have 0 quota" (Spec.streamCell rec s mo))
                Hin Raw) as (r & Hr & Er & Hx).
    + apply in_flat_map. exists (LmsValidators.mkExpect mo false). split.
      * unfold LmsValidators.getExpectedActiveMonths. apply in_map_iff.
        exists mo. split; [apply expectationFor_okr, Q | apply LMS_MONTHS_complete].
      * apply (monthIssues_stream parseFloat rec _ s mo false _ C).
        unfold filedIssue, LmsValidators.streamIssues. rewrite Pos, Q.
        destruct s; left; reflexivity.
    + exists r. eexists. repeat split; eauto.
Qed.

Lemma X8_okr_plan_witness :
  map LmsValidators.shouldHaveAmount
    (LmsValidators.getExpectedActiveMonths 3 "OKR")
  = [false; false; false; false; false; false].
Proof.
  destruct (X8_okr_plan Samples.noText [] [] "Feb-26" APAC
              (Samples.lmsRow "E7" "APAC" "Non-SA" "OKR" (Some Samples.feb2026)
                 Samples.blankLmsQuotas Samples.blankLmsQuotas))
    as (H & _); [reflexivity | exact (H 3)].
Defined.

(** X9. For a Rev 2 Only record that the alignment loop examines, a
    positive primary-stream value in any of the six months, before or
    after the effective month, is reported as the stream mismatch; and
    the primary stream of such a record is never judged against the
    monthly expectation: every issue on a primary column is the stream
    mismatch. *)
Theorem X9_rev2_only
  (parseFloat : string -> number)
  (records : list LmsQuotaRecord) (refRecords : list ReferenceRecord)
  (selectedProcessingMonth : string) (selectedRegion : Region)
  (rec : LmsQuotaRecord) :
  component rec = "Rev 2 Only" ->
  let results :=
    lmsV2 (LmsValidators.runLmsValidation parseFloat records refRecords
             selectedProcessingMonth selectedRegion) in
  (forall d mo,
     In rec (LmsValidators.filteredRecords records refRecords selectedRegion) ->
     LmsValidators.isTbhOrBlank (employeeId rec) = false ->
     quotaEffectiveDate rec = Some d ->
     1 <= getUTCMonth d + 1 <= 6 ->
     LmsValidators.hasPositiveAmount parseFloat (lget (rev1Monthly rec) mo) = true ->
     Spec.reportedIssue results rec Spec.Rev1 mo rev2_only_has_rev1)
  /\ forall r x, In r results -> lmsRecord r = rec -> In x (issues r) ->
       column x = Spec.streamColumn Spec.Rev1 (issueMonth x) ->
       issueType x = rev2_only_has_rev1.
Proof.
  intros Cmp results. split.
  - intros d mo Hin T E R Pos.
    pose proof (rawIssues_effective parseFloat rec d T E R) as Raw.
    destruct (raw_issue_reported parseFloat records refRecords
                selectedProcessingMonth selectedRegion rec _
                (mkIssue (Spec.streamColumn Spec.Rev1 mo) mo rev2_only_has_rev1
                   "Rev 2 Only component should not have Rev 1 amounts (blank or 0 expected)"
                   (lget (rev1Monthly rec) mo))
                Hin Raw) as (r & Hr & Er & Hx).
    + apply in_flat_map.
      exists (LmsValidators.expectationFor (getUTCMonth d + 1) (planType rec) mo).
      split.
      * unfold LmsValidators.getExpectedActiveMonths. apply in_map_iff.
        exists mo. split; [reflexivity | apply LMS_MONTHS_complete].
      * unfold LmsValidators.monthIssues. rewrite Cmp.
        assert (LmsValidators.expMonth
                  (LmsValidators.expectationFor (getUTCMonth d + 1)
                     (planType rec) mo) = mo) as ->.
        { unfold LmsValidators.expectationFor.
          repeat match goal with
                 | |- context [if ?c then _ else _] => destruct c
                 end; reflexivity. }
        apply in_or_app. right. apply in_or_app. right.
        rewrite Pos. left. reflexivity.
    + exists r. eexists. repeat split; eauto.
  - intros r x Hr <- Hx Col.
    destruct (run_issue_inv parseFloat records refRecords
                selectedProcessingMonth selectedRegion r x Hr Hx)
      as (m & mo & Hm).
    apply monthIssues_inv in Hm as [[C _]|[[_ H]|H]].
    + simpl in C. rewrite Cmp in C. destruct C as [C|[C|C]]; discriminate.
    + apply streamIssues_inv in H as (Cx & _). rewrite Cx in Col.
      destruct (issueMonth x), (LmsValidators.expMonth _); discriminate.
    + tauto.
Qed.

Lemma X9_rev2_only_witness :
  Spec.reportedIssue
    (lmsV2 (LmsValidators.runLmsValidation Samples.noText
              [Samples.lmsRow "E8" "APAC" "Rev 2 Only" "Semi" (Some Samples.feb2026)
                 (mkLmsMonthly (Samples.num 5) CNull CNull CNull CNull CNull)
                 Samples.blankLmsQuotas]
              [] "Feb-26" APAC))
    (Samples.lmsRow "E8" "APAC" "Rev 2 Only" "Semi" (Some Samples.feb2026)
       (mkLmsMonthly (Samples.num 5) CNull CNull CNull CNull CNull)
       Samples.blankLmsQuotas)
    Spec.Rev1 JAN rev2_only_has_rev1.
Proof.
  destruct (X9_rev2_only Samples.noText
              [Samples.lmsRow "E8" "APAC" "Rev 2 Only" "Semi" (Some Samples.feb2026)
                 (mkLmsMonthly (Samples.num 5) CNull CNull CNull CNull CNull)
                 Samples.blankLmsQuotas]
              [] "Feb-26" APAC
              (Samples.lmsRow "E8" "APAC" "Rev 2 Only" "Semi" (Some Samples.feb2026)
                 (mkLmsMonthly (Samples.num 5) CNull CNull CNull CNull CNull)
                 Samples.blankLmsQuotas) eq_refl) as [H _].
  apply (H Samples.feb2026 JAN); try reflexivity.
  - left. reflexivity.
  - simpl. lia.
Defined.

(** ** The LMS alignment check: the shape of the results *)

Lemma compareIssues_le (a b : LmsV2Issue) :
  LmsValidators.compareIssues a b <= 0 <-> Props.issueBefore a b.
Proof.
  unfold LmsValidators.compareIssues, Props.issueBefore, Props.issueRank.
  destruct (startsWith (column a) "Rev1"), (startsWith (column b) "Rev1");
    simpl; lia.
Qed.

Lemma issueBefore_total (a b : LmsV2Issue) :
  Props.issueBefore a b \/ Props.issueBefore b a.
Proof. unfold Props.issueBefore. lia. Qed.

Lemma issueBefore_trans (a b c : LmsV2Issue) :
  Props.issueBefore a b -> Props.issueBefore b c -> Props.issueBefore a c.
Proof. unfold Props.issueBefore. lia. Qed.

Lemma insertIssue_perm (x : LmsV2Issue) (l : list LmsV2Issue) :
  Permutation (x :: l) (LmsValidators.insertIssue x l).
Proof.
  induction l as [|y l IH]; simpl; [reflexivity|].
  destruct (LmsValidators.compareIssues x y <=? 0); [reflexivity|].
  rewrite perm_swap. constructor. exact IH.
Qed.

Lemma sortIssues_perm (l : list LmsV2Issue) :
  Permutation l (LmsValidators.sortIssues l).
Proof.
  unfold LmsValidators.sortIssues.
  induction l as [|x l IH]; simpl; [constructor|].
  rewrite <- insertIssue_perm. constructor. exact IH.
Qed.

Lemma insertIssue_sorted (x : LmsV2Issue) (l : list LmsV2Issue) :
  StronglySorted Props.issueBefore l ->
  StronglySorted Props.issueBefore (LmsValidators.insertIssue x l).
Proof.
  induction 1 as [|y l S IH F]; simpl.
  - repeat constructor.
  - destruct (LmsValidators.compareIssues x y <=? 0) eqn:C.
    + apply Z.leb_le, compareIssues_le in C.
      constructor; [constructor; assumption|].
      constructor; [exact C|].
      rewrite Forall_forall in *. intros z Hz.
      apply (issueBefore_trans x y z C), F, Hz.
    + apply Z.leb_gt in C.
      assert (Props.issueBefore y x) as Yx.
      { destruct (issueBefore_total x y) as [H|H]; [|exact H].
        apply compareIssues_le in H. lia. }
      constructor; [exact IH|].
      rewrite Forall_forall in *. intros z Hz.
      apply insertIssue_In in Hz as [->|Hz]; auto.
Qed.

Lemma sortIssues_sorted (l : list LmsV2Issue) :
  StronglySorted Props.issueBefore (LmsValidators.sortIssues l).
Proof.
  unfold LmsValidators.sortIssues.
  induction l as [|x l IH]; simpl; [constructor|].
  apply insertIssue_sorted, IH.
Qed.

(** X10. The issues of every V2 result are the issues found for its
    record, none lost and none added, arranged with primary-stream issues
    before the others and, within each, by calendar month ascending. *)
Theorem X10_issues_sorted
  (parseFloat : string -> number)
  (records : list LmsQuotaRecord) (refRecords : list ReferenceRecord)
  (selectedProcessingMonth : string) (selectedRegion : Region)
  (r : LmsV2Result) :
  In r (lmsV2 (LmsValidators.runLmsValidation parseFloat records refRecords
                 selectedProcessingMonth selectedRegion)) ->
  StronglySorted Props.issueBefore (issues r)
  /\ exists found,
       LmsValidators.rawIssues parseFloat (lmsRecord r) = Some found
       /\ Permutation found (issues r).
Proof.
  intros Hr.
  destruct (lms_v2_result_inv _ _ _ _ _ _ Hr)
    as (_ & T & d & l & E & M & _ & Es & El).
  rewrite Es. split; [apply sortIssues_sorted|].
  exists l. split; [|apply sortIssues_perm].
  unfold LmsValidators.rawIssues. rewrite T, E.
  assert ((6 <? getUTCMonth d + 1) = false) as -> by (apply Z.ltb_ge; lia).
  rewrite El. reflexivity.
Qed.

Lemma X10_issues_sorted_witness :
  exists r,
    lmsV2 (LmsValidators.runLmsValidation Samples.noText [Samples.febQuarterly]
             [] "Feb-26" APAC) = [r]
    /\ StronglySorted Props.issueBefore (issues r).
Proof.
  eexists. split; [reflexivity|].
  match goal with
  | |- StronglySorted _ (issues ?r) =>
      exact (proj1 (X10_issues_sorted Samples.noText [Samples.febQuarterly] []
                      "Feb-26" APAC r (or_introl eq_refl)))
  end.
Defined.

Lemma lms_v2Collect_length (parseFloat : string -> number)
  (recs : list LmsQuotaRecord) :
  (List.length (LmsValidators.v2Collect parseFloat recs) <= List.length recs)%nat.
Proof.
  induction recs as [|x recs IH]; simpl; [lia|].
  destruct (LmsValidators.v2Check parseFloat x); simpl; lia.
Qed.

Lemma lms_v2Check_record (parseFloat : string -> number)
  (rec : LmsQuotaRecord) (r : LmsV2Result) :
  LmsValidators.v2Check parseFloat rec = Some r -> lmsRecord r = rec.
Proof.
  unfold LmsValidators.v2Check.
  destruct (LmsValidators.rawIssues parseFloat rec) as [l|]; [|discriminate].
  destruct (0 <? List.length l)%nat; [|discriminate].
  intros H. inversion H. reflexivity.
Qed.

Lemma lms_v2Collect_records (parseFloat : string -> number)
  (recs : list LmsQuotaRecord) :
  map lmsRecord (LmsValidators.v2Collect parseFloat recs)
  = filter (fun rec => Validators.isSome (LmsValidators.v2Check parseFloat rec))
      recs.
Proof.
  induction recs as [|x recs IH]; [reflexivity|]. simpl.
  destruct (LmsValidators.v2Check parseFloat x) as [r|] eqn:E; simpl.
  - rewrite IH, (lms_v2Check_record parseFloat x r E). reflexivity.
  - exact IH.
Qed.

(** X11. The alignment check reports a record only when it examined it.
    The records of the V2 results are a selection of the records that the
    region filter keeps, in their order and each at most once: none is
    reported twice.  When the effective dates of the input are valid
    dates, every V2 result belongs to a kept record whose identifier is
    no placeholder and whose effective date is present with a month of at
    most 6, and it lists at least one issue. *)
Theorem X11_alignment_reports_examined_records
  (parseFloat : string -> number)
  (records : list LmsQuotaRecord) (refRecords : list ReferenceRecord)
  (selectedProcessingMonth : string) (selectedRegion : Region) :
  (forall rec d, In rec records -> quotaEffectiveDate rec = Some d ->
                 Props.validMonth d) ->
  let run := LmsValidators.runLmsValidation parseFloat records refRecords
               selectedProcessingMonth selectedRegion in
  (exists reported : LmsQuotaRecord -> bool,
     map lmsRecord (lmsV2 run)
     = filter reported (map lmsV1Record (lmsV1 run)))
  /\ forall r, In r (lmsV2 run) ->
       In (lmsRecord r) records
       /\ In (lmsRecord r) (map lmsV1Record (lmsV1 run))
       /\ LmsValidators.isTbhOrBlank (employeeId (lmsRecord r)) = false
       /\ issues r <> []
       /\ exists d, quotaEffectiveDate (lmsRecord r) = Some d
                    /\ 0 <= getUTCMonth d /\ getUTCMonth d + 1 <= 6.
Proof.
  intros Valid run. split.
  - exists (fun rec => Validators.isSome (LmsValidators.v2Check parseFloat rec)).
    subst run. rewrite runLms_records.
    cbn [LmsValidators.runLmsValidation lmsV2].
    apply lms_v2Collect_records.
  - intros r Hr.
    destruct (lms_v2_result_inv parseFloat records refRecords
                selectedProcessingMonth selectedRegion r Hr)
      as (K & T & d & l & E & M & NE & Es & _).
    assert (In (lmsRecord r) records) as Hin.
    { unfold LmsValidators.filteredRecords in K. apply filter_In in K. tauto. }
    split; [exact Hin|].
    split; [subst run; rewrite runLms_records; exact K|].
    split; [exact T|]. split.
    + rewrite Es. intros Z. apply NE.
      pose proof (sortIssues_perm l) as Pm. rewrite Z in Pm.
      apply Permutation_nil. symmetry. exact Pm.
    + exists d. split; [exact E|]. split; [|exact M].
      apply (Valid _ _ Hin E).
Qed.

(** ** The LMS run: summary and placeholders *)

Lemma countLmsStatus_total (l : list LmsV1Result) :
  (LmsValidators.countLmsStatus pass l + LmsValidators.countLmsStatus fail l
   + LmsValidators.countLmsStatus skip l = List.length l)%nat.
Proof.
  unfold LmsValidators.countLmsStatus.
  induction l as [|r l IH]; [reflexivity|].
  simpl. destruct (lmsStatus r); simpl; lia.
Qed.

Lemma lms_v3Collect_length (parseFloat : string -> number) refMap key
  (recs : list LmsQuotaRecord) :
  (List.length (LmsValidators.v3Collect parseFloat refMap key recs)
   <= List.length recs)%nat.
Proof.
  induction recs as [|x recs IH]; simpl; [lia|].
  destruct (LmsValidators.v3Check parseFloat refMap key x); simpl; lia.
Qed.

(** X12. The summary of an LMS run agrees with its result lists: the
    three V1 counters add up to the total, which is the number of records
    the region filter kept and the number of V1 results; the other two
    counters are the lengths of the V2 and V3 lists, neither larger than
    the total. *)
Theorem X12_lms_summary_consistent
  (parseFloat : string -> number)
  (records : list LmsQuotaRecord) (refRecords : list ReferenceRecord)
  (selectedProcessingMonth : string) (selectedRegion : Region) :
  let run := LmsValidators.runLmsValidation parseFloat records refRecords
               selectedProcessingMonth selectedRegion in
  let s := lmsSummary run in
  (lmsV1Pass s + lmsV1Fail s + lmsV1Skip s = lmsTotalRecords s)%nat
  /\ lmsTotalRecords s = List.length (lmsV1 run)
  /\ lmsTotalRecords s
     = List.length (LmsValidators.filteredRecords records refRecords
                      selectedRegion)
  /\ v2AlignmentIssues s = List.length (lmsV2 run)
  /\ v3OnLeaveWithQuota s = List.length (lmsV3 run)
  /\ (v2AlignmentIssues s <= lmsTotalRecords s)%nat
  /\ (v3OnLeaveWithQuota s <= lmsTotalRecords s)%nat.
Proof.
  intros run s. subst s run.
  cbn [LmsValidators.runLmsValidation lmsSummary lmsV1 lmsV2 lmsV3 lmsV1Pass
         lmsV1Fail lmsV1Skip lmsTotalRecords v2AlignmentIssues
         v3OnLeaveWithQuota].
  rewrite countLmsStatus_total, length_map.
  repeat split; auto using lms_v2Collect_length, lms_v3Collect_length.
Qed.

(** X13. A record with a placeholder identifier is always kept by the LMS
    region filter, whatever its geography code, the roster and the
    selected region; it gets the V1 verdict skip and is never part of a
    V2 or V3 result. *)
Theorem X13_lms_placeholders
  (parseFloat : string -> number)
  (records : list LmsQuotaRecord) (refRecords : list ReferenceRecord)
  (selectedProcessingMonth : string) (selectedRegion : Region)
  (rec : LmsQuotaRecord) :
  In rec records ->
  LmsValidators.isTbhOrBlank (employeeId rec) = true ->
  let run := LmsValidators.runLmsValidation parseFloat records refRecords
               selectedProcessingMonth selectedRegion in
  In (mkLmsV1 rec skip "TBH / Blank EID" None) (lmsV1 run)
  /\ (forall r, In r (lmsV1 run) -> lmsV1Record r = rec ->
        r = mkLmsV1 rec skip "TBH / Blank EID" None)
  /\ (forall r, In r (lmsV2 run) -> lmsRecord r <> rec)
  /\ (forall r, In r (lmsV3 run) -> lmsV3Record r <> rec).
Proof.
  intros Hin T run. subst run.
  cbn [LmsValidators.runLmsValidation lmsV1 lmsV2 lmsV3].
  assert (forall refMap vc,
            LmsValidators.v1Check refMap vc selectedRegion rec
            = mkLmsV1 rec skip "TBH / Blank EID" None) as V1.
  { intros. unfold LmsValidators.v1Check. rewrite T. reflexivity. }
  split; [|split; [|split]].
  - apply in_map_iff. exists rec. split; [apply V1|].
    unfold LmsValidators.filteredRecords. apply filter_In. split; [exact Hin|].
    unfold LmsValidators.regionFilter. rewrite T. reflexivity.
  - intros r Hr E. apply in_map_iff in Hr as (rec' & <- & _).
    rewrite lms_v1Check_record in E. subst rec'. apply V1.
  - intros r Hr E.
    destruct (lms_v2_result_inv parseFloat records refRecords
                selectedProcessingMonth selectedRegion r Hr) as (_ & T' & _).
    rewrite E in T'. congruence.
  - intros r Hr E. revert Hr.
    generalize (LmsValidators.filteredRecords records refRecords selectedRegion).
    intros l. induction l as [|x l IH]; simpl; [contradiction|].
    destruct (LmsValidators.v3Check parseFloat _ _ x) as [rx|] eqn:C; [|exact IH].
    intros [<-|H]; [|exact (IH H)].
    unfold LmsValidators.v3Check in C.
    destruct (LmsValidators.isTbhOrBlank (employeeId x)) eqn:Tx; [discriminate|].
    assert (lmsV3Record rx = x) as Rx.
    { destruct (JsMap.get _ _) as [[|? ?]|]; try discriminate.
      destruct (find _ _); [|discriminate].
      destruct (LmsValidators.monthOfKey _); [|discriminate].
      match type of C with
      | (if ?c then _ else _) = _ => destruct c; [|discriminate]
      end.
      inversion C. reflexivity. }
    congruence.
Qed.

Lemma X13_lms_placeholders_witness :
  In (mkLmsV1
        (Samples.lmsRow "TBH-9" "NAMER" "Non-SA" "Semi" None
           Samples.blankLmsQuotas Samples.blankLmsQuotas)
        skip "TBH / Blank EID" None)
     (lmsV1 (LmsValidators.runLmsValidation Samples.noText
               [Samples.lmsRow "TBH-9" "NAMER" "Non-SA" "Semi" None
                  Samples.blankLmsQuotas Samples.blankLmsQuotas]
               [] "Feb-26" APAC)).
Proof.
  apply (X13_lms_placeholders Samples.noText
           [Samples.lmsRow "TBH-9" "NAMER" "Non-SA" "Semi" None
              Samples.blankLmsQuotas Samples.blankLmsQuotas]
           [] "Feb-26" APAC).
  - left. reflexivity.
  - reflexivity.
Defined.

Lemma X11_alignment_reports_examined_records_witness :
  Forall (fun r => lmsRecord r = Samples.febQuarterly)
    (lmsV2 (LmsValidators.runLmsValidation Samples.noText
              [Samples.febQuarterly; Samples.novSemi] [] "Feb-26" APAC)).
Proof.
  apply Forall_forall. intros r Hr.
  assert (forall rec d, In rec [Samples.febQuarterly; Samples.novSemi] ->
                        quotaEffectiveDate rec = Some d ->
                        Props.validMonth d) as Valid.
  { intros rec d [<-|[<-|[]]] E; inversion E; subst d;
      unfold Props.validMonth; simpl; lia. }
  destruct (X11_alignment_reports_examined_records Samples.noText
              [Samples.febQuarterly; Samples.novSemi] [] "Feb-26" APAC Valid)
    as [_ H].
  destruct (H r Hr) as ([E|[E|[]]] & _ & _ & _ & d & Ed & _ & M); [auto|].
  rewrite <- E in Ed. inversion Ed; subst d. simpl in M. lia.
Defined.

(** ** The LMS on-leave check *)

Lemma lms_v3Check_inv (parseFloat : string -> number)
  (refRecords : list ReferenceRecord) (key : string)
  (rec : LmsQuotaRecord) (r : LmsV3Result) :
  LmsValidators.v3Check parseFloat (Validators.buildRefMap refRecords) key rec
  = Some r ->
  lmsV3Record r = rec
  /\ LmsValidators.isTbhOrBlank (employeeId rec) = false
  /\ monthName (processingMonth r) = key
  /\ (exists ref,
        find Props.activeOnLeave (Spec.rosterEntries refRecords (employeeId rec))
        = Some ref
        /\ lmsV3RefInfo r = Validators.refInfoOf ref)
  /\ quotaColumnsWithValues r <> []
  /\ forall cv, In cv (quotaColumnsWithValues r) ->
       LmsValidators.hasPositiveAmount parseFloat (cvValue cv) = true
       /\ exists s, Spec.streamChecked rec s
                    /\ cvColumn cv = Spec.streamColumn s (processingMonth r)
                    /\ cvValue cv = Spec.streamCell rec s (processingMonth r).
Proof.
  unfold LmsValidators.v3Check. rewrite buildRefMap_get.
  destruct (LmsValidators.isTbhOrBlank (employeeId rec)); [discriminate|].
  destruct (Spec.rosterEntries refRecords (employeeId rec)) as [|e0 es] eqn:En;
    [discriminate|].
  fold Props.activeOnLeave.
  change (fun ref : ReferenceRecord =>
            strictEq (activeStatus ref) "Yes" && strictEq (onLeave ref) "Yes")
    with Props.activeOnLeave.
  destruct (find Props.activeOnLeave (e0 :: es)) as [ref|] eqn:F; [|discriminate].
  destruct (LmsValidators.monthOfKey key) as [mo|] eqn:K; [|discriminate].
  cbv zeta.
  match goal with
  | |- (if (0 <? List.length ?c)%nat then _ else _) = _ -> _ =>
      remember c as cols eqn:Ec; destruct cols as [|c0 cs]; [discriminate|]
  end.
  intros H. inversion H; subst r; clear H.
  cbn [lmsV3Record processingMonth lmsV3RefInfo quotaColumnsWithValues].
  split; [reflexivity|]. split; [reflexivity|]. split.
  { unfold LmsValidators.monthOfKey in K. apply find_some in K as [_ K].
    apply String.eqb_eq in K. exact K. }
  split; [eauto|]. split; [discriminate|].
  intros cv Hcv. rewrite Ec in Hcv. clear Ec.
  apply in_app_or in Hcv as [Hcv|Hcv].
  - destruct (_ || _ || _)%bool eqn:C; [|contradiction]. simpl in Hcv.
    destruct (LmsValidators.hasPositiveAmount parseFloat _) eqn:Pos;
      [|contradiction].
    destruct Hcv as [<-|[]]. simpl. split; [exact Pos|].
    exists Spec.Rev1. split; [|split; reflexivity]. simpl.
    apply orb_true_iff in C as [C|C]; [apply orb_true_iff in C as [C|C]|];
      apply String.eqb_eq in C; auto.
  - destruct (_ || _)%bool eqn:C; [|contradiction]. simpl in Hcv.
    destruct (LmsValidators.hasPositiveAmount parseFloat _) eqn:Pos;
      [|contradiction].
    destruct Hcv as [<-|[]]. simpl. split; [exact Pos|].
    exists Spec.Rev2. split; [|split; reflexivity]. simpl.
    apply orb_true_iff in C as [C|C]; apply String.eqb_eq in C; auto.
Qed.

Lemma lms_v3Collect_In (parseFloat : string -> number) refMap key
  (recs : list LmsQuotaRecord) (r : LmsV3Result) :
  In r (LmsValidators.v3Collect parseFloat refMap key recs)
  -> exists rec, In rec recs
                 /\ LmsValidators.v3Check parseFloat refMap key rec = Some r.
Proof.
  induction recs as [|x recs IH]; simpl; [contradiction|].
  destruct (LmsValidators.v3Check parseFloat refMap key x) as [rx|] eqn:E.
  - intros [<-|H]; [eauto|]. destruct (IH H) as (rec & ? & ?). eauto.
  - intros H. destruct (IH H) as (rec & ? & ?). eauto.
Qed.

(** X14. The on-leave check reports nothing at all when the month part of
    the processing label, in upper case, is none of JAN to JUN (a label
    of July to December, for one).  Every result it does report is for a
    kept record with a proper identifier whose roster entries include one
    with active status Yes and on-leave Yes, the first such entry being
    the evidence; it names the processing month and lists at least one
    column, each a checked stream of that month with a positive value. *)
Theorem X14_on_leave_with_quota
  (parseFloat : string -> number)
  (records : list LmsQuotaRecord) (refRecords : list ReferenceRecord)
  (selectedProcessingMonth : string) (selectedRegion : Region) :
  let run := LmsValidators.runLmsValidation parseFloat records refRecords
               selectedProcessingMonth selectedRegion in
  let key := toUpperCase (LmsValidators.beforeHyphen selectedProcessingMonth) in
  ((forall m, monthName m <> key) -> lmsV3 run = [])
  /\ forall r, In r (lmsV3 run) ->
       In (lmsV3Record r)
          (LmsValidators.filteredRecords records refRecords selectedRegion)
       /\ LmsValidators.isTbhOrBlank (employeeId (lmsV3Record r)) = false
       /\ monthName (processingMonth r) = key
       /\ (exists ref,
             find Props.activeOnLeave
               (Spec.rosterEntries refRecords (employeeId (lmsV3Record r)))
             = Some ref
             /\ lmsV3RefInfo r = Validators.refInfoOf ref)
       /\ quotaColumnsWithValues r <> []
       /\ forall cv, In cv (quotaColumnsWithValues r) ->
            LmsValidators.hasPositiveAmount parseFloat (cvValue cv) = true
            /\ exists s,
                 Spec.streamChecked (lmsV3Record r) s
                 /\ cvColumn cv = Spec.streamColumn s (processingMonth r)
                 /\ cvValue cv = Spec.streamCell (lmsV3Record r) s
                                   (processingMonth r).
Proof.
  intros run key.
  assert (forall r, In r (lmsV3 run) ->
            exists rec,
              In rec (LmsValidators.filteredRecords records refRecords
                        selectedRegion)
              /\ LmsValidators.v3Check parseFloat
                   (Validators.buildRefMap refRecords) key rec = Some r) as Inv.
  { intros r Hr. subst run. cbn [LmsValidators.runLmsValidation lmsV3] in Hr.
    apply lms_v3Collect_In in Hr. exact Hr. }
  split.
  - intros No. destruct (lmsV3 run) as [|r l] eqn:E; [reflexivity|].
    destruct (Inv r (or_introl eq_refl)) as (rec & _ & C).
    apply lms_v3Check_inv in C as (_ & _ & K & _).
    exfalso. exact (No _ K).
  - intros r Hr. destruct (Inv r Hr) as (rec & Hin & C).
    apply lms_v3Check_inv in C as (R & T & K & Ev & NE & Cols).
    subst rec. auto 10.
Qed.

Lemma X14_on_leave_with_quota_witness :
  lmsV3 (LmsValidators.runLmsValidation Samples.noText
           [Samples.lmsRow "E9" "APAC" "Non-SA" "Semi" (Some Samples.jan2026)
              (mkLmsMonthly (Samples.num 5) (Samples.num 5) (Samples.num 5)
                 (Samples.num 5) (Samples.num 5) (Samples.num 5))
              Samples.blankLmsQuotas]
           [Samples.rosterRow "E9" (Some "Yes") (Some "Yes") (Some "Japan")]
           "Jul-25" APAC)
  = [].
Proof.
  pose proof (X14_on_leave_with_quota Samples.noText
           [Samples.lmsRow "E9" "APAC" "Non-SA" "Semi" (Some Samples.jan2026)
              (mkLmsMonthly (Samples.num 5) (Samples.num 5) (Samples.num 5)
                 (Samples.num 5) (Samples.num 5) (Samples.num 5))
              Samples.blankLmsQuotas]
           [Samples.rosterRow "E9" (Some "Yes") (Some "Yes") (Some "Japan")]
           "Jul-25" APAC) as H.
  cbv zeta in H. destruct H as [H _]. refine (H _).
  intros m E. destruct m; vm_compute in E; discriminate E.
Defined.

(** ** The region resolver beyond the roster match *)

Lemma lookup_countries (c : string) (r : Region) :
  lookup COUNTRY_REGION_MAP c = Some r -> In c (getCountriesForRegion r).
Proof.
  unfold getCountriesForRegion.
  induction COUNTRY_REGION_MAP as [|[k v] tbl IH]; simpl; [discriminate|].
  destruct (k =? c)%string eqn:E.
  - intros H. inversion H; subst v. apply String.eqb_eq in E. subst k.
    assert (Region_eqb r r = true) as -> by (destruct r; reflexivity).
    left. reflexivity.
  - intros H. destruct (Region_eqb v r); [right|]; apply IH, H.
Qed.

Lemma find_countryMatches_none (validCountries : list string)
  (refs : list ReferenceRecord) :
  ~ (exists ref c, In ref refs /\ country ref = Some c /\ In c validCountries) ->
  find (OverlayValidators.countryMatches validCountries) refs = None.
Proof.
  intros N. destruct (find _ refs) as [m|] eqn:F; [|reflexivity].
  exfalso. apply N. apply find_some in F as [Hin C].
  unfold OverlayValidators.countryMatches in C.
  destruct (country m) as [c|] eqn:Ec; [|discriminate].
  exists m, c. repeat split; auto. rewrite setHas_In in C.
  destruct (in_dec string_dec c validCountries); [assumption | discriminate].
Qed.

(** X15. When the identifier is no placeholder, no roster entry of it
    lies in the selected region, and the country of its first roster
    entry is one the country table knows, the record is excluded with the
    tag [scr] and a comment naming that country and its region, which is
    never the selected one; the region hint of the record is not
    consulted, even when it names the selected region. *)
Theorem X15_roster_mismatch_excludes
  (rec : QuotaRecord) (refRecords : list ReferenceRecord)
  (selectedRegion : Region) (first : ReferenceRecord)
  (others : list ReferenceRecord) (c : string) (r : Region) :
  OverlayValidators.isTbhOrBlank (eid rec) = false ->
  Spec.rosterEntries refRecords (eid rec) = first :: others ->
  ~ Spec.rosterCountryMatch refRecords (eid rec)
      (getCountriesForRegion selectedRegion) ->
  country first = Some c ->
  lookup COUNTRY_REGION_MAP c = Some r ->
  r <> selectedRegion
  /\ forall hint,
       OverlayValidators.resolveRegion (Spec.withRepRegion rec hint)
         (Validators.buildRefMap refRecords)
         (getCountriesForRegion selectedRegion) selectedRegion
       = OverlayValidators.mkResolved false
           (OverlayValidators.mkInfo OverlayValidators.scr
              ("SCR Country " ++ dq ++ c ++ dq ++ " belongs to "
               ++ regionName r ++ ", not " ++ regionName selectedRegion)%string).
Proof.
  intros T E N Hc L.
  assert (r <> selectedRegion) as Ne.
  { intros ->. apply N. exists first, c. rewrite E.
    repeat split; [left; reflexivity | exact Hc | apply lookup_countries, L]. }
  split; [exact Ne|]. intros hint.
  unfold OverlayValidators.resolveRegion. cbn [Spec.withRepRegion eid].
  rewrite T, buildRefMap_get, E. unfold OverlayValidators.scrLookup.
  rewrite find_countryMatches_none by (rewrite <- E; exact N).
  rewrite Hc. cbn [orElse].
  assert (truthy (Some c) = true) as ->.
  { unfold truthy. destruct (c =? "")%string eqn:Ec; [|reflexivity].
    apply String.eqb_eq in Ec. subst c. vm_compute in L. discriminate. }
  rewrite L.
  assert (Region_eqb r selectedRegion = false) as ->
    by (destruct r, selectedRegion; try reflexivity; congruence).
  reflexivity.
Qed.

Lemma X15_roster_mismatch_excludes_witness :
  OverlayValidators.included
    (OverlayValidators.resolveRegion
       (Spec.withRepRegion Samples.e1Record "NAMER")
       (Validators.buildRefMap [Samples.e1Roster])
       (getCountriesForRegion NAMER) NAMER)
  = false.
Proof.
  assert (~ Spec.rosterCountryMatch [Samples.e1Roster] (eid Samples.e1Record)
              (getCountriesForRegion NAMER)) as N.
  { intros (ref & c & [<-|[]] & Hc & Hin). inversion Hc; subst c.
    simpl in Hin. destruct Hin as [H|[H|[]]]; discriminate. }
  destruct (X15_roster_mismatch_excludes Samples.e1Record [Samples.e1Roster]
              NAMER Samples.e1Roster [] "Japan" APAC
              eq_refl eq_refl N eq_refl eq_refl) as [_ H].
  rewrite H. reflexivity.
Defined.

Lemma scrLookup_no_signal (refRecords : list ReferenceRecord) (id : string)
  (selectedRegion : Region) :
  Props.noRosterSignal refRecords id (getCountriesForRegion selectedRegion) ->
  OverlayValidators.scrLookup
    (JsMap.get (Validators.buildRefMap refRecords) id)
    (getCountriesForRegion selectedRegion) selectedRegion
  = None.
Proof.
  intros [N F]. rewrite buildRefMap_get.
  destruct (Spec.rosterEntries refRecords id) as [|first others] eqn:E;
    [reflexivity|].
  unfold OverlayValidators.scrLookup.
  rewrite find_countryMatches_none by (rewrite <- E; exact N).
  destruct (country first) as [c|]; [|reflexivity].
  unfold truthy. cbn [orElse].
  destruct F as [->|[F _]]; [reflexivity|].
  rewrite F. destruct (negb _); reflexivity.
Qed.

(** X16. When the identifier is no placeholder and the roster gives no
    usable signal (no entry at all, or none in the region and a first
    entry whose country is blank or unknown to the country table, even if
    a later entry names another region), the outcome rests on the region
    hint alone: a hint that the segment table or, for two characters, the
    country-code table knows includes the record exactly when it names
    the selected region, with the tag of that table; any other hint
    includes the record with the tag [unknown].  The hint is ASCII text,
    on which trimming and upper case mean the same to the model and to
    JavaScript, and unknown to the country table excludes the names of
    the members that every object inherits, which the table, an object
    literal, would answer. *)
Theorem X16_hint_fallback
  (rec : QuotaRecord) (refRecords : list ReferenceRecord)
  (selectedRegion : Region) :
  OverlayValidators.isTbhOrBlank (eid rec) = false ->
  Props.asciiText (repRegion rec) = true ->
  Props.noRosterSignal refRecords (eid rec)
    (getCountriesForRegion selectedRegion) ->
  let res := OverlayValidators.resolveRegion rec
               (Validators.buildRefMap refRecords)
               (getCountriesForRegion selectedRegion) selectedRegion in
  match Props.hintRegion (repRegion rec) with
  | Some (tag, r) =>
      OverlayValidators.matchType (OverlayValidators.info res) = tag
      /\ (OverlayValidators.included res = true <-> r = selectedRegion)
  | None =>
      OverlayValidators.matchType (OverlayValidators.info res)
      = OverlayValidators.unknown
      /\ OverlayValidators.included res = true
  end.
Proof.
  intros T _ S res. subst res. unfold OverlayValidators.resolveRegion.
  rewrite T, (scrLookup_no_signal _ _ _ S).
  unfold OverlayValidators.segmentLookup, Props.hintRegion. cbv zeta.
  destruct (lookup MARKET_SEGMENT_REGION_MAP _) as [r|].
  - destruct (Region_eqb r selectedRegion) eqn:E; simpl; split; auto.
    + apply Region_eqb_eq in E. tauto.
    + split; [discriminate|]. intros ->.
      destruct selectedRegion; discriminate.
  - destruct (String.length _ =? 2)%nat; [|simpl; auto].
    destruct (lookup COUNTRY_CODE_REGION_MAP _) as [r|]; [|simpl; auto].
    destruct (Region_eqb r selectedRegion) eqn:E; simpl; split; auto.
    + apply Region_eqb_eq in E. tauto.
    + split; [discriminate|]. intros ->.
      destruct selectedRegion; discriminate.
Qed.

Lemma X16_hint_fallback_witness :
  OverlayValidators.included
    (OverlayValidators.resolveRegion
       (Spec.withRepRegion Samples.e1Record " latam ")
       (Validators.buildRefMap []) (getCountriesForRegion EMEAL) EMEAL)
  = true.
Proof.
  assert (Props.noRosterSignal []
            (eid (Spec.withRepRegion Samples.e1Record " latam "))
            (getCountriesForRegion EMEAL)) as S.
  { split; [|exact I]. intros (ref & c & [] & _). }
  pose proof (X16_hint_fallback (Spec.withRepRegion Samples.e1Record " latam ")
                [] EMEAL eq_refl eq_refl S) as H.
  simpl in H. apply H. reflexivity.
Defined.

(** ** [runOverlayValidation] *)

Lemma filter_comm {A : Type} (f g : A -> bool) (l : list A) :
  filter f (filter g l) = filter g (filter f l).
Proof.
  induction l as [|x l IH]; [reflexivity|]. simpl.
  destruct (f x) eqn:F, (g x) eqn:G; simpl; rewrite ?F, ?G, IH; reflexivity.
Qed.

Lemma overlay_v1Check_base refMap validCountries selectedRegion rec :
  OverlayRun.ov1Base (OverlayRun.v1Check refMap validCountries selectedRegion rec)
  = Validators.v1Check refMap validCountries selectedRegion rec.
Proof.
  unfold OverlayRun.v1Check, Validators.v1Check,
    OverlayValidators.isTbhOrBlank. cbv zeta.
  destruct (Validators.isTbhOrBlank (eid rec)); [reflexivity|].
  destruct (JsMap.get refMap (eid rec)) as [[|r rs]|]; try reflexivity.
  cbn [OverlayRun.ov1Base].
  destruct (Validators.foundValid _); reflexivity.
Qed.

Lemma overlay_v2Collect_base refMap validCountries selectedRegion entries :
  map OverlayRun.ov2Base
    (OverlayRun.v2Collect refMap validCountries selectedRegion entries)
  = Validators.v2Collect entries.
Proof.
  induction entries as [|[e recs] l IH]; [reflexivity|]. simpl.
  destruct (1 <? List.length recs)%nat; simpl; rewrite IH; reflexivity.
Qed.

Lemma overlay_v3Collect_base refMap validCountries selectedRegion parsed recs :
  map OverlayRun.ov3Base
    (OverlayRun.v3Collect refMap validCountries selectedRegion parsed recs)
  = Validators.v3Collect parsed recs.
Proof.
  induction recs as [|rec l IH]; [reflexivity|]. simpl.
  destruct (Validators.v3Check parsed rec); simpl; rewrite IH; reflexivity.
Qed.

Lemma overlay_countStatus (s : ValidationStatus)
  (l : list OverlayRun.OverlayV1Result) :
  OverlayRun.countStatus s l = Validators.countStatus s (map OverlayRun.ov1Base l).
Proof.
  unfold OverlayRun.countStatus, Validators.countStatus.
  induction l as [|r l IH]; [reflexivity|]. simpl.
  destruct (ValidationStatus_eqb _ s); simpl; congruence.
Qed.

(** X17. An overlay run is the plain run on the records the region
    resolver includes: with the region information set aside, its V1, V2
    and V3 lists and its summary are those of [runValidation] applied to
    the included records, and it throws the invalid-month error exactly
    when the plain run does. *)
Theorem X17_overlay_is_plain_run_on_included
  (allRecords : list QuotaRecord) (refRecords : list ReferenceRecord)
  (selectedMonth : string) (selectedRegion : Region) :
  let keep :=
    OverlayRun.includedBy (Validators.buildRefMap refRecords)
      (getCountriesForRegion selectedRegion) selectedRegion in
  match OverlayRun.runOverlayValidation allRecords refRecords selectedMonth
          selectedRegion with
  | inr ores =>
      Validators.runValidation (filter keep allRecords) refRecords
        selectedMonth selectedRegion
      = Ok (mkResults (map OverlayRun.ov1Base (OverlayRun.ov1 ores))
              (map OverlayRun.ov2Base (OverlayRun.ov2 ores))
              (map OverlayRun.ov3Base (OverlayRun.ov3 ores))
              (OverlayRun.osummary ores))
  | inl e =>
      Validators.runValidation allRecords refRecords selectedMonth
        selectedRegion = inl e
      /\ e = JsError (Validators.invalidMonthMessage selectedMonth)
  end.
Proof.
  intros keep.
  unfold OverlayRun.runOverlayValidation, Validators.runValidation.
  destruct (parseSubmissionMonthLabel selectedMonth) as [parsed|];
    [|split; reflexivity].
  cbv zeta. unfold Ok. f_equal.
  cbn [OverlayRun.ov1 OverlayRun.ov2 OverlayRun.ov3 OverlayRun.osummary].
  unfold Validators.targetRecords. rewrite (filter_comm _ keep).
  fold keep.
  set (kept := filter keep (filter (Validators.inPeriod parsed) allRecords)).
  rewrite !overlay_countStatus, overlay_v2Collect_base, overlay_v3Collect_base.
  assert (map OverlayRun.ov1Base
            (map (OverlayRun.v1Check (Validators.buildRefMap refRecords)
                    (getCountriesForRegion selectedRegion) selectedRegion) kept)
          = map (Validators.v1Check (Validators.buildRefMap refRecords)
                   (getCountriesForRegion selectedRegion) selectedRegion) kept)
    as ->.
  { rewrite map_map. apply map_ext. intros rec. apply overlay_v1Check_base. }
  assert (forall l, List.length (Validators.v2Collect l)
                    = List.length (OverlayRun.v2Collect
                                     (Validators.buildRefMap refRecords)
                                     (getCountriesForRegion selectedRegion)
                                     selectedRegion l)) as L2.
  { intros l. rewrite <- (overlay_v2Collect_base
                            (Validators.buildRefMap refRecords)
                            (getCountriesForRegion selectedRegion)
                            selectedRegion l).
    apply length_map. }
  assert (forall l, List.length (Validators.v3Collect parsed l)
                    = List.length (OverlayRun.v3Collect
                                     (Validators.buildRefMap refRecords)
                                     (getCountriesForRegion selectedRegion)
                                     selectedRegion parsed l)) as L3.
  { intros l. rewrite <- (overlay_v3Collect_base
                            (Validators.buildRefMap refRecords)
                            (getCountriesForRegion selectedRegion)
                            selectedRegion parsed l).
    apply length_map. }
  rewrite <- L2, <- L3. reflexivity.
Qed.

Lemma overlay_v3Collect_In refMap validCountries selectedRegion parsed recs r :
  In r (OverlayRun.v3Collect refMap validCountries selectedRegion parsed recs) ->
  exists rec, In rec recs
              /\ Validators.v3Check parsed rec = Some (OverlayRun.ov3Base r)
              /\ OverlayRun.ov3RegionInfo r
                 = OverlayRun.regionInfoOf refMap validCountries selectedRegion rec.
Proof.
  induction recs as [|x l IH]; simpl; [contradiction|].
  destruct (Validators.v3Check parsed x) as [rx|] eqn:E.
  - intros [<-|H]; [exists x; auto|].
    destruct (IH H) as (rec & ? & ? & ?). exists rec. auto.
  - intros H. destruct (IH H) as (rec & ? & ? & ?). exists rec. auto.
Qed.

(** X18. Every V1 and V3 result of an overlay run belongs to a record of
    the selected period that the resolver includes, and carries exactly
    the match type and comment that the resolver gives for that record;
    the total of the summary counts the included records of the period. *)
Theorem X18_overlay_region_info
  (allRecords : list QuotaRecord) (refRecords : list ReferenceRecord)
  (selectedMonth : string) (selectedRegion : Region)
  (ores : OverlayRun.OverlayValidationResults) (parsed : ParsedLabel) :
  OverlayRun.runOverlayValidation allRecords refRecords selectedMonth
    selectedRegion = Ok ores ->
  parseSubmissionMonthLabel selectedMonth = Some parsed ->
  let resolve rec :=
    OverlayValidators.resolveRegion rec (Validators.buildRefMap refRecords)
      (getCountriesForRegion selectedRegion) selectedRegion in
  let kept :=
    filter (fun rec => OverlayValidators.included (resolve rec))
      (Validators.targetRecords allRecords parsed) in
  map (fun r => v1Record (OverlayRun.ov1Base r)) (OverlayRun.ov1 ores) = kept
  /\ totalRecords (OverlayRun.osummary ores) = List.length kept
  /\ (forall r, In r (OverlayRun.ov1 ores) ->
        OverlayRun.ov1RegionInfo r
        = OverlayValidators.info (resolve (v1Record (OverlayRun.ov1Base r))))
  /\ (forall r, In r (OverlayRun.ov3 ores) ->
        In (v3Record (OverlayRun.ov3Base r)) kept
        /\ OverlayRun.ov3RegionInfo r
           = OverlayValidators.info (resolve (v3Record (OverlayRun.ov3Base r)))).
Proof.
  intros Run P resolve kept.
  unfold OverlayRun.runOverlayValidation in Run. rewrite P in Run.
  inversion Run; subst ores; clear Run.
  cbn [OverlayRun.ov1 OverlayRun.ov3 OverlayRun.osummary totalRecords].
  change (filter (OverlayRun.includedBy (Validators.buildRefMap refRecords)
                    (getCountriesForRegion selectedRegion) selectedRegion)
            (Validators.targetRecords allRecords parsed)) with kept.
  split; [|split; [reflexivity|split]].
  - rewrite map_map. erewrite map_ext; [apply map_id|].
    intros rec. cbv beta. rewrite overlay_v1Check_base. apply v1Check_record.
  - intros r Hr. apply in_map_iff in Hr as (rec & <- & _).
    rewrite overlay_v1Check_base, v1Check_record.
    unfold OverlayRun.v1Check. cbv zeta.
    destruct (OverlayValidators.isTbhOrBlank (eid rec)); [reflexivity|].
    destruct (JsMap.get _ (eid rec)) as [[|? ?]|]; reflexivity.
  - intros r Hr. apply overlay_v3Collect_In in Hr as (rec & Hin & C & I).
    apply v3Check_record in C. rewrite C. split; [exact Hin | exact I].
Qed.

Lemma X18_overlay_region_info_witness :
  map (fun r => v1Record (OverlayRun.ov1Base r))
    (OverlayRun.ov1
       match OverlayRun.runOverlayValidation
               [Samples.e1Record; Samples.tbhRecord] [Samples.e1Roster]
               "Jan-26" NAMER with
       | inr ores => ores
       | inl _ => OverlayRun.mkOResults [] [] [] (mkSummary 0 0 0 0 0 0)
       end)
  = [Samples.tbhRecord].
Proof.
  destruct (X18_overlay_region_info [Samples.e1Record; Samples.tbhRecord]
              [Samples.e1Roster] "Jan-26" NAMER
              match OverlayRun.runOverlayValidation
                      [Samples.e1Record; Samples.tbhRecord] [Samples.e1Roster]
                      "Jan-26" NAMER with
              | inr ores => ores
              | inl _ => OverlayRun.mkOResults [] [] [] (mkSummary 0 0 0 0 0 0)
              end
              (mkParsed 2026 1) eq_refl eq_refl) as [H _].
  rewrite H. reflexivity.
Defined.

(** ** Period labels: formatting and parsing *)

Example intToString_cases :
  map JsNumber.intToString [0; 7; 10; 2026; -5; 1000000]
  = ["0"; "7"; "10"; "2026"; "-5"; "1000000"].
Proof. reflexivity. Qed.

Example format_cases :
  map SubmissionMonth.formatSubmissionMonth
    [mkDate 2026 0; mkDate 2025 11; mkDate 1999 6]
  = ["Jan-26"; "Dec-25"; "Jul-99"].
Proof. reflexivity. Qed.

Example generate_march :
  LmsExcelParser.generateLmsProcessingMonths 2026 3
  = ["Jul-25"; "Aug-25"; "Sep-25"; "Oct-25"; "Nov-25"; "Dec-25";
     "Jan-26"; "Feb-26"; "Mar-26"].
Proof. reflexivity. Qed.

Lemma digitChar_spec (k : Z) :
  0 <= k <= 9 ->
  isDigit (JsNumber.digitChar k) = true /\ digitValue (JsNumber.digitChar k) = k.
Proof.
  intros H.
  assert (k = 0 \/ k = 1 \/ k = 2 \/ k = 3 \/ k = 4 \/ k = 5 \/ k = 6 \/ k = 7
          \/ k = 8 \/ k = 9) as C by lia.
  repeat (destruct C as [->|C]; [split; reflexivity|]). subst. split; reflexivity.
Qed.

Lemma digitChar_digitValue (c : ascii) :
  isDigit c = true -> JsNumber.digitChar (digitValue c) = c.
Proof.
  intros H. apply Ascii.eqb_eq. revert H.
  generalize (forall_ascii
    (fun c => implb (isDigit c)
                (JsNumber.digitChar (digitValue c) =? c)%char) eq_refl c).
  intros G H. rewrite H in G. exact G.
Qed.

Lemma string_app_assoc (a b c : string) :
  ((a ++ b) ++ c = a ++ (b ++ c))%string.
Proof. induction a as [|x a IH]; simpl; [reflexivity|]. rewrite IH. reflexivity. Qed.

Lemma string_app_length (a b : string) :
  String.length (a ++ b) = (String.length a + String.length b)%nat.
Proof. induction a as [|x a IH]; simpl; [reflexivity|]. rewrite IH. reflexivity. Qed.

Lemma digitsOf_suffix (fuel : nat) (n : Z) (acc : string) :
  exists pre, JsNumber.digitsOf fuel n acc = (pre ++ acc)%string.
Proof.
  revert n acc. induction fuel as [|f IH]; intros n acc; simpl.
  - exists EmptyString. reflexivity.
  - destruct (n <? 10).
    + exists (String (JsNumber.digitChar (n mod 10)) EmptyString). reflexivity.
    + destruct (IH (n / 10) (String (JsNumber.digitChar (n mod 10)) acc))
        as (pre & ->).
      exists (pre ++ String (JsNumber.digitChar (n mod 10)) EmptyString)%string.
      rewrite string_app_assoc. reflexivity.
Qed.

Lemma substring_app_tail (pre s : string) :
  substring (String.length pre) (String.length s) (pre ++ s) = s.
Proof.
  induction pre as [|c pre IH]; simpl; [|exact IH].
  induction s as [|c s IHs]; simpl; [reflexivity|]. rewrite IHs. reflexivity.
Qed.

Lemma sliceLast_app (pre s : string) :
  JsNumber.sliceLast (String.length s) (pre ++ s) = s.
Proof.
  unfold JsNumber.sliceLast. rewrite string_app_length.
  replace (String.length pre + String.length s - String.length s)%nat
    with (String.length pre) by lia.
  apply substring_app_tail.
Qed.

(** The last two characters of the text of an integer from 10 on are its
    tens digit and its units digit. *)
Lemma yearSuffix (y : Z) :
  10 <= y ->
  JsNumber.sliceLast 2 (JsNumber.intToString y)
  = String (JsNumber.digitChar ((y / 10) mod 10))
      (String (JsNumber.digitChar (y mod 10)) EmptyString).
Proof.
  intros H. unfold JsNumber.intToString.
  assert ((y <? 0) = false) as -> by (apply Z.ltb_ge; lia).
  assert (exists f, Z.to_nat (Z.log2 y) = S f) as (f & ->).
  { pose proof (Z.log2_le_mono 2 y ltac:(lia)) as L.
    change (Z.log2 2) with 1 in L.
    exists (Nat.pred (Z.to_nat (Z.log2 y))). lia. }
  cbn [JsNumber.digitsOf].
  assert ((y <? 10) = false) as -> by (apply Z.ltb_ge; lia).
  match goal with
  | |- context [if ?c then ?a else JsNumber.digitsOf f ?n ?acc] =>
      destruct (digitsOf_suffix f n acc) as (pre & E);
      assert (exists p, (if c then a else JsNumber.digitsOf f n acc)
                        = (p ++ a)%string) as (p & ->)
        by (destruct c; [exists EmptyString; reflexivity | exists pre; exact E])
  end.
  apply (sliceLast_app _
           (String (JsNumber.digitChar ((y / 10) mod 10))
              (String (JsNumber.digitChar (y mod 10)) EmptyString))).
Qed.

Lemma element_month (i : Z) :
  0 <= i <= 11 ->
  exists a m,
    SubmissionMonth.element SubmissionMonth.months i = a
    /\ In a monthAlternatives
    /\ lookup ExcelParser.monthNames (toLowerCase a) = Some m
    /\ m = i + 1.
Proof.
  intros H.
  assert (i = 0 \/ i = 1 \/ i = 2 \/ i = 3 \/ i = 4 \/ i = 5 \/ i = 6 \/ i = 7
          \/ i = 8 \/ i = 9 \/ i = 10 \/ i = 11) as C by lia.
  repeat (destruct C as [->|C];
          [eexists; eexists; split; [reflexivity|];
           split; [simpl; auto 20 | split; reflexivity]|]).
  subst. eexists; eexists; split; [reflexivity|].
  split; [simpl; auto 20 | split; reflexivity].
Qed.

Lemma parse_canonical (a : string) (d1 d2 : ascii) (m : Z) :
  In a monthAlternatives ->
  lookup ExcelParser.monthNames (toLowerCase a) = Some m ->
  isDigit d1 = true -> isDigit d2 = true ->
  parseSubmissionMonthLabel
    (a ++ "-" ++ String d1 (String d2 EmptyString))%string
  = Some (mkParsed (2000 + Spec.twoDigits d1 d2) m).
Proof.
  intros Hin L D1 D2. unfold parseSubmissionMonthLabel, matchLabel.
  rewrite (matchAlternation_complete monthAlternatives _ a a
             (String "-" (String d1 (String d2 EmptyString)))
             (String d1 (String d2 EmptyString))).
  - rewrite L. unfold parseInt10, Spec.twoDigits. cbn [parseIntAcc].
    replace (10 * (10 * 0 + digitValue d1) + digitValue d2)
      with (10 * digitValue d1 + digitValue d2) by lia.
    reflexivity.
  - apply monthAlternatives_length.
  - exact Hin.
  - apply matchLiteral_complete. reflexivity.
  - unfold matchTail. rewrite D1, D2. reflexivity.
Qed.

Lemma format_parse (d : Date) :
  0 <= getUTCMonth d <= 11 -> 10 <= getUTCFullYear d ->
  parseSubmissionMonthLabel (SubmissionMonth.formatSubmissionMonth d)
  = Some (mkParsed (2000 + getUTCFullYear d mod 100) (getUTCMonth d + 1)).
Proof.
  intros M Y. unfold SubmissionMonth.formatSubmissionMonth. cbv zeta.
  rewrite (yearSuffix _ Y).
  destruct (element_month _ M) as (a & m & -> & Hin & L & ->).
  set (y := getUTCFullYear d) in *.
  assert (0 <= (y / 10) mod 10 <= 9) as R1 by (pose proof (Z.mod_pos_bound (y / 10) 10); lia).
  assert (0 <= y mod 10 <= 9) as R0 by (pose proof (Z.mod_pos_bound y 10); lia).
  destruct (digitChar_spec _ R1) as [D1 V1], (digitChar_spec _ R0) as [D0 V0].
  rewrite (parse_canonical a _ _ _ Hin L D1 D0).
  unfold Spec.twoDigits. rewrite V1, V0. f_equal. f_equal.
  pose proof (Z.div_mod y 10 ltac:(lia)).
  pose proof (Z.div_mod (y / 10) 10 ltac:(lia)).
  pose proof (Z.div_mod y 100 ltac:(lia)).
  pose proof (Z.mod_pos_bound y 100 ltac:(lia)).
  pose proof (Z.div_div y 10 10 ltac:(lia) ltac:(lia)) as DD.
  change (10 * 10) with 100 in DD. lia.
Qed.

(** X19. The label that [formatSubmissionMonth] gives a date (month index
    0 to 11, year from 10 on) parses to the month of the date and to the
    year 2000 plus the last two digits of its year.  So a record is in
    the selected period of its own label exactly when its submission year
    lies between 2000 and 2099; a date of 1999 gets a label that selects
    2099. *)
Theorem X19_format_then_parse (rec : QuotaRecord) (d : Date) :
  submissionMonth rec = Some d ->
  0 <= getUTCMonth d <= 11 -> 10 <= getUTCFullYear d ->
  exists parsed,
    parseSubmissionMonthLabel (SubmissionMonth.formatSubmissionMonth d)
    = Some parsed
    /\ month parsed = getUTCMonth d + 1
    /\ year parsed = 2000 + getUTCFullYear d mod 100
    /\ (Validators.inPeriod parsed rec = true
        <-> 2000 <= getUTCFullYear d <= 2099).
Proof.
  intros S M Y. eexists. split; [apply format_parse; assumption|].
  cbn [month year]. split; [reflexivity|]. split; [reflexivity|].
  unfold Validators.inPeriod. rewrite S. cbn [month year].
  rewrite andb_true_iff, !Z.eqb_eq.
  pose proof (Z.div_mod (getUTCFullYear d) 100 ltac:(lia)).
  pose proof (Z.mod_pos_bound (getUTCFullYear d) 100 ltac:(lia)).
  split; [intros [E _] | intros R; split; [|reflexivity]]; lia.
Qed.

Lemma X19_format_then_parse_witness :
  parseSubmissionMonthLabel
    (SubmissionMonth.formatSubmissionMonth Samples.sep2025)
  = Some (mkParsed 2025 9).
Proof.
  destruct (X19_format_then_parse Samples.septemberRecord Samples.sep2025
              eq_refl ltac:(simpl; lia) ltac:(simpl; lia))
    as (p & P & Hm & Hy & _).
  rewrite P. destruct p as [y m]. simpl in Hm, Hy. subst. reflexivity.
Defined.

Lemma canonical_month (a : string) (m : Z) :
  In a monthAlternatives ->
  lookup ExcelParser.monthNames (toLowerCase a) = Some m ->
  SubmissionMonth.element SubmissionMonth.months (m - 1) = a.
Proof.
  unfold monthAlternatives. simpl.
  intros H;
    repeat (destruct H as [<-|H];
            [intros L; vm_compute in L; inversion L; reflexivity|]);
    contradiction.
Qed.

Lemma twoDigits_suffix (d1 d2 : ascii) :
  isDigit d1 = true -> isDigit d2 = true ->
  JsNumber.sliceLast 2 (JsNumber.intToString (2000 + Spec.twoDigits d1 d2))
  = String d1 (String d2 EmptyString).
Proof.
  intros D1 D2.
  pose proof (digitValue_range d1 D1) as R1.
  pose proof (digitValue_range d2 D2) as R2.
  unfold Spec.twoDigits.
  set (y := 2000 + (10 * digitValue d1 + digitValue d2)).
  rewrite (yearSuffix y) by (subst y; lia).
  assert (y / 10 = 200 + digitValue d1) as Q
    by (symmetry; apply (Z.div_unique y 10 _ (digitValue d2)); subst y; lia).
  assert (y mod 10 = digitValue d2) as ->
    by (symmetry; apply (Z.mod_unique y 10 (200 + digitValue d1)); subst y; lia).
  assert ((y / 10) mod 10 = digitValue d1) as ->
    by (rewrite Q; symmetry; apply (Z.mod_unique _ 10 20); lia).
  rewrite !digitChar_digitValue by assumption. reflexivity.
Qed.

(** X20. A label that parses is, up to the case of its letters, the label
    that [formatSubmissionMonth] gives the first day of the parsed month,
    and that label parses to the same year and month: the parser is the
    inverse of the formatter on every label it accepts. *)
Theorem X20_parse_then_format (label : string) (parsed : ParsedLabel) :
  parseSubmissionMonthLabel label = Some parsed ->
  let back :=
    SubmissionMonth.formatSubmissionMonth
      (mkDate (year parsed) (month parsed - 1)) in
  toLowerCase back = toLowerCase label
  /\ parseSubmissionMonthLabel back = Some parsed.
Proof.
  intros P back. subst back. unfold parseSubmissionMonthLabel in P.
  destruct (matchLabel label) as [[g1 g2]|] eqn:M; [|discriminate].
  destruct (lookup ExcelParser.monthNames (toLowerCase g1)) as [m|] eqn:L;
    [|discriminate].
  assert (parsed = mkParsed (2000 + parseInt10 g2) m) as -> by congruence.
  clear P.
  apply matchAlternation_sound in M as (a & rest & Hin & Ml & T).
  apply matchLiteral_shape in Ml as (-> & _ & Tl).
  apply matchTail_shape in T as (d1 & d2 & -> & -> & D1 & D2).
  rewrite Tl in L.
  unfold SubmissionMonth.formatSubmissionMonth.
  cbn [getUTCFullYear getUTCMonth year month]. cbv zeta.
  rewrite (canonical_month a m Hin L).
  replace (parseInt10 (String d1 (String d2 EmptyString)))
    with (Spec.twoDigits d1 d2)
    by (unfold parseInt10, Spec.twoDigits; cbn [parseIntAcc]; lia).
  rewrite (twoDigits_suffix d1 d2 D1 D2). split.
  - rewrite !toLowerCase_app, Tl. reflexivity.
  - apply (parse_canonical a d1 d2 m Hin L D1 D2).
Qed.

Lemma X20_parse_then_format_witness :
  SubmissionMonth.formatSubmissionMonth (mkDate 2026 0) = "Jan-26"
  /\ parseSubmissionMonthLabel "Jan-26" = Some (mkParsed 2026 1).
Proof.
  destruct (X20_parse_then_format "jAN-26" (mkParsed 2026 1) eq_refl)
    as [_ H].
  split; [reflexivity | exact H].
Defined.

(** ** The processing months offered for LMS *)

Lemma map_seq_from {A : Type} (f : nat -> A) (a n : nat) :
  map f (seq a n) = map (fun k => f (a + k)%nat) (seq 0 n).
Proof.
  revert f a. induction n as [|n IH]; intros f a; [reflexivity|].
  cbn [seq map]. rewrite Nat.add_0_r. f_equal.
  rewrite (IH f (S a)), (IH (fun k => f (a + k)%nat) 1%nat).
  apply map_ext. intros k. f_equal. lia.
Qed.

Lemma In_fromTo (lo hi k : Z) :
  In k (LmsExcelParser.fromTo lo hi) -> lo <= k <= hi.
Proof.
  unfold LmsExcelParser.fromTo. intros H.
  apply in_map_iff in H as (i & <- & Hi). apply in_seq in Hi. lia.
Qed.

(** The months before they are formatted: the [k]-th one lies [k] months
    after July of the year in which the fiscal year began. *)
Lemma fiscalMonths_seq (currentYear currentMonth : Z) :
  1 <= currentMonth <= 12 ->
  LmsExcelParser.fiscalMonths currentYear currentMonth
  = map (fun k =>
           ((if 7 <=? currentMonth then currentYear else currentYear - 1)
            + (6 + Z.of_nat k) / 12,
            (6 + Z.of_nat k) mod 12 + 1))
      (seq 0 (Z.to_nat (if 7 <=? currentMonth then currentMonth - 6
                        else currentMonth + 6))).
Proof.
  intros R. unfold LmsExcelParser.fiscalMonths, LmsExcelParser.fromTo.
  destruct (7 <=? currentMonth) eqn:E.
  - apply Z.leb_le in E. rewrite map_map.
    replace (Z.to_nat (currentMonth - 7 + 1)) with (Z.to_nat (currentMonth - 6))
      by lia.
    apply map_ext_in. intros k Hk. apply in_seq in Hk.
    rewrite Z.div_small, Z.mod_small by lia. f_equal; lia.
  - apply Z.leb_gt in E. rewrite !map_map.
    replace (Z.to_nat (currentMonth + 6))
      with (6 + Z.to_nat currentMonth)%nat by lia.
    rewrite seq_app, map_app. f_equal.
    + change (Z.to_nat (12 - 7 + 1)) with 6%nat.
      apply map_ext_in. intros k Hk. apply in_seq in Hk.
      rewrite Z.div_small, Z.mod_small by lia. f_equal; lia.
    + cbn [Nat.add]. rewrite (map_seq_from _ 6).
      replace (Z.to_nat (currentMonth - 1 + 1)) with (Z.to_nat currentMonth)
        by lia.
      apply map_ext_in. intros k Hk. apply in_seq in Hk.
      assert ((6 + Z.of_nat (6 + k)) / 12 = 1) as ->
        by (symmetry; apply (Z.div_unique _ 12 1 (Z.of_nat k)); lia).
      assert ((6 + Z.of_nat (6 + k)) mod 12 = Z.of_nat k) as ->
        by (symmetry; apply (Z.mod_unique _ 12 1); lia).
      f_equal; lia.
Qed.

(** X21. With the current month between 1 and 12 and the current year
    between 2001 and 2099, [generateLmsProcessingMonths] offers, in order
    and without a gap, the months from July of the year in which the
    fiscal year began up to the current month (as many as have passed
    since that July, the current one included), and every label it
    offers parses back to that month and year. *)
Theorem X21_generated_months (currentYear currentMonth : Z) :
  1 <= currentMonth <= 12 -> 2001 <= currentYear <= 2099 ->
  let start := if 7 <=? currentMonth then currentYear else currentYear - 1 in
  let count := if 7 <=? currentMonth then currentMonth - 6
               else currentMonth + 6 in
  map parseSubmissionMonthLabel
    (LmsExcelParser.generateLmsProcessingMonths currentYear currentMonth)
  = map (fun k => Some (mkParsed (start + (6 + Z.of_nat k) / 12)
                          ((6 + Z.of_nat k) mod 12 + 1)))
      (seq 0 (Z.to_nat count)).
Proof.
  intros M Y start count. subst start count.
  unfold LmsExcelParser.generateLmsProcessingMonths.
  rewrite (fiscalMonths_seq _ _ M), !map_map.
  apply map_ext_in. intros k Hk. apply in_seq in Hk.
  set (y := (if 7 <=? currentMonth then currentYear else currentYear - 1)
            + (6 + Z.of_nat k) / 12).
  set (m := (6 + Z.of_nat k) mod 12 + 1).
  assert (0 <= (6 + Z.of_nat k) / 12 <= 1 /\ 1 <= m <= 12
          /\ ((7 <=? currentMonth) = true -> (6 + Z.of_nat k) / 12 = 0))
    as (Q & Rm & Q0).
  { pose proof (Z.div_mod (6 + Z.of_nat k) 12 ltac:(lia)).
    pose proof (Z.mod_pos_bound (6 + Z.of_nat k) 12 ltac:(lia)).
    subst m. destruct (7 <=? currentMonth) eqn:E;
      [apply Z.leb_le in E | apply Z.leb_gt in E]; repeat split;
      try discriminate; lia. }
  assert (2000 <= y <= 2099) as Ry.
  { subst y. destruct (7 <=? currentMonth) eqn:E; [rewrite (Q0 eq_refl)|]; lia. }
  change (LmsExcelParser.formatMonth (y, m))
    with (SubmissionMonth.formatSubmissionMonth (mkDate y (m - 1))).
  rewrite format_parse by (cbn [getUTCMonth getUTCFullYear]; lia).
  cbn [getUTCMonth getUTCFullYear].
  replace (2000 + y mod 100) with y
    by (pose proof (Z.mod_unique y 100 20 (y - 2000)); lia).
  replace (m - 1 + 1) with m by lia. reflexivity.
Qed.

Lemma X21_generated_months_witness :
  map parseSubmissionMonthLabel
    (LmsExcelParser.generateLmsProcessingMonths 2026 2)
  = map Some [mkParsed 2025 7; mkParsed 2025 8; mkParsed 2025 9;
              mkParsed 2025 10; mkParsed 2025 11; mkParsed 2025 12;
              mkParsed 2026 1; mkParsed 2026 2].
Proof.
  rewrite (X21_generated_months 2026 2 ltac:(lia) ltac:(lia)). reflexivity.
Defined.

Lemma lms_v3_empty (parseFloat : string -> number)
  (records : list LmsQuotaRecord) (refRecords : list ReferenceRecord)
  (selectedProcessingMonth : string) (selectedRegion : Region) :
  (forall m, monthName m
             <> toUpperCase (LmsValidators.beforeHyphen selectedProcessingMonth)) ->
  lmsV3 (LmsValidators.runLmsValidation parseFloat records refRecords
           selectedProcessingMonth selectedRegion) = [].
Proof.
  intros No. cbn [LmsValidators.runLmsValidation lmsV3].
  match goal with |- ?l = [] => destruct l as [|r l'] eqn:E end;
    [reflexivity|].
  assert (In r (r :: l')) as Hr by (left; reflexivity). rewrite <- E in Hr.
  apply lms_v3Collect_In in Hr as (rec & _ & C).
  apply lms_v3Check_inv in C as (_ & _ & K & _).
  exfalso. exact (No _ K).
Qed.

(** X22. From July to December every processing month that
    [generateLmsProcessingMonths] offers is a month of July to December,
    and under each of them the on-leave check of [runLmsValidation]
    reports nothing, whatever the quota sheet and the roster hold. *)
Theorem X22_second_half_on_leave_silent
  (parseFloat : string -> number) (currentYear currentMonth : Z)
  (label : string) :
  7 <= currentMonth <= 12 ->
  In label
    (LmsExcelParser.generateLmsProcessingMonths currentYear currentMonth) ->
  forall records refRecords selectedRegion,
    lmsV3 (LmsValidators.runLmsValidation parseFloat records refRecords
             label selectedRegion) = [].
Proof.
  intros M Hin records refRecords selectedRegion.
  apply lms_v3_empty.
  unfold LmsExcelParser.generateLmsProcessingMonths,
    LmsExcelParser.fiscalMonths in Hin.
  assert ((7 <=? currentMonth) = true) as E by (apply Z.leb_le; lia).
  rewrite E, map_map in Hin. apply in_map_iff in Hin as (m & <- & Hm).
  apply In_fromTo in Hm. unfold LmsExcelParser.formatMonth. cbn [fst snd].
  cbv zeta.
  assert (m = 7 \/ m = 8 \/ m = 9 \/ m = 10 \/ m = 11 \/ m = 12) as C by lia.
  destruct C as [-> | [-> | [-> | [-> | [-> | ->]]]]]; intros [];
    discriminate.
Qed.

Lemma X22_second_half_on_leave_silent_witness :
  lmsV3 (LmsValidators.runLmsValidation Samples.noText
           [Samples.lmsRow "E9" "APAC" "Non-SA" "Semi" (Some Samples.jan2026)
              (mkLmsMonthly (Samples.num 5) (Samples.num 5) (Samples.num 5)
                 (Samples.num 5) (Samples.num 5) (Samples.num 5))
              Samples.blankLmsQuotas]
           [Samples.rosterRow "E9" (Some "Yes") (Some "Yes") (Some "Japan")]
           "Aug-26" APAC)
  = [].
Proof.
  refine (X22_second_half_on_leave_silent Samples.noText 2026 9 "Aug-26"
            ltac:(lia) _ _ _ _).
  right. left. reflexivity.
Defined.

(** ** The CSV exports *)

Import CsvExport.

Example escapeCsv_cases :
  map escapeCsv
    [FNull; FStr "plain"; FStr "a,b"; FInt 12; FStr ("say " ++ dq ++ "hi" ++ dq)]
  = ["" ; "plain"; dq ++ "a,b" ++ dq; "12";
     dq ++ "say " ++ dq ++ dq ++ "hi" ++ dq ++ dq ++ dq]%string.
Proof. reflexivity. Qed.

Example parseCsv_cases :
  map Props.parseCsv
    ["a,b"; String "a" (String lf "b"); String "a" (String Props.cr "b");
     String "a" (String Props.cr (String lf "b"));
     (dq ++ String "a" (String Props.cr "b") ++ dq)%string;
     (String "a" dq)]
  = [Some [["a"; "b"]]; Some [["a"]; ["b"]]; Some [["a"]; ["b"]];
     Some [["a"]; ["b"]]; Some [[String "a" (String Props.cr "b")]]; None].
Proof. reflexivity. Qed.

Lemma addText_Some (t f : string) (fs : list string) (recs : list (list string)) :
  Props.addText t (Some (f, fs, recs)) = Some ((t ++ f)%string, fs, recs).
Proof.
  induction t as [|c t IH]; [reflexivity|]. simpl. rewrite IH. reflexivity.
Qed.

Lemma string_app_nil (s : string) : (s ++ "")%string = s.
Proof. induction s as [|c s IH]; simpl; congruence. Qed.

Lemma readCsv_fieldEnd (tail : string) :
  Props.fieldEnd tail ->
  Props.readCsv Props.Unquoted tail = Props.readCsv Props.FieldStart tail
  /\ Props.readCsv Props.QuoteSeen tail = Props.readCsv Props.FieldStart tail.
Proof.
  destruct tail as [|c r]; [split; reflexivity|].
  intros [-> | ->]; split; reflexivity.
Qed.

Lemma readCsv_quoted (t tail : string) :
  Props.readCsv Props.Quoted (doubleQuotes t ++ String quote tail)
  = Props.addText t (Props.readCsv Props.QuoteSeen tail).
Proof.
  induction t as [|x t IH]; [reflexivity|].
  cbn [doubleQuotes]. destruct (x =? quote)%char eqn:E.
  - apply Ascii.eqb_eq in E. subst x.
    cbn [String.append Props.readCsv]. rewrite !Ascii.eqb_refl.
    rewrite IH. reflexivity.
  - cbn [String.append Props.readCsv]. rewrite E, IH. reflexivity.
Qed.

Lemma readCsv_unquoted (t tail : string) :
  includesChar comma t = false -> includesChar quote t = false ->
  includesChar lf t = false -> includesChar Props.cr t = false ->
  Props.readCsv Props.Unquoted (t ++ tail)
  = Props.addText t (Props.readCsv Props.Unquoted tail).
Proof.
  induction t as [|x t IH]; [reflexivity|]. cbn [includesChar].
  intros C Q L R. apply orb_false_iff in C as [C1 C2].
  apply orb_false_iff in Q as [Q1 Q2]. apply orb_false_iff in L as [L1 L2].
  apply orb_false_iff in R as [R1 R2].
  cbn [String.append Props.readCsv].
  rewrite Q1, C1, L1, R1, (IH C2 Q2 L2 R2). reflexivity.
Qed.

Lemma readCsv_plain (t tail : string) :
  includesChar comma t = false -> includesChar quote t = false ->
  includesChar lf t = false -> includesChar Props.cr t = false ->
  Props.fieldEnd tail ->
  Props.readCsv Props.FieldStart (t ++ tail)
  = Props.addText t (Props.readCsv Props.FieldStart tail).
Proof.
  destruct t as [|x t]; [reflexivity|]. cbn [includesChar].
  intros C Q L R F. apply orb_false_iff in C as [C1 C2].
  apply orb_false_iff in Q as [Q1 Q2]. apply orb_false_iff in L as [L1 L2].
  apply orb_false_iff in R as [R1 R2].
  cbn [String.append Props.readCsv]. rewrite Q1, C1, L1, R1.
  rewrite (readCsv_unquoted t tail C2 Q2 L2 R2).
  rewrite (proj1 (readCsv_fieldEnd tail F)). reflexivity.
Qed.

(** One escaped field in front of what may follow a field reads as the
    text of the field. *)
Lemma readCsv_field (v : field) (tail : string) :
  Props.readable v = true -> Props.fieldEnd tail ->
  Props.readCsv Props.FieldStart (escapeCsv v ++ tail)
  = Props.addText (Props.fieldText v) (Props.readCsv Props.FieldStart tail).
Proof.
  intros Rd F.
  assert (forall str,
            negb (includesChar Props.cr str) || includesChar comma str
            || includesChar quote str || includesChar lf str = true ->
            Props.readCsv Props.FieldStart
              ((if includesChar comma str || includesChar quote str
                   || includesChar lf str
                then String quote (doubleQuotes str) ++ String quote EmptyString
                else str) ++ tail)
            = Props.addText str (Props.readCsv Props.FieldStart tail)) as G.
  { intros str S.
    destruct (includesChar comma str) eqn:C, (includesChar quote str) eqn:Q,
             (includesChar lf str) eqn:L; cbn [orb];
      try (cbn [String.append]; rewrite string_app_assoc;
           cbn [String.append Props.readCsv]; rewrite Ascii.eqb_refl;
           rewrite readCsv_quoted, (proj2 (readCsv_fieldEnd tail F));
           reflexivity).
    rewrite !orb_false_r in S. apply negb_true_iff in S.
    apply readCsv_plain; assumption. }
  destruct v as [|s|n]; [reflexivity | apply G, Rd | apply G, Rd].
Qed.

Lemma readCsv_comma (r : string) :
  Props.readCsv Props.FieldStart (String "," r)
  = Props.newField (Props.readCsv Props.FieldStart r).
Proof. reflexivity. Qed.

Lemma readCsv_lf (r : string) :
  Props.readCsv Props.FieldStart (String lf r)
  = Props.newRecord (Props.readCsv Props.FieldStart r).
Proof. reflexivity. Qed.

Lemma join_two (sep x y : string) (l : list string) :
  join sep (x :: y :: l) = (x ++ sep ++ join sep (y :: l))%string.
Proof. reflexivity. Qed.

Lemma readCsv_row (v : field) (vs : list field) (tail : string)
  (recs : list (list string)) :
  Forall (fun x => Props.readable x = true) (v :: vs) ->
  Props.fieldEnd tail ->
  Props.readCsv Props.FieldStart tail = Some (EmptyString, [], recs) ->
  Props.readCsv Props.FieldStart (toCsvRow (v :: vs) ++ tail)
  = Some (Props.fieldText v, map Props.fieldText vs, recs).
Proof.
  intros Rd F K. revert v Rd. induction vs as [|v' vs IH]; intros v Rd;
    inversion Rd as [|? ? Rv Rvs]; subst.
  - unfold toCsvRow. cbn [map].
    change (join "," [escapeCsv v]) with (escapeCsv v).
    rewrite (readCsv_field v tail Rv F), K, addText_Some, string_app_nil.
    reflexivity.
  - unfold toCsvRow in *. cbn [map] in *. rewrite join_two.
    rewrite !string_app_assoc. cbn [String.append].
    rewrite (readCsv_field v _ Rv) by (left; reflexivity).
    rewrite readCsv_comma, (IH v' Rvs). cbn [Props.newField map].
    rewrite addText_Some, string_app_nil. reflexivity.
Qed.

Lemma readCsv_rows (r : list field) (rows : list (list field)) :
  Forall (fun x => x <> []) (r :: rows) ->
  Forall (Forall (fun x => Props.readable x = true)) (r :: rows) ->
  exists v vs,
    r = v :: vs
    /\ Props.readCsv Props.FieldStart
         (join (String lf EmptyString) (map toCsvRow (r :: rows)))
       = Some (Props.fieldText v, map Props.fieldText vs,
               map (map Props.fieldText) rows).
Proof.
  revert r. induction rows as [|r' rows IH]; intros r H Rd;
    inversion H as [|? ? Hr Hrest]; inversion Rd as [|? ? Rr Rrest]; subst.
  - destruct r as [|v vs]; [congruence|].
    exists v, vs. split; [reflexivity|]. cbn [map].
    change (join (String lf EmptyString) [toCsvRow (v :: vs)])
      with (toCsvRow (v :: vs)).
    rewrite <- (string_app_nil (toCsvRow (v :: vs))).
    apply readCsv_row; [exact Rr | exact I | reflexivity].
  - destruct r as [|v vs]; [congruence|].
    destruct (IH r' Hrest Rrest) as (v' & vs' & -> & K).
    exists v, vs. split; [reflexivity|].
    cbn [map] in *. rewrite join_two. cbn [String.append].
    apply readCsv_row; [exact Rr | right; reflexivity|].
    rewrite readCsv_lf, K. reflexivity.
Qed.

Lemma writtenRow_nonempty (rows : list (list field)) :
  Forall (fun r => Props.writtenRow r = true) rows ->
  Forall (fun r => r <> []) rows.
Proof.
  intros H. eapply Forall_impl; [|exact H].
  intros r W E. subst r. discriminate.
Qed.

(** A reader never refuses text without a double quote. *)
Lemma readCsv_total (s : string) :
  includesChar quote s = false ->
  (exists k, Props.readCsv Props.FieldStart s = Some k)
  /\ (exists k, Props.readCsv Props.Unquoted s = Some k)
  /\ (exists k, Props.readCsv Props.AfterCR s = Some k).
Proof.
  induction s as [|x s IH]; [intros _; repeat split; eexists; reflexivity|].
  cbn [includesChar]. intros Q. apply orb_false_iff in Q as [Q1 Q2].
  destruct (IH Q2) as ((a & A) & (b & B) & (c & C)).
  cbn [Props.readCsv]. rewrite Q1, A, B, C.
  destruct a as [[? ?] ?], b as [[? ?] ?], c as [[? ?] ?].
  repeat split;
    destruct (x =? lf)%char, (x =? comma)%char, (x =? Props.cr)%char;
    eexists; reflexivity.
Qed.

(** Text with a carriage return and none of the three characters that
    make [escapeCsv] quote reads as more than one record. *)
Lemma readCsv_splits (t : string) :
  includesChar Props.cr t = true ->
  includesChar comma t = false -> includesChar quote t = false ->
  includesChar lf t = false ->
  (exists f fs r recs,
     Props.readCsv Props.FieldStart t = Some (f, fs, r :: recs))
  /\ (exists f fs r recs,
        Props.readCsv Props.Unquoted t = Some (f, fs, r :: recs))
  /\ (exists f fs r recs,
        Props.readCsv Props.AfterCR t = Some (f, fs, r :: recs)).
Proof.
  induction t as [|x t IH]; [discriminate|]. cbn [includesChar].
  intros R C Q L. apply orb_false_iff in C as [C1 C2].
  apply orb_false_iff in Q as [Q1 Q2]. apply orb_false_iff in L as [L1 L2].
  cbn [Props.readCsv]. rewrite Q1, C1, L1.
  destruct (x =? Props.cr)%char eqn:X.
  - destruct (readCsv_total t Q2) as (_ & _ & (k & K)). rewrite K.
    destruct k as [[f fs] recs]. cbn [Props.newRecord].
    repeat split; do 4 eexists; reflexivity.
  - cbn [orb] in R.
    destruct (IH R C2 Q2 L2) as (_ & (f & fs & r & recs & U) & _).
    rewrite U. cbn [Props.addChar].
    repeat split; do 4 eexists; reflexivity.
Qed.

(** X23. [escapeCsv] and [toCsvRow] lose nothing of fields that hold no
    bare carriage return: when rows of fields, at least one row, none of
    them written as an empty line, are written with [toCsvRow] and
    joined by line feeds, a reader of comma-separated text gets back
    exactly the rows and, in each, the texts of the fields, whatever
    commas, double quotes and line feeds the fields hold, and carriage
    returns too in the fields that hold one of these.  The condition is
    needed: a field with a carriage return and none of the three is
    written as it is, without quotes, and read back as more than one
    record. *)
Theorem X23_csv_round_trip (rows : list (list field)) :
  (rows <> [] ->
   Forall (fun r => Props.writtenRow r = true) rows ->
   Forall (Forall (fun v => Props.readable v = true)) rows ->
   Props.parseCsv (join (String lf EmptyString) (map toCsvRow rows))
   = Some (map (map Props.fieldText) rows))
  /\ forall t,
       includesChar Props.cr t = true ->
       includesChar comma t = false -> includesChar quote t = false ->
       includesChar lf t = false ->
       toCsvRow [FStr t] = t
       /\ exists first second more,
            Props.parseCsv (toCsvRow [FStr t])
            = Some (first :: second :: more).
Proof.
  split.
  - intros NE W Rd. destruct rows as [|r rows]; [congruence|].
    destruct (readCsv_rows r rows (writtenRow_nonempty _ W) Rd)
      as (v & vs & -> & K).
    unfold Props.parseCsv. rewrite K. reflexivity.
  - intros t R C Q L.
    assert (toCsvRow [FStr t] = t) as E.
    { unfold toCsvRow. cbn [map]. change (join "," [escapeCsv (FStr t)])
        with (escapeCsv (FStr t)).
      unfold escapeCsv. cbv zeta. cbn [text]. rewrite C, Q, L. reflexivity. }
    split; [exact E|]. rewrite E.
    destruct (readCsv_splits t R C Q L) as ((f & fs & r & recs & K) & _).
    unfold Props.parseCsv. rewrite K. eauto.
Qed.

Lemma X23_csv_round_trip_witness :
  Props.parseCsv
    (join (String lf EmptyString)
       (map toCsvRow
          [[FStr "a,b"; FNull; FInt 7];
           [FStr (String lf (String Props.cr (dq ++ "x" ++ dq)))]]))
  = Some [["a,b"; ""; "7"]; [String lf (String Props.cr (dq ++ "x" ++ dq))]]
  /\ Props.parseCsv (toCsvRow [FStr (String "a" (String Props.cr "b"))])
     = Some [["a"]; ["b"]].
Proof.
  destruct (X23_csv_round_trip
              [[FStr "a,b"; FNull; FInt 7];
               [FStr (String lf (String Props.cr (dq ++ "x" ++ dq)))]])
    as [H L].
  split.
  - apply H.
    + discriminate.
    + repeat constructor.
    + repeat constructor.
  - destruct (L (String "a" (String Props.cr "b")) eq_refl eq_refl eq_refl
                eq_refl) as (E & _).
    rewrite E. reflexivity.
Defined.

Lemma csv_rows_read (header : list field) (rows : list (list field)) :
  header <> [] -> Forall (fun r => r <> []) rows ->
  Forall (Forall (fun v => Props.readable v = true)) (header :: rows) ->
  Props.parseCsv
    (join (String lf EmptyString) (toCsvRow header :: map toCsvRow rows))
  = Some (map Props.fieldText header :: map (map Props.fieldText) rows).
Proof.
  intros NE H Rd.
  destruct (readCsv_rows header rows) as (v & vs & -> & K);
    [constructor; assumption | exact Rd |].
  unfold Props.parseCsv. cbn [map] in K. rewrite K. reflexivity.
Qed.

Lemma not_passed_count (l : list V1Result) :
  List.length
    (filter (fun r => ValidationStatus_eqb (status r) fail
                      || ValidationStatus_eqb (status r) skip) l)
  = (Validators.countStatus fail l + Validators.countStatus skip l)%nat.
Proof.
  unfold Validators.countStatus.
  induction l as [|r l IH]; [reflexivity|].
  simpl. destruct (status r); simpl; lia.
Qed.

(** X24. The V1 export of a successful run has, after the header line,
    one line per exported result: with the filter [all] there are
    [totalRecords] of them, with the filter [fail] there are
    [v1Fail + v1Skip], the skipped placeholders being exported along
    with the failures.  When no exported field holds a bare carriage
    return, the text reads back as the header and, for each exported
    result in order, its nine fields, whatever commas, double quotes and
    line feeds they hold. *)
Theorem X24_v1_export
  (allRecords : list QuotaRecord) (refRecords : list ReferenceRecord)
  (selectedMonth : string) (selectedRegion : Region)
  (res : ValidationResults) (f : ExportFilter) :
  Validators.runValidation allRecords refRecords selectedMonth selectedRegion
  = Ok res ->
  List.length (v1Items res f)
  = match f with
    | FilterAll => totalRecords (summary res)
    | FilterFail => (v1Fail (summary res) + v1Skip (summary res))%nat
    end
  /\ ((forall r v, In r (v1Items res f) -> In v (v1Row r) ->
                  Props.readable v = true) ->
      Props.parseCsv (snd (exportV1Results res f))
      = Some (map Props.fieldText v1Header
              :: map (fun r => map Props.fieldText (v1Row r)) (v1Items res f))).
Proof.
  intros Run. split.
  - unfold Validators.runValidation in Run.
    destruct (parseSubmissionMonthLabel selectedMonth) as [parsed|];
      [|discriminate].
    inversion Run; subst res; clear Run.
    destruct f; cbn [v1Items v1 summary totalRecords v1Fail v1Skip].
    + apply length_map.
    + apply not_passed_count.
  - intros Rd. unfold exportV1Results. cbn [snd].
    rewrite <- (map_map v1Row toCsvRow), <- (map_map v1Row (map Props.fieldText)).
    apply csv_rows_read; [discriminate| |].
    + apply Forall_forall. intros x Hx.
      apply in_map_iff in Hx as (r & <- & _). discriminate.
    + constructor; [repeat constructor|].
      apply Forall_forall. intros x Hx.
      apply in_map_iff in Hx as (r & <- & Hr).
      apply Forall_forall. intros v Hv. exact (Rd r v Hr Hv).
Qed.

Lemma X24_v1_export_witness :
  Props.parseCsv
    (snd (exportV1Results
            (Samples.resultsOf
               (Validators.runValidation [Samples.e1Record; Samples.tbhRecord]
                  [Samples.e1Roster] "Jan-26" NAMER))
            FilterFail))
  = Some [["Sheet"; "Row"; "EID"; "Name"; "Status"; "Reason";
           "Ref Active Status"; "Ref On Leave"; "Ref Country"];
          ["IC Quota"; "7"; "E1"; "Name"; "FAIL";
           ("Country=" ++ dq ++ "Japan" ++ dq
            ++ " (Region: APAC) - not in NAMER")%string;
           "Yes"; ""; "Japan"];
          ["IC Quota"; "7"; "TBH-001"; "Name"; "SKIP"; "TBH / Blank EID";
           ""; ""; ""]].
Proof.
  destruct (X24_v1_export [Samples.e1Record; Samples.tbhRecord]
              [Samples.e1Roster] "Jan-26" NAMER
              (Samples.resultsOf
                 (Validators.runValidation [Samples.e1Record; Samples.tbhRecord]
                    [Samples.e1Roster] "Jan-26" NAMER))
              FilterFail eq_refl) as [_ H].
  rewrite H; [reflexivity|].
  intros r v [<-|[<-|[]]] Hv; simpl in Hv;
    repeat (destruct Hv as [<-|Hv]; [reflexivity|]); contradiction.
Defined.

Lemma v2Rows_count (groups : list V2Result) :
  (forall g, In g groups -> (1 < List.length (occurrences g))%nat) ->
  (2 * List.length groups <= List.length (flat_map v2Rows groups))%nat.
Proof.
  induction groups as [|g groups IH]; intros H; [simpl; lia|].
  cbn [flat_map]. rewrite length_app. unfold v2Rows at 1. rewrite length_map.
  pose proof (H g (or_introl eq_refl)).
  pose proof (IH (fun x Hx => H x (or_intror Hx))).
  simpl List.length. lia.
Qed.

(** X25. The duplicates export of a successful run has, after the header
    line, at least two lines for every identifier of the V2 list.  When
    no exported field holds a bare carriage return, the text reads back
    as the header and, for each duplicated identifier in turn, one line
    of five fields per record of its group: the identifier, the size of
    the group, and the sheet, row and name of the record. *)
Theorem X25_v2_export
  (allRecords : list QuotaRecord) (refRecords : list ReferenceRecord)
  (selectedMonth : string) (selectedRegion : Region)
  (res : ValidationResults) :
  Validators.runValidation allRecords refRecords selectedMonth selectedRegion
  = Ok res ->
  (2 * v2DuplicateEids (summary res)
   <= List.length (flat_map v2Rows (v2 res)))%nat
  /\ ((forall row v, In row (flat_map v2Rows (v2 res)) -> In v row ->
                    Props.readable v = true) ->
      Props.parseCsv (snd (exportV2Results res))
      = Some (map Props.fieldText v2Header
              :: flat_map
                   (fun dup =>
                      map (fun rec =>
                             [ v2Eid dup;
                               JsNumber.intToString
                                 (Z.of_nat (List.length (occurrences dup)));
                               sheet rec; JsNumber.intToString (row rec);
                               name rec ])
                        (occurrences dup))
                   (v2 res))).
Proof.
  intros Run. split.
  - unfold Validators.runValidation in Run.
    destruct (parseSubmissionMonthLabel selectedMonth) as [parsed|];
      [|discriminate].
    inversion Run; subst res; clear Run.
    cbn [v2 summary v2DuplicateEids].
    apply v2Rows_count. intros g Hg. apply v2Collect_In in Hg as [_ L].
    exact L.
  - intros Rd. unfold exportV2Results. cbn [snd].
    rewrite csv_rows_read.
    + f_equal. f_equal. clear Rd.
      induction (v2 res) as [|g l IH]; [reflexivity|].
      cbn [flat_map]. rewrite map_app, IH. f_equal.
      unfold v2Rows. rewrite map_map. reflexivity.
    + discriminate.
    + apply Forall_forall. intros x Hx.
      apply in_flat_map in Hx as (g & _ & Hx).
      apply in_map_iff in Hx as (r & <- & _). discriminate.
    + constructor; [repeat constructor|].
      apply Forall_forall. intros x Hx.
      apply Forall_forall. intros v Hv. exact (Rd x v Hx Hv).
Qed.

Lemma X25_v2_export_witness :
  Props.parseCsv
    (snd (exportV2Results
            (Samples.resultsOf
               (Validators.runValidation [Samples.e1Record; Samples.e1Record]
                  [Samples.e1Roster] "Jan-26" APAC))))
  = Some [["EID"; "Occurrences"; "Sheet"; "Row"; "Name"];
          ["E1"; "2"; "IC Quota"; "7"; "Name"];
          ["E1"; "2"; "IC Quota"; "7"; "Name"]].
Proof.
  destruct (X25_v2_export [Samples.e1Record; Samples.e1Record]
              [Samples.e1Roster] "Jan-26" APAC
              (Samples.resultsOf
                 (Validators.runValidation [Samples.e1Record; Samples.e1Record]
                    [Samples.e1Roster] "Jan-26" APAC))
              eq_refl) as [_ H].
  rewrite H; [reflexivity|].
  intros r v Hr Hv. simpl in Hr.
  destruct Hr as [<-|[<-|[]]]; simpl in Hv;
    repeat (destruct Hv as [<-|Hv]; [reflexivity|]); contradiction.
Defined.

(** ** The columns of a quota sheet *)

Section ColumnFacts.

Variable numberToString : number -> string.

Lemma MonthKey_eqb_eq (a b : MonthKey) : MonthKey_eqb a b = true <-> a = b.
Proof. destruct a, b; simpl; split; intros H; congruence. Qed.

Lemma MonthKey_eqb_refl (a : MonthKey) : MonthKey_eqb a a = true.
Proof. destruct a; reflexivity. Qed.

Lemma colGet_app (l : QuotaColumns.MonthCols) (m' m : MonthKey) (c : Z) :
  QuotaColumns.colGet (l ++ [(m', c)]) m
  = match QuotaColumns.colGet l m with
    | Some x => Some x
    | None => if MonthKey_eqb m' m then Some c else None
    end.
Proof.
  induction l as [|[k x] l IH]; simpl; [reflexivity|].
  destruct (MonthKey_eqb k m); [reflexivity | exact IH].
Qed.

Lemma colGet_setOnce (cols : QuotaColumns.MonthCols) (m' m : MonthKey) (c : Z) :
  QuotaColumns.colGet (QuotaColumns.setOnce cols m' c) m
  = match QuotaColumns.colGet cols m with
    | Some x => Some x
    | None => if MonthKey_eqb m' m then Some c else None
    end.
Proof.
  unfold QuotaColumns.setOnce.
  destruct (QuotaColumns.colGet cols m') as [x|] eqn:E.
  - destruct (QuotaColumns.colGet cols m) eqn:E'; [reflexivity|].
    destruct (MonthKey_eqb m' m) eqn:K; [|reflexivity].
    apply MonthKey_eqb_eq in K. congruence.
  - apply colGet_app.
Qed.

Lemma monthStep_get (isComp2 isY2Y3 : bool) (h hUpper : string) (c : Z)
  (cs : QuotaColumns.Cols) (m' : MonthKey) (b : Spec.Bucket) (m : MonthKey) :
  QuotaColumns.colGet
    (Props.colsOf (QuotaColumns.monthStep isComp2 isY2Y3 h hUpper c cs m') b) m
  = match QuotaColumns.colGet (Props.colsOf cs b) m with
    | Some x => Some x
    | None =>
        if QuotaColumns.endsWithMonth h hUpper m'
           && Props.Bucket_eqb (Props.flagsBucket isComp2 isY2Y3) b
           && MonthKey_eqb m' m
        then Some c else None
    end.
Proof.
  unfold QuotaColumns.monthStep.
  destruct (QuotaColumns.endsWithMonth h hUpper m'); cbn [negb andb].
  - destruct cs as [a1 a2 a3 a4].
    destruct isComp2, isY2Y3, b;
      cbn [andb Props.colsOf Props.flagsBucket Props.Bucket_eqb
           QuotaColumns.comp1Y1Cols QuotaColumns.comp1Y2Y3Cols
           QuotaColumns.comp2Y1Cols QuotaColumns.comp2Y2Y3Cols];
      rewrite ?colGet_setOnce;
      match goal with
      | |- context [QuotaColumns.colGet ?l m] =>
          destruct (QuotaColumns.colGet l m); reflexivity
      end.
  - destruct (QuotaColumns.colGet (Props.colsOf cs b) m); reflexivity.
Qed.

Lemma months_fold_get (isComp2 isY2Y3 : bool) (h hUpper : string) (c : Z)
  (ms : list MonthKey) (cs : QuotaColumns.Cols) (b : Spec.Bucket)
  (m : MonthKey) :
  QuotaColumns.colGet
    (Props.colsOf
       (fold_left (QuotaColumns.monthStep isComp2 isY2Y3 h hUpper c) ms cs) b) m
  = match QuotaColumns.colGet (Props.colsOf cs b) m with
    | Some x => Some x
    | None =>
        if existsb (fun k => MonthKey_eqb k m) ms
           && QuotaColumns.endsWithMonth h hUpper m
           && Props.Bucket_eqb (Props.flagsBucket isComp2 isY2Y3) b
        then Some c else None
    end.
Proof.
  revert cs. induction ms as [|m' ms IH]; intros cs.
  - cbn [fold_left existsb andb].
    destruct (QuotaColumns.colGet (Props.colsOf cs b) m); reflexivity.
  - cbn [fold_left existsb]. rewrite IH, monthStep_get.
    destruct (QuotaColumns.colGet (Props.colsOf cs b) m); [reflexivity|].
    destruct (MonthKey_eqb m' m) eqn:K.
    + apply MonthKey_eqb_eq in K. subst m'. cbn [orb andb].
      destruct (QuotaColumns.endsWithMonth h hUpper m); cbn [andb];
        [|destruct (existsb _ ms); reflexivity].
      destruct (Props.Bucket_eqb _ b); cbn [andb]; [reflexivity|].
      rewrite andb_false_r. reflexivity.
    + rewrite andb_false_r. cbn [orb]. reflexivity.
Qed.

Lemma MONTHS_complete (m : MonthKey) :
  existsb (fun k => MonthKey_eqb k m) QuotaColumns.MONTHS = true.
Proof. destruct m; reflexivity. Qed.

Lemma headerBucket_flags (h : string) :
  Props.flagsBucket (JsText.includes (toUpperCase h) "COMP2")
    (JsText.includes (toUpperCase h) "Y2")
  = Props.headerBucket h.
Proof.
  unfold Props.headerBucket, Props.flagsBucket.
  destruct (JsText.includes _ "COMP2"), (JsText.includes _ "Y2"); reflexivity.
Qed.

Lemma columnStep_get (st : QuotaColumns.Found * QuotaColumns.Cols) (c : Z)
  (v : cell) (b : Spec.Bucket) (m : MonthKey) :
  QuotaColumns.colGet
    (Props.colsOf (snd (QuotaColumns.columnStep numberToString st c v)) b) m
  = match QuotaColumns.colGet (Props.colsOf (snd st) b) m with
    | Some x => Some x
    | None => if Props.isMonthColumn numberToString b m v then Some c else None
    end.
Proof.
  assert (forall s,
            Props.headerText numberToString v = Some s ->
            QuotaColumns.colGet
              (Props.colsOf
                 (fold_left
                    (QuotaColumns.monthStep
                       (JsText.includes (toUpperCase s) "COMP2")
                       (JsText.includes (toUpperCase s) "Y2")
                       s (toUpperCase s) c)
                    QuotaColumns.MONTHS (snd st)) b) m
            = match QuotaColumns.colGet (Props.colsOf (snd st) b) m with
              | Some x => Some x
              | None =>
                  if Props.isMonthColumn numberToString b m v then Some c
                  else None
              end) as G.
  { intros s Hs. rewrite months_fold_get, MONTHS_complete, headerBucket_flags.
    unfold Props.isMonthColumn. rewrite Hs. reflexivity. }
  destruct v as [|n|s].
  - cbn [QuotaColumns.columnStep]. unfold Props.isMonthColumn.
    cbn [Props.headerText].
    destruct (QuotaColumns.colGet (Props.colsOf (snd st) b) m); reflexivity.
  - cbn [QuotaColumns.columnStep snd]. apply G. reflexivity.
  - cbn [QuotaColumns.columnStep snd]. apply G. reflexivity.
Qed.

Lemma scan_get (header : list cell) (c : Z)
  (st : QuotaColumns.Found * QuotaColumns.Cols) (b : Spec.Bucket)
  (m : MonthKey) :
  QuotaColumns.colGet
    (Props.colsOf (snd (QuotaColumns.scan numberToString c header st)) b) m
  = match QuotaColumns.colGet (Props.colsOf (snd st) b) m with
    | Some x => Some x
    | None => Props.firstIndex (Props.isMonthColumn numberToString b m) c header
    end.
Proof.
  revert c st. induction header as [|v rest IH]; intros c st.
  - cbn [QuotaColumns.scan Props.firstIndex].
    destruct (QuotaColumns.colGet (Props.colsOf (snd st) b) m); reflexivity.
  - cbn [QuotaColumns.scan Props.firstIndex]. rewrite IH, columnStep_get.
    destruct (QuotaColumns.colGet (Props.colsOf (snd st) b) m); [reflexivity|].
    destruct (Props.isMonthColumn numberToString b m v); reflexivity.
Qed.

Lemma firstIndex_range (p : cell -> bool) (c : Z) (header : list cell) (i : Z) :
  Props.firstIndex p c header = Some i ->
  c <= i < c + Z.of_nat (List.length header)
  /\ exists v, nth_error header (Z.to_nat (i - c)) = Some v /\ p v = true.
Proof.
  revert c. induction header as [|v rest IH]; intros c; simpl;
    [discriminate|].
  destruct (p v) eqn:E.
  - intros H. inversion H; subst. split; [lia|].
    exists v. replace (i - i) with 0 by lia. auto.
  - intros H. destruct (IH _ H) as (R & w & Hn & Hp). split; [lia|].
    exists w. replace (Z.to_nat (i - c)) with (S (Z.to_nat (i - (c + 1))))
      by lia.
    auto.
Qed.

Lemma colGet_months (f : MonthKey -> Z) (m : MonthKey) :
  QuotaColumns.colGet (map (fun k => (k, f k)) QuotaColumns.MONTHS) m
  = Some (f m).
Proof. destruct m; reflexivity. Qed.

Lemma cols_empty (cols : QuotaColumns.MonthCols) :
  (0 <? List.length cols)%nat
  = existsb (fun m => Validators.isSome (QuotaColumns.colGet cols m))
      QuotaColumns.MONTHS.
Proof.
  destruct cols as [|[k x] rest].
  - reflexivity.
  - cbn [List.length Nat.ltb Nat.leb].
    symmetry. apply existsb_exists. exists k. split.
    + destruct k; simpl; auto 20.
    + cbn [QuotaColumns.colGet]. rewrite MonthKey_eqb_refl. reflexivity.
Qed.

Lemma existsb_same {A : Type} (f g : A -> bool) (l : list A) :
  (forall x, f x = g x) -> existsb f l = existsb g l.
Proof.
  intros E. induction l as [|x l IH]; [reflexivity|]. simpl.
  rewrite E, IH. reflexivity.
Qed.

Lemma detect_cols (header : list cell) (b : Spec.Bucket) (m : MonthKey) :
  QuotaColumns.colGet
    (Props.colsOf
       (snd (QuotaColumns.scan numberToString 0 header
               (QuotaColumns.mkFound None None None None None None None,
                QuotaColumns.mkCols [] [] [] []))) b) m
  = Props.monthColumn numberToString header b m.
Proof. rewrite scan_get. destruct b; reflexivity. Qed.

Lemma optionalCols_spec (header : list cell) (b : Spec.Bucket) :
  QuotaColumns.optionalCols
    (Props.colsOf
       (snd (QuotaColumns.scan numberToString 0 header
               (QuotaColumns.mkFound None None None None None None None,
                QuotaColumns.mkCols [] [] [] []))) b)
  = if Props.bucketPresent numberToString header b
    then Some (map (fun m =>
                      (m, QuotaColumns.orDefault
                            (Props.monthColumn numberToString header b m) (-1)))
                 QuotaColumns.MONTHS)
    else None.
Proof.
  unfold QuotaColumns.optionalCols, Props.bucketPresent.
  rewrite cols_empty.
  rewrite (existsb_same _
             (fun m => Validators.isSome
                         (Props.monthColumn numberToString header b m)))
    by (intros m; rewrite detect_cols; reflexivity).
  destruct (existsb _ QuotaColumns.MONTHS); [|reflexivity].
  f_equal. apply map_ext. intros m. rewrite detect_cols. reflexivity.
Qed.

(** The index objects of the column map, by bucket. *)
Lemma detect_bucketCols (header : list cell) (b : Spec.Bucket) :
  Props.bucketCols (QuotaColumns.detectQuotaColumns numberToString header) b
  = match b with
    | Spec.PrimaryY1 =>
        Some (map (fun m =>
                     (m, QuotaColumns.orDefault
                           (Props.monthColumn numberToString header b m)
                           (QuotaColumns.MONTH_DEFAULTS_LSS m)))
                QuotaColumns.MONTHS)
    | _ =>
        if Props.bucketPresent numberToString header b
        then Some (map (fun m =>
                          (m, QuotaColumns.orDefault
                                (Props.monthColumn numberToString header b m)
                                (-1)))
                     QuotaColumns.MONTHS)
        else None
    end.
Proof.
  unfold QuotaColumns.detectQuotaColumns. cbv zeta.
  destruct b;
    cbn [Props.bucketCols QuotaColumns.y1 QuotaColumns.y2y3
         QuotaColumns.comp2Y1 QuotaColumns.comp2Y2Y3].
  - f_equal. apply map_ext. intros m.
    rewrite <- (detect_cols header Spec.PrimaryY1 m). reflexivity.
  - apply (optionalCols_spec header Spec.PrimaryY2Y3).
  - apply (optionalCols_spec header Spec.SecondaryY1).
  - apply (optionalCols_spec header Spec.SecondaryY2Y3).
Qed.

Lemma monthColumn_nonneg (header : list cell) (b : Spec.Bucket) (m : MonthKey)
  (i : Z) :
  Props.monthColumn numberToString header b m = Some i -> 0 <= i.
Proof. intros H. apply firstIndex_range in H as [R _]. lia. Qed.

Lemma mget_readMonthCols (row : list cell) (indices : QuotaColumns.MonthCols)
  (m : MonthKey) :
  mget (QuotaColumns.readMonthCols row indices) m
  = QuotaColumns.readMonth row indices m.
Proof. destruct m; reflexivity. Qed.

End ColumnFacts.

(** X26. What [detectQuotaColumns] and [readMonthCols] make of a header
    whose texts are ASCII:
    the amount of a month in a bucket is read from the first column
    whose header ends in the month (alone, after a hyphen and a space, or
    after a line feed) and names the bucket.  A month of the primary
    first-year bucket without such a column is read from its default
    column (23 for JUL up to 34 for JUN) all the same; the other buckets
    exist only when some month of theirs has a column, and their months
    without a column read as [null]. *)
Theorem X26_month_columns (numberToString : number -> string)
  (header row : list cell) (b : Spec.Bucket) (m : MonthKey) :
  Props.asciiCells numberToString header = true ->
  let cm := QuotaColumns.detectQuotaColumns numberToString header in
  let found := Props.monthColumn numberToString header b m in
  match b with
  | Spec.PrimaryY1 =>
      mget (QuotaColumns.readMonthCols row (QuotaColumns.y1 cm)) m
      = ExcelCells.cellVal row
          (QuotaColumns.orDefault found (QuotaColumns.MONTH_DEFAULTS_LSS m))
  | _ =>
      (Props.bucketCols cm b = None
       <-> forall m', Props.monthColumn numberToString header b m' = None)
      /\ forall indices,
           Props.bucketCols cm b = Some indices ->
           mget (QuotaColumns.readMonthCols row indices) m
           = match found with
             | Some c => ExcelCells.cellVal row c
             | None => CNull
             end
  end.
Proof.
  intros _ cm found. subst cm found.
  assert (b <> Spec.PrimaryY1 ->
          (Props.bucketCols
             (QuotaColumns.detectQuotaColumns numberToString header) b = None
           <-> forall m', Props.monthColumn numberToString header b m' = None)
          /\ forall indices,
               Props.bucketCols
                 (QuotaColumns.detectQuotaColumns numberToString header) b
               = Some indices ->
               mget (QuotaColumns.readMonthCols row indices) m
               = match Props.monthColumn numberToString header b m with
                 | Some c => ExcelCells.cellVal row c
                 | None => CNull
                 end) as Other.
  { intros NB.
    assert (Props.bucketCols
              (QuotaColumns.detectQuotaColumns numberToString header) b
            = if Props.bucketPresent numberToString header b
              then Some (map (fun m =>
                                (m, QuotaColumns.orDefault
                                      (Props.monthColumn numberToString
                                         header b m) (-1)))
                           QuotaColumns.MONTHS)
              else None) as D
      by (rewrite detect_bucketCols; destruct b; congruence).
    rewrite D. split.
    + unfold Props.bucketPresent.
      destruct (existsb _ QuotaColumns.MONTHS) eqn:E.
      * split; [discriminate|]. intros No.
        apply existsb_exists in E as (k & _ & Hk). rewrite No in Hk.
        discriminate.
      * split; [|reflexivity]. intros _ m'.
        destruct (Props.monthColumn numberToString header b m') eqn:E';
          [|reflexivity].
        assert (existsb
                  (fun m0 => Validators.isSome
                               (Props.monthColumn numberToString header b m0))
                  QuotaColumns.MONTHS = true) as T; [|congruence].
        apply existsb_exists. exists m'. rewrite E'.
        split; [destruct m'; simpl; auto 20 | reflexivity].
    + intros indices H.
      destruct (Props.bucketPresent numberToString header b); [|discriminate].
      assert (indices
              = map (fun m =>
                       (m, QuotaColumns.orDefault
                             (Props.monthColumn numberToString header b m)
                             (-1)))
                  QuotaColumns.MONTHS) as -> by congruence.
      rewrite mget_readMonthCols.
      unfold QuotaColumns.readMonth. rewrite colGet_months.
      destruct (Props.monthColumn numberToString header b m) as [i|] eqn:E;
        cbn [QuotaColumns.orDefault]; [|reflexivity].
      apply monthColumn_nonneg in E. apply Z.leb_le in E. rewrite E.
      reflexivity. }
  destruct b; try (apply Other; discriminate).
  pose proof (detect_bucketCols numberToString header Spec.PrimaryY1) as D.
  cbn [Props.bucketCols] in D.
  assert (QuotaColumns.y1
            (QuotaColumns.detectQuotaColumns numberToString header)
          = map (fun m =>
                   (m, QuotaColumns.orDefault
                         (Props.monthColumn numberToString header
                            Spec.PrimaryY1 m)
                         (QuotaColumns.MONTH_DEFAULTS_LSS m)))
              QuotaColumns.MONTHS) as -> by congruence.
  rewrite mget_readMonthCols. unfold QuotaColumns.readMonth.
  rewrite colGet_months.
  destruct (Props.monthColumn numberToString header Spec.PrimaryY1 m)
    as [i|] eqn:E; cbn [QuotaColumns.orDefault].
  - apply monthColumn_nonneg in E. apply Z.leb_le in E. rewrite E.
    reflexivity.
  - destruct m; reflexivity.
Qed.


Lemma X26_month_columns_witness :
  mget
    (QuotaColumns.readMonthCols [CStr "E1"; CNum (Finite 1); CNum (Finite 2)]
       match QuotaColumns.y2y3
               (QuotaColumns.detectQuotaColumns (fun _ => "")
                  [CStr "EID"; CStr "Comp1: Y1 - JUL"; CStr "Y2 & Y3 - JUL"])
       with
       | Some indices => indices
       | None => []
       end)
    JUL
  = CNum (Finite 2).
Proof.
  destruct (X26_month_columns (fun _ => "")
              [CStr "EID"; CStr "Comp1: Y1 - JUL"; CStr "Y2 & Y3 - JUL"]
              [CStr "E1"; CNum (Finite 1); CNum (Finite 2)]
              Spec.PrimaryY2Y3 JUL eq_refl) as [_ H].
  exact (H match QuotaColumns.y2y3
                   (QuotaColumns.detectQuotaColumns (fun _ => "")
                      [CStr "EID"; CStr "Comp1: Y1 - JUL";
                       CStr "Y2 & Y3 - JUL"])
           with
           | Some indices => indices
           | None => []
           end eq_refl).
Defined.

Section MetaFacts.

Variable numberToString : number -> string.

Lemma metaStep_found (res : QuotaColumns.Found) (h : string) (c : Z)
  (k : Props.MetaKind) :
  Props.foundOf (QuotaColumns.metaStep res h (toLowerCase h) c) k
  = match Props.metaKind h with
    | Some k' => if Props.MetaKind_eqb k' k then Some c else Props.foundOf res k
    | None => Props.foundOf res k
    end.
Proof.
  unfold QuotaColumns.metaStep, Props.metaKind. destruct res. cbv zeta.
  repeat match goal with
         | |- context [if ?b then _ else _] =>
             match b with
             | Props.MetaKind_eqb _ _ => fail 1
             | _ => destruct b
             end
         end;
    destruct k; reflexivity.
Qed.

Lemma columnStep_found (st : QuotaColumns.Found * QuotaColumns.Cols) (c : Z)
  (v : cell) (k : Props.MetaKind) :
  Props.foundOf (fst (QuotaColumns.columnStep numberToString st c v)) k
  = if Props.isMetaColumn numberToString k v then Some c
    else Props.foundOf (fst st) k.
Proof.
  unfold Props.isMetaColumn.
  destruct v as [|n|s]; cbn [QuotaColumns.columnStep fst Props.headerText];
    [reflexivity| |];
    rewrite metaStep_found;
    destruct (Props.metaKind _) as [k'|]; reflexivity.
Qed.

Lemma scan_found (header : list cell) (c : Z)
  (st : QuotaColumns.Found * QuotaColumns.Cols) (k : Props.MetaKind) :
  Props.foundOf (fst (QuotaColumns.scan numberToString c header st)) k
  = match Props.lastIndex (Props.isMetaColumn numberToString k) c header with
    | Some i => Some i
    | None => Props.foundOf (fst st) k
    end.
Proof.
  revert c st. induction header as [|v rest IH]; intros c st; [reflexivity|].
  cbn [QuotaColumns.scan Props.lastIndex]. rewrite IH, columnStep_found.
  destruct (Props.lastIndex _ (c + 1) rest); [reflexivity|].
  destruct (Props.isMetaColumn numberToString k v); reflexivity.
Qed.

End MetaFacts.

(** X27. The seven descriptive columns of a quota sheet whose header
    texts are ASCII: a header text names at most one of them, by the first rule of the chain that
    applies, and of the columns that name one the last wins; a kind that
    no header names falls back to its fixed position (0, 1, 2, 3, 9, 11),
    the dual-metric column to -1. *)
Theorem X27_meta_columns (numberToString : number -> string)
  (header : list cell) (k : Props.MetaKind) :
  Props.asciiCells numberToString header = true ->
  Props.metaColumn (QuotaColumns.detectQuotaColumns numberToString header) k
  = QuotaColumns.orDefault
      (Props.lastIndex (Props.isMetaColumn numberToString k) 0 header)
      (Props.metaDefault k).
Proof.
  intros _.
  pose proof (scan_found numberToString header 0
                (QuotaColumns.mkFound None None None None None None None,
                 QuotaColumns.mkCols [] [] [] []) k) as S.
  unfold QuotaColumns.detectQuotaColumns. cbv zeta.
  destruct k;
    cbn [Props.metaColumn Props.foundOf Props.metaDefault
         QuotaColumns.colSubmissionMonth QuotaColumns.colEid
         QuotaColumns.colName QuotaColumns.colLevel QuotaColumns.colRepRegion
         QuotaColumns.colQuotaStartDate QuotaColumns.colDualMetric] in *;
    rewrite S;
    destruct (Props.lastIndex _ 0 header); reflexivity.
Qed.

Lemma X27_meta_columns_witness :
  map (Props.metaColumn
         (QuotaColumns.detectQuotaColumns (fun _ => "")
            [CStr "Submission Month"; CStr " EID "; CNull; CStr "Name";
             CStr "Rep Region (SCR)"; CStr "EID"]))
    [Props.KEid; Props.KName; Props.KLevel; Props.KRepRegion]
  = [5; 3; 3; 4].
Proof.
  cbn [map].
  rewrite !(X27_meta_columns (fun _ => "")
              [CStr "Submission Month"; CStr " EID "; CNull; CStr "Name";
               CStr "Rep Region (SCR)"; CStr "EID"] _ eq_refl).
  reflexivity.
Defined.

Example detect_example :
  let cm := QuotaColumns.detectQuotaColumns (fun _ => "")
              [CStr "Submission Month"; CStr " EID "; CNull; CStr "Name";
               CStr "Rep Region (SCR)"; CStr "Comp1: Y1 - JUL"; CStr "JUL";
               CStr "comp2: y2 & y3 - aug"; CStr "EID"] in
  (QuotaColumns.colSubmissionMonth cm, QuotaColumns.colEid cm,
   QuotaColumns.colName cm, QuotaColumns.colLevel cm,
   QuotaColumns.colRepRegion cm, QuotaColumns.colDualMetric cm)
  = (0, 8, 3, 3, 4, -1)
  /\ QuotaColumns.colGet (QuotaColumns.y1 cm) JUL = Some 5
  /\ QuotaColumns.colGet (QuotaColumns.y1 cm) AUG = Some 24
  /\ QuotaColumns.y2y3 cm = None
  /\ option_map (fun i => (QuotaColumns.colGet i JUL, QuotaColumns.colGet i AUG))
       (QuotaColumns.comp2Y2Y3 cm)
     = Some (Some (-1), Some 7).
Proof. repeat split; reflexivity. Qed.

(** ** The records of a quota sheet *)

Section SheetFacts.

Variable numberToString : number -> string.
Variable parseDate : cell -> option Date.

Lemma rowsFrom_In (label : string) (cm : QuotaColumns.QuotaColumnMap)
  (rows : list (option (list cell))) (i : Z) (rec : QuotaRecord) :
  In rec (QuotaColumns.rowsFrom numberToString parseDate label cm i rows) ->
  exists j row,
    nth_error rows j = Some row
    /\ QuotaColumns.recordOfRow numberToString parseDate label cm
         (i + Z.of_nat j) row = Some rec.
Proof.
  revert i. induction rows as [|row rest IH]; intros i; simpl;
    [contradiction|].
  assert (forall H : In rec (QuotaColumns.rowsFrom numberToString parseDate
                               label cm (i + 1) rest),
            exists j r,
              nth_error (row :: rest) j = Some r
              /\ QuotaColumns.recordOfRow numberToString parseDate label cm
                   (i + Z.of_nat j) r = Some rec) as Later.
  { intros H. destruct (IH _ H) as (j & r & Hn & Hr).
    exists (S j), r. split; [exact Hn|].
    replace (i + Z.of_nat (S j)) with (i + 1 + Z.of_nat j) by lia. exact Hr. }
  destruct (QuotaColumns.recordOfRow numberToString parseDate label cm i row)
    as [r0|] eqn:E; [|exact Later].
  intros [<-|H]; [|exact (Later H)].
  exists 0%nat, row. split; [reflexivity|].
  replace (i + Z.of_nat 0) with i by lia. exact E.
Qed.

Lemma readMonth_months (row : list cell) (g : MonthKey -> option Z)
  (d : MonthKey -> Z) (m : MonthKey) :
  (forall i, g m = Some i -> 0 <= i) ->
  QuotaColumns.readMonth row
    (map (fun k => (k, QuotaColumns.orDefault (g k) (d k))) QuotaColumns.MONTHS)
    m
  = match g m with
    | Some c => ExcelCells.cellVal row c
    | None => if 0 <=? d m then ExcelCells.cellVal row (d m) else CNull
    end.
Proof.
  intros P. unfold QuotaColumns.readMonth.
  rewrite (colGet_months (fun k => QuotaColumns.orDefault (g k) (d k))).
  destruct (g m) as [i|] eqn:E; cbn [QuotaColumns.orDefault]; [|reflexivity].
  assert ((0 <=? i) = true) as -> by (apply Z.leb_le, P; reflexivity).
  reflexivity.
Qed.

(** The amounts of a record that was read with the column map of a
    header. *)
Lemma bucketCell_read (header cells : list cell) (rec : QuotaRecord)
  (b : Spec.Bucket) (m : MonthKey) :
  let cm := QuotaColumns.detectQuotaColumns numberToString header in
  monthlyQuotas rec = QuotaColumns.readMonthCols cells (QuotaColumns.y1 cm) ->
  monthlyQuotasY2Y3 rec
  = option_map (QuotaColumns.readMonthCols cells) (QuotaColumns.y2y3 cm) ->
  monthlyQuotasComp2 rec
  = option_map (QuotaColumns.readMonthCols cells) (QuotaColumns.comp2Y1 cm) ->
  monthlyQuotasComp2Y2Y3 rec
  = option_map (QuotaColumns.readMonthCols cells) (QuotaColumns.comp2Y2Y3 cm) ->
  Spec.bucketCell rec b m
  = match Props.monthColumn numberToString header b m with
    | Some c => ExcelCells.cellVal cells c
    | None =>
        match b with
        | Spec.PrimaryY1 =>
            ExcelCells.cellVal cells (QuotaColumns.MONTH_DEFAULTS_LSS m)
        | _ => CNull
        end
    end
  /\ match b with
     | Spec.PrimaryY1 => True
     | Spec.PrimaryY2Y3 =>
         Validators.isSome (monthlyQuotasY2Y3 rec)
         = Props.bucketPresent numberToString header b
     | Spec.SecondaryY1 =>
         Validators.isSome (monthlyQuotasComp2 rec)
         = Props.bucketPresent numberToString header b
     | Spec.SecondaryY2Y3 =>
         Validators.isSome (monthlyQuotasComp2Y2Y3 rec)
         = Props.bucketPresent numberToString header b
     end.
Proof.
  intros cm E1 E2 E3 E4.
  pose proof (detect_bucketCols numberToString header b) as D. fold cm in D.
  assert (forall i, Props.monthColumn numberToString header b m = Some i ->
                    0 <= i) as NN
    by (intros i; apply monthColumn_nonneg).
  assert (Props.bucketPresent numberToString header b = false ->
          Props.monthColumn numberToString header b m = None) as Absent.
  { intros F. destruct (Props.monthColumn numberToString header b m) eqn:E;
      [|reflexivity].
    assert (Props.bucketPresent numberToString header b = true) as T;
      [|congruence].
    apply existsb_exists. exists m. rewrite E.
    split; [destruct m; simpl; auto 20 | reflexivity]. }
  unfold Spec.bucketCell.
  destruct b; cbn [Props.bucketCols] in D.
  - split; [|exact I]. rewrite E1, mget_readMonthCols.
    assert (QuotaColumns.y1 cm
            = map (fun k =>
                     (k, QuotaColumns.orDefault
                           (Props.monthColumn numberToString header
                              Spec.PrimaryY1 k)
                           (QuotaColumns.MONTH_DEFAULTS_LSS k)))
                QuotaColumns.MONTHS) as -> by congruence.
    rewrite (readMonth_months cells _ _ m NN).
    destruct (Props.monthColumn _ _ _ m); [reflexivity|].
    destruct m; reflexivity.
  - rewrite E2, D.
    destruct (Props.bucketPresent numberToString header Spec.PrimaryY2Y3);
      cbn [option_map Validators.isSome].
    + split; [|reflexivity]. rewrite mget_readMonthCols.
      rewrite (readMonth_months cells _ (fun _ => -1) m NN).
      destruct (Props.monthColumn _ _ _ m); reflexivity.
    + rewrite (Absent eq_refl). split; reflexivity.
  - rewrite E3, D.
    destruct (Props.bucketPresent numberToString header Spec.SecondaryY1);
      cbn [option_map Validators.isSome].
    + split; [|reflexivity]. rewrite mget_readMonthCols.
      rewrite (readMonth_months cells _ (fun _ => -1) m NN).
      destruct (Props.monthColumn _ _ _ m); reflexivity.
    + rewrite (Absent eq_refl). split; reflexivity.
  - rewrite E4, D.
    destruct (Props.bucketPresent numberToString header Spec.SecondaryY2Y3);
      cbn [option_map Validators.isSome].
    + split; [|reflexivity]. rewrite mget_readMonthCols.
      rewrite (readMonth_months cells _ (fun _ => -1) m NN).
      destruct (Props.monthColumn _ _ _ m); reflexivity.
    + rewrite (Absent eq_refl). split; reflexivity.
Qed.

End SheetFacts.

(** X28. Every record that [parseQuotaFile] takes from a sheet whose
    texts are ASCII comes from a row of index 6 or more, carries the sheet label, the row number
    (index plus one, so 7 or more) and the submission date that
    [parseDate] makes of the cell in the submission column; its amount
    for a month of a bucket is the cell of that row in the first column
    the header gives the month and the bucket (the default column for the
    primary first-year bucket, [null] for the others, when there is
    none), and whether it has the years-two-and-three bucket and the
    secondary buckets is decided by the header alone, so alike for all
    records of the sheet. *)
Theorem X28_sheet_records (numberToString : number -> string)
  (parseDate : cell -> option Date) (label : string)
  (rows : list (option (list cell))) (rec : QuotaRecord) :
  Props.asciiRows numberToString rows = true ->
  In rec (QuotaColumns.sheetRecords numberToString parseDate label rows) ->
  exists header cells d,
    nth_error rows 4 = Some (Some header)
    /\ 7 <= row rec
    /\ nth_error rows (Z.to_nat (row rec - 1)) = Some (Some cells)
    /\ sheet rec = label
    /\ submissionMonth rec = Some d
    /\ parseDate
         (ExcelCells.cellVal cells
            (QuotaColumns.colSubmissionMonth
               (QuotaColumns.detectQuotaColumns numberToString header)))
       = Some d
    /\ (forall b m,
          Spec.bucketCell rec b m
          = match Props.monthColumn numberToString header b m with
            | Some c => ExcelCells.cellVal cells c
            | None =>
                match b with
                | Spec.PrimaryY1 =>
                    ExcelCells.cellVal cells (QuotaColumns.MONTH_DEFAULTS_LSS m)
                | _ => CNull
                end
            end)
    /\ Validators.isSome (monthlyQuotasY2Y3 rec)
       = Props.bucketPresent numberToString header Spec.PrimaryY2Y3
    /\ Validators.isSome (monthlyQuotasComp2 rec)
       = Props.bucketPresent numberToString header Spec.SecondaryY1
    /\ Validators.isSome (monthlyQuotasComp2Y2Y3 rec)
       = Props.bucketPresent numberToString header Spec.SecondaryY2Y3.
Proof.
  unfold QuotaColumns.sheetRecords. intros _ H.
  destruct (nth_error rows 4) as [[header|]|] eqn:Hh; try contradiction.
  apply rowsFrom_In in H as (j & row & Hn & Hr).
  unfold QuotaColumns.recordOfRow in Hr.
  destruct row as [cells|]; [|discriminate].
  destruct (parseDate _) as [d|] eqn:Pd; [|discriminate].
  apply (f_equal (fun o => match o with Some r => r | None => rec end)) in Hr.
  cbv beta iota in Hr. subst rec.
  exists header, cells, d. cbn [row sheet submissionMonth].
  split; [reflexivity|]. split; [lia|]. split.
  { replace (Z.to_nat (6 + Z.of_nat j + 1 - 1)) with (6 + j)%nat by lia.
    rewrite <- Hn. symmetry. apply nth_error_skipn. }
  split; [reflexivity|]. split; [reflexivity|]. split; [exact Pd|].
  split.
  - intros b m.
    apply (bucketCell_read numberToString header cells _ b m); reflexivity.
  - repeat split.
    + apply (bucketCell_read numberToString header cells _ Spec.PrimaryY2Y3
               JUL); reflexivity.
    + apply (bucketCell_read numberToString header cells _ Spec.SecondaryY1
               JUL); reflexivity.
    + apply (bucketCell_read numberToString header cells _ Spec.SecondaryY2Y3
               JUL); reflexivity.
Qed.

Lemma X28_sheet_records_witness :
  row Samples.sheetRecord = 7 /\ eid Samples.sheetRecord = "E1"
  /\ Spec.bucketCell Samples.sheetRecord Spec.PrimaryY2Y3 JUL = Samples.num 20.
Proof.
  destruct (X28_sheet_records Samples.serialText Samples.serialDate
              "LSS Quota" Samples.quotaSheet Samples.sheetRecord
              eq_refl (or_introl eq_refl))
    as (header & cells & d & Hh & _ & Hc & _ & _ & _ & Hb & _).
  split; [reflexivity|]. split; [reflexivity|].
  rewrite Hb. injection Hh as <-. injection Hc as <-. reflexivity.
Defined.

(** ** The roster file *)

Lemma trimStart_head (s : string) (c : ascii) (r : string) :
  trimStart s = String c r -> isSpace c = false.
Proof.
  induction s as [|x s IH]; simpl; [discriminate|].
  destruct (isSpace x) eqn:E; [exact IH|].
  intros H. inversion H; subst. exact E.
Qed.

Lemma trimStart_fixed (s : string) :
  match s with EmptyString => True | String c _ => isSpace c = false end ->
  trimStart s = s.
Proof. destruct s as [|c r]; simpl; [reflexivity|]. intros ->. reflexivity. Qed.

Lemma trimEnd_head (s : string) (c : ascii) (r : string) :
  trimEnd s = String c r -> exists r', s = String c r'.
Proof.
  destruct s as [|x s]; simpl; [discriminate|].
  destruct (trimEnd s); [destruct (isSpace x); [discriminate|]|];
    intros H; inversion H; subst; eauto.
Qed.

Lemma trimEnd_idem (s : string) : trimEnd (trimEnd s) = trimEnd s.
Proof.
  induction s as [|x s IH]; [reflexivity|]. cbn [trimEnd].
  destruct (trimEnd s) as [|a b] eqn:E.
  - destruct (isSpace x) eqn:Sx; [reflexivity|].
    cbn [trimEnd]. rewrite Sx. reflexivity.
  - cbn [trimEnd]. cbn [trimEnd] in IH.
    destruct (trimEnd b) as [|a' b'] eqn:E'.
    + destruct (isSpace a); [discriminate|]. rewrite IH. reflexivity.
    + rewrite IH. reflexivity.
Qed.

Lemma trim_idem (s : string) : trim (trim s) = trim s.
Proof.
  unfold trim.
  destruct (trimEnd (trimStart s)) as [|c r] eqn:E; [reflexivity|].
  rewrite trimStart_fixed.
  - rewrite <- E. apply trimEnd_idem.
  - apply trimEnd_head in E as (r' & E). apply trimStart_head in E. exact E.
Qed.

Section RosterFacts.

Variable numberToString : number -> string.

Lemma findHeader_spec (rows : list (option (list cell))) (i : Z) :
  0 <= i ->
  (ReferenceFile.findHeader numberToString i rows = -1
   /\ Forall (fun r => ReferenceFile.isHeaderRow numberToString r = false) rows)
  \/ exists j row,
       ReferenceFile.findHeader numberToString i rows = i + Z.of_nat j
       /\ nth_error rows j = Some row
       /\ ReferenceFile.isHeaderRow numberToString row = true
       /\ Forall (fun r => ReferenceFile.isHeaderRow numberToString r = false)
            (firstn j rows).
Proof.
  revert i. induction rows as [|row rest IH]; intros i Hi.
  - left. split; [reflexivity | constructor].
  - cbn [ReferenceFile.findHeader].
    destruct (ReferenceFile.isHeaderRow numberToString row) eqn:E.
    + right. exists 0%nat, row.
      split; [lia|]. split; [reflexivity|]. split; [exact E | constructor].
    + destruct (IH (i + 1) ltac:(lia)) as [[F A]|(j & r & F & Hn & Hr & A)].
      * left. split; [exact F | constructor; assumption].
      * right. exists (S j), r.
        split; [lia|]. split; [exact Hn|]. split; [exact Hr|].
        cbn [firstn]. constructor; assumption.
Qed.

Lemma fillColMap_get (header : list cell) (c : Z) (m0 : list (string * Z))
  (name : string) :
  JsMap.get (ReferenceFile.fillColMap numberToString c header m0) name
  = match Props.lastIndex (Props.isNamed numberToString name) c header with
    | Some i => Some i
    | None => JsMap.get m0 name
    end.
Proof.
  revert c m0. induction header as [|v rest IH]; intros c m0; [reflexivity|].
  cbn [ReferenceFile.fillColMap Props.lastIndex]. rewrite IH.
  destruct (Props.lastIndex _ (c + 1) rest); [reflexivity|].
  unfold Props.isNamed.
  assert (forall h,
            JsMap.get (JsMap.set m0 h c) name
            = if (h =? name)%string then Some c else JsMap.get m0 name) as G.
  { intros h. destruct (h =? name)%string eqn:E.
    - apply String.eqb_eq in E. subst h. apply get_set_same.
    - apply get_set_other. intros ->. rewrite String.eqb_refl in E.
      discriminate. }
  destruct v as [|n|s]; cbn [Props.headerText]; [reflexivity| |];
    rewrite G; destruct (_ =? name)%string; reflexivity.
Qed.

Lemma column_spec (header : list cell) (name : string) (d : Z) :
  ReferenceFile.column
    (ReferenceFile.fillColMap numberToString 0 header []) name d
  = QuotaColumns.orDefault
      (Props.lastIndex (Props.isNamed numberToString name) 0 header) d.
Proof.
  unfold ReferenceFile.column. rewrite fillColMap_get.
  destruct (Props.lastIndex _ 0 header); reflexivity.
Qed.

Lemma collect_In (colMap : list (string * Z))
  (rows : list (option (list cell))) (r : ReferenceRecord) :
  In r (ReferenceFile.collect numberToString colMap rows) ->
  exists j cells,
    nth_error rows j = Some (Some cells)
    /\ ReferenceFile.recordOfRow numberToString colMap (Some cells) = Some r.
Proof.
  induction rows as [|row rest IH]; simpl; [contradiction|].
  assert (In r (ReferenceFile.collect numberToString colMap rest) ->
          exists j cells,
            nth_error (row :: rest) j = Some (Some cells)
            /\ ReferenceFile.recordOfRow numberToString colMap (Some cells)
               = Some r) as Later.
  { intros H. destruct (IH H) as (j & cells & Hn & Hr).
    exists (S j), cells. auto. }
  destruct (ReferenceFile.recordOfRow numberToString colMap row) as [r0|] eqn:E;
    [|exact Later].
  intros [<-|H]; [|exact (Later H)].
  destruct row as [cells|]; [|discriminate].
  exists 0%nat, cells. auto.
Qed.

Lemma collect_length (colMap : list (string * Z))
  (rows : list (option (list cell))) :
  (List.length (ReferenceFile.collect numberToString colMap rows)
   <= List.length rows)%nat.
Proof.
  induction rows as [|row rest IH]; simpl; [lia|].
  destruct (ReferenceFile.recordOfRow numberToString colMap row); simpl; lia.
Qed.

Lemma nth_error_firstn_lt {A : Type} (l : list A) (n i : nat) :
  (i < n)%nat -> nth_error (firstn n l) i = nth_error l i.
Proof.
  revert n i. induction l as [|x l IH]; intros n i H.
  - rewrite firstn_nil. reflexivity.
  - destruct n as [|n]; [lia|]. destruct i as [|i]; [reflexivity|].
    simpl. apply IH. lia.
Qed.

Lemma parseReference_cases (rows : list (option (list cell))) :
  (ReferenceFile.parseReferenceFile numberToString rows
   = Throw ReferenceFile.noHeaderMessage
   /\ Forall (fun r => ReferenceFile.isHeaderRow numberToString r = false)
        (firstn 20 rows))
  \/ exists i header,
       (i < 20)%nat
       /\ nth_error rows i = Some (Some header)
       /\ existsb (ReferenceFile.isHeaderCell numberToString) header = true
       /\ Forall (fun r => ReferenceFile.isHeaderRow numberToString r = false)
            (firstn i rows)
       /\ ReferenceFile.parseReferenceFile numberToString rows
          = Ok (ReferenceFile.collect numberToString
                  (ReferenceFile.fillColMap numberToString 0 header [])
                  (skipn (S i) rows)).
Proof.
  unfold ReferenceFile.parseReferenceFile. cbv zeta.
  destruct (findHeader_spec (firstn 20 rows) 0 ltac:(lia))
    as [[F A]|(j & row & F & Hn & Hr & A)].
  - left. rewrite F. split; [reflexivity | exact A].
  - right. rewrite F.
    assert ((j < 20)%nat /\ nth_error rows j = Some row) as [Lt Hn'].
    { assert (j < List.length (firstn 20 rows))%nat as L
        by (apply nth_error_Some; congruence).
      rewrite length_firstn in L. split; [lia|].
      rewrite <- Hn. symmetry. apply nth_error_firstn_lt. lia. }
    destruct row as [header|]; [|discriminate].
    exists j, header. split; [exact Lt|]. split; [exact Hn'|].
    split; [exact Hr|]. split.
    + rewrite firstn_firstn in A.
      replace (Nat.min j 20) with j in A by lia. exact A.
    + assert ((0 + Z.of_nat j =? -1) = false) as -> by (apply Z.eqb_neq; lia).
      replace (Z.to_nat (0 + Z.of_nat j)) with j by lia.
      replace (Z.to_nat (0 + Z.of_nat j + 1)) with (S j) by lia.
      rewrite Hn'. reflexivity.
Qed.

Lemma strVal_trimmed (row : list cell) (c : Z) :
  trim (ExcelCells.strVal numberToString row c)
  = ExcelCells.strVal numberToString row c.
Proof.
  unfold ExcelCells.strVal.
  destruct (ExcelCells.cellVal row c); [reflexivity | apply trim_idem ..].
Qed.

Lemma orNull_clean (s : string) :
  trim s = s ->
  JsText.orNull s <> Some ""
  /\ (forall t, JsText.orNull s = Some t -> t = s /\ trim t = t)
  /\ truthy (JsText.orNull s) = Validators.isSome (JsText.orNull s).
Proof.
  intros T. unfold JsText.orNull.
  destruct (s =? "")%string eqn:E.
  - split; [discriminate|]. split; [discriminate | reflexivity].
  - split; [|split].
    + intros H. inversion H; subst. discriminate.
    + intros t H. inversion H; subst. split; [reflexivity | exact T].
    + simpl. rewrite E. reflexivity.
Qed.

End RosterFacts.

(** X29. [parseReferenceFile] throws its error exactly when none of the
    first twenty rows holds a cell whose trimmed text, in lower case,
    contains the words employee id.  Otherwise the first such row is the
    header and there are at most as many records as later rows; when the
    texts of the sheet are ASCII, every record comes from a row after
    the header and has the trimmed text of its identifier column. *)
Theorem X29_reference_header (numberToString : number -> string)
  (rows : list (option (list cell))) :
  (ReferenceFile.parseReferenceFile numberToString rows
   = Throw ReferenceFile.noHeaderMessage
   <-> Forall (fun r => ReferenceFile.isHeaderRow numberToString r = false)
         (firstn 20 rows))
  /\ forall recs,
       ReferenceFile.parseReferenceFile numberToString rows = Ok recs ->
       exists i header,
         (i < 20)%nat
         /\ nth_error rows i = Some (Some header)
         /\ existsb (ReferenceFile.isHeaderCell numberToString) header = true
         /\ Forall (fun r => ReferenceFile.isHeaderRow numberToString r = false)
              (firstn i rows)
         /\ (List.length recs <= List.length rows - S i)%nat
         /\ (Props.asciiRows numberToString rows = true ->
             forall r, In r recs ->
              exists j cells,
                (i < j)%nat /\ nth_error rows j = Some (Some cells)
                /\ refEid r
                   = ExcelCells.strVal numberToString cells
                       (QuotaColumns.orDefault
                          (Props.lastIndex
                             (Props.isNamed numberToString "Employee ID")
                             0 header) 0)).
Proof.
  destruct (parseReference_cases numberToString rows)
    as [[T A]|(i & header & Lt & Hn & Hc & A & P)].
  - split; [split; auto|]. intros recs H. rewrite T in H. discriminate.
  - split.
    + rewrite P. split; [discriminate|]. intros F. exfalso.
      assert (In (Some header) (firstn 20 rows)) as Hin.
      { apply (nth_error_In _ i). rewrite nth_error_firstn_lt by lia.
        exact Hn. }
      rewrite Forall_forall in F. apply F in Hin. cbn in Hin. congruence.
    + intros recs H. rewrite P in H.
      assert (recs = ReferenceFile.collect numberToString
                       (ReferenceFile.fillColMap numberToString 0 header [])
                       (skipn (S i) rows)) as -> by (unfold Ok in H; congruence).
      exists i, header. repeat split; auto.
      * rewrite <- length_skipn. apply collect_length.
      * intros _ r Hr. apply collect_In in Hr as (j & cells & Hj & Hr).
        exists (S i + j)%nat, cells. split; [lia|]. split.
        -- rewrite <- Hj. symmetry. apply nth_error_skipn.
        -- unfold ReferenceFile.recordOfRow in Hr. cbv zeta in Hr.
           rewrite column_spec in Hr.
           destruct (_ =? "")%string; [discriminate|].
           inversion Hr. reflexivity.
Qed.

Lemma X29_reference_header_witness :
  (List.length
     (Samples.recordsOf
        (ReferenceFile.parseReferenceFile Samples.serialText
           Samples.rosterSheet))
   <= 3)%nat.
Proof.
  destruct (X29_reference_header Samples.serialText Samples.rosterSheet)
    as [_ H].
  destruct (H (Samples.recordsOf
                 (ReferenceFile.parseReferenceFile Samples.serialText
                    Samples.rosterSheet)) eq_refl)
    as (i & header & _ & _ & _ & _ & L & _).
  simpl List.length in L at 2. lia.
Defined.

(** X30. A record of a roster whose texts are ASCII is made of the
    trimmed texts of one row: each field is read in the column whose
    header cell has exactly the name of the field, the last such cell if
    there are several, and in a fixed position (0, 3, 8, 9, 28, 15) if
    there is none.  Its identifier is never blank, and a blank status,
    leave, country or title is [null], never the empty text: for the
    validators such a field is present exactly when it says something. *)
Theorem X30_reference_records (numberToString : number -> string)
  (rows : list (option (list cell))) (recs : list ReferenceRecord)
  (r : ReferenceRecord) :
  Props.asciiRows numberToString rows = true ->
  ReferenceFile.parseReferenceFile numberToString rows = Ok recs ->
  In r recs ->
  (exists header cells,
     In (Some header) (firstn 20 rows) /\ In (Some cells) rows
     /\ let str name d :=
          ExcelCells.strVal numberToString cells
            (QuotaColumns.orDefault
               (Props.lastIndex (Props.isNamed numberToString name) 0 header)
               d) in
        refEid r = str "Employee ID" 0
        /\ fullName r = str "Full Legal Name" 3
        /\ activeStatus r = JsText.orNull (str "Active Status" 8)
        /\ onLeave r = JsText.orNull (str "On Leave" 9)
        /\ country r = JsText.orNull (str "Country" 28)
        /\ jobTitle r = JsText.orNull (str "Job Title" 15))
  /\ refEid r <> "" /\ trim (refEid r) = refEid r
  /\ forall f, In f [activeStatus; onLeave; country; jobTitle] ->
       f r <> Some ""
       /\ truthy (f r) = Validators.isSome (f r)
       /\ forall s, f r = Some s -> trim s = s.
Proof.
  intros _ P Hr.
  destruct (parseReference_cases numberToString rows)
    as [[T _]|(i & header & Lt & Hn & _ & _ & P')];
    [rewrite T in P; discriminate|].
  rewrite P' in P.
  assert (recs = ReferenceFile.collect numberToString
                   (ReferenceFile.fillColMap numberToString 0 header [])
                   (skipn (S i) rows)) as -> by (unfold Ok in P; congruence).
  apply collect_In in Hr as (j & cells & Hj & Hrec).
  unfold ReferenceFile.recordOfRow in Hrec. cbv zeta in Hrec.
  rewrite !column_spec in Hrec.
  destruct (_ =? "")%string eqn:E; [discriminate|].
  apply (f_equal (fun o => match o with Some x => x | None => r end)) in Hrec.
  cbv beta iota in Hrec. subst r.
  cbn [refEid fullName activeStatus onLeave country jobTitle].
  split; [|split; [|split]].
  - exists header, cells. split.
    + apply (nth_error_In _ i). rewrite nth_error_firstn_lt by lia. exact Hn.
    + split; [|repeat split; reflexivity].
      apply (nth_error_In _ (S i + j)). rewrite <- Hj. symmetry.
      apply nth_error_skipn.
  - intros H. rewrite H in E. discriminate.
  - apply strVal_trimmed.
  - intros f Hf.
    assert (forall c,
              JsText.orNull (ExcelCells.strVal numberToString cells c)
              <> Some ""
              /\ truthy (JsText.orNull
                           (ExcelCells.strVal numberToString cells c))
                 = Validators.isSome
                     (JsText.orNull
                        (ExcelCells.strVal numberToString cells c))
              /\ forall s,
                   JsText.orNull (ExcelCells.strVal numberToString cells c)
                   = Some s -> trim s = s) as G.
    { intros c.
      destruct (orNull_clean _ (strVal_trimmed numberToString cells c))
        as (A & B & C).
      split; [exact A|]. split; [exact C|]. intros s Hs.
      apply (B s Hs). }
    destruct Hf as [<-|[<-|[<-|[<-|[]]]]];
      cbn [activeStatus onLeave country jobTitle]; apply G.
Qed.

Lemma X30_reference_records_witness :
  refEid
    (hd Samples.e1Roster
       (Samples.recordsOf
          (ReferenceFile.parseReferenceFile Samples.serialText
             Samples.rosterSheet)))
  <> ""
  /\ Samples.recordsOf
       (ReferenceFile.parseReferenceFile Samples.serialText
          Samples.rosterSheet)
     = [mkRef "E1" "Ann" None None None None].
Proof.
  destruct (X30_reference_records Samples.serialText Samples.rosterSheet
              (Samples.recordsOf
                 (ReferenceFile.parseReferenceFile Samples.serialText
                    Samples.rosterSheet))
              (hd Samples.e1Roster
                 (Samples.recordsOf
                    (ReferenceFile.parseReferenceFile Samples.serialText
                       Samples.rosterSheet)))
              eq_refl eq_refl (or_introl eq_refl)) as (_ & NE & _).
  split; [exact NE | reflexivity].
Defined.
